(** * Lightdash: CSV export service and user-attribute access filter

    A shallow embedding of

    - [CsvService] (backend, services/CsvService/CsvService.ts):
      [convertRowToCsv], [generateFileId], [writeRowsToFile],
      [convertSqlQueryResultsToCsv], [couldBeTruncated], [getCsvForChart];
    - the user-attribute utilities [hasUserAttribute], [hasUserAttributes]
      and [filterDimensionsFromExplore].

    JavaScript objects whose key order is observable ([Object.keys] of a
    result row) are association lists in enumeration order; objects used as
    dictionaries (the tables and dimensions of an explore, the user
    attribute map) are [gmap]s; array lengths and cell counts are integers
    in [Z]. Debug logging is left out.

    The access filter is embedded twice: on values, where explores are
    compared, and on a heap of objects behind references, where it shows
    that the filter allocates and never writes. The two are proved to
    agree. *)

From Stdlib Require Import ZArith Lia List Ascii String DecimalString.
From stdpp Require Import gmap strings list fin_maps sorting.

Open Scope string_scope.
Open Scope Z_scope.

(** ** JavaScript values that travel through the export pipeline *)

(** A cell of a warehouse row. Numbers are kept as integers and dates as
    epoch milliseconds: the service never computes with them, it only
    passes them on or hands them to a formatter. The last constructor is
    what a read [o[id]] of a label gives when [o] has no own property [id]
    and [id] names a member of [Object.prototype]: that member, a function
    (the prototype itself for [__proto__]). *)
Inductive Value : Type :=
  | VUndefined
  | VNull
  | VBoolean (b : bool)
  | VNumber (n : Z)
  | VString (s : string)
  | VDate (epochMs : Z)
  | VInherited (member : string).

#[global] Instance Value_eq_dec : EqDecision Value.
Proof. solve_decision. Defined.

(** [data === null || data === undefined] *)
Definition isNullish (v : Value) : bool :=
  match v with
  | VNull | VUndefined => true
  | _ => false
  end.

(** A value in a condition: [undefined], [null], [false], [0] and the
    empty string are falsy, every object and function is truthy. *)
Definition isTruthy (v : Value) : bool :=
  match v with
  | VUndefined | VNull => false
  | VBoolean b => b
  | VNumber n => negb (n =? 0)
  | VString s => negb (String.eqb s EmptyString)
  | VDate _ | VInherited _ => true
  end.

(** [typeof v === 'string'] *)
Definition isStringValue (v : Value) : bool :=
  match v with
  | VString _ => true
  | _ => false
  end.

(** A [Record<string, any>] whose key order matters: the own enumerable
    properties in [Object.keys] order. *)
Definition Row : Type := list (string * Value).

Definition Object_keys {A : Type} (o : list (string * A)) : list string :=
  map fst o.

(** Property read [o[id]]: the value of the own property, [undefined] when
    there is none. *)
Fixpoint getProp (o : Row) (id : string) : Value :=
  match o with
  | [] => VUndefined
  | (k, v) :: rest => if String.eqb k id then v else getProp rest id
  end.

(** ** Strings *)

Module JsString.

Definition isLower (c : ascii) : bool :=
  let n := nat_of_ascii c in ((97 <=? n) && (n <=? 122))%nat.
Definition isUpper (c : ascii) : bool :=
  let n := nat_of_ascii c in ((65 <=? n) && (n <=? 90))%nat.
Definition isDigit (c : ascii) : bool :=
  let n := nat_of_ascii c in ((48 <=? n) && (n <=? 57))%nat.

(** [String.prototype.toLowerCase] on code units below 256: the ASCII
    capitals and the Latin-1 capitals (U+00C0 to U+00DE except the
    multiplication sign U+00D7) move up by 32, everything else stays. *)
Definition lowerChar (c : ascii) : ascii :=
  let n := nat_of_ascii c in
  if isUpper c then ascii_of_nat (n + 32)
  else if ((192 <=? n) && (n <=? 222) && negb (n =? 215))%nat
       then ascii_of_nat (n + 32)
       else c.

Fixpoint toLowerCase (s : string) : string :=
  match s with
  | EmptyString => EmptyString
  | String c rest => String (lowerChar c) (toLowerCase rest)
  end.

Definition underscore : ascii := "_"%char.

(** The character class [[^a-z0-9]] under the [i] flag: everything but
    an ASCII letter of either case or a digit. *)
Definition nonAlphanumeric (c : ascii) : bool :=
  negb (isLower c || isUpper c || isDigit c).

Definition startsNonAlphanumeric (s : string) : bool :=
  match s with
  | String c _ => nonAlphanumeric c
  | EmptyString => false
  end.

(** [.replace(/[^a-z0-9]/gi, '_')]: every matching character is replaced
    on its own. *)
Fixpoint replaceNonAlphanumeric (s : string) : string :=
  match s with
  | EmptyString => EmptyString
  | String c rest =>
      String (if nonAlphanumeric c then underscore else c)
             (replaceNonAlphanumeric rest)
  end.

Definition startsWithUnderscore (s : string) : bool :=
  match s with
  | String c _ => Ascii.eqb c underscore
  | EmptyString => false
  end.

(** [.replace(/_{2,}/g, '_')]: a greedy match covers a whole run of two
    or more underscores and leaves one. Scanning from the left, an
    underscore that is followed by another one belongs to such a run and
    is dropped; the last underscore of the run is the one that stays. A
    lone underscore is not matched and stays too. *)
Fixpoint replaceUnderscoreRuns (s : string) : string :=
  match s with
  | EmptyString => EmptyString
  | String c rest =>
      if Ascii.eqb c underscore && startsWithUnderscore rest
      then replaceUnderscoreRuns rest
      else String c (replaceUnderscoreRuns rest)
  end.

(** What the description of the file name says about sanitization, read
    literally: walk over the string and put one underscore for every
    maximal run of non-alphanumeric characters. [inRun] tells whether
    the previous character already belonged to the current run. *)
Fixpoint runsToUnderscore (inRun : bool) (s : string) : string :=
  match s with
  | EmptyString => EmptyString
  | String c rest =>
      if nonAlphanumeric c
      then (if inRun then runsToUnderscore true rest
            else String underscore (runsToUnderscore true rest))
      else String c (runsToUnderscore false rest)
  end.

Fixpoint replicate (n : nat) (c : ascii) : string :=
  match n with
  | O => EmptyString
  | S n' => String c (replicate n' c)
  end.

End JsString.

(** ** moment: the part of the library the file id uses *)

Module Moment.

(** A moment broken into its calendar fields. [month] is the calendar
    month 1..12 (what the [MM] token prints); the library keeps
    milliseconds and nothing finer. *)
Record t : Type := mk {
  year : N;
  month : N;
  date : N;
  hour : N;
  minute : N;
  second : N;
  millisecond : N
}.

Definition digits (n : N) : string := NilZero.string_of_uint (N.to_uint n).

(** The library's [zeroFill]: the decimal digits, padded on the left
    with zeros up to [targetLength]. *)
Definition zeroFill (n : N) (targetLength : nat) : string :=
  let d := digits n in
  JsString.replicate (targetLength - String.length d) "0"%char +:+ d.

(** [time.format('YYYY-MM-DD-HH-mm-ss-SSSS')]. The token [SSSS] is the
    fraction of the second in four digits, which the library prints as
    the millisecond count times ten. *)
Definition format_fileId (time : t) : string :=
  zeroFill (year time) 4 +:+ "-" +:+
  zeroFill (month time) 2 +:+ "-" +:+
  zeroFill (date time) 2 +:+ "-" +:+
  zeroFill (hour time) 2 +:+ "-" +:+
  zeroFill (minute time) 2 +:+ "-" +:+
  zeroFill (second time) 2 +:+ "-" +:+
  zeroFill (millisecond time * 10) 4.

End Moment.

(** ** Configuration *)

Record QueryConfig : Type := { csvCellsLimit : Z }.

Record LightdashConfig : Type := {
  siteUrl : string;
  query : option QueryConfig
}.

(** [this.lightdashConfig.query?.csvCellsLimit || 100000]: a missing
    [query] section and a limit of zero both fall back to the default. *)
Definition cellsLimitOf (config : LightdashConfig) : Z :=
  match query config with
  | Some q => if csvCellsLimit q =? 0 then 100000 else csvCellsLimit q
  | None => 100000
  end.

(** ** CsvService.generateFileId and CsvService.couldBeTruncated *)

Definition sanitizeFileName (fileName : string) : string :=
  JsString.replaceUnderscoreRuns
    (JsString.replaceNonAlphanumeric (JsString.toLowerCase fileName)).

Definition generateFileId (fileName : string) (truncated : bool)
    (time : Moment.t) : string :=
  let timestamp := Moment.format_fileId time in
  let sanitizedFileName := sanitizeFileName fileName in
  "csv-" +:+ (if truncated then "incomplete_results-" else EmptyString) +:+
  sanitizedFileName +:+ "-" +:+ timestamp +:+ ".csv".

Definition couldBeTruncated (config : LightdashConfig) (rows : list Row)
    : bool :=
  match rows with
  | [] => false
  | row0 :: _ =>
      let numberRows := Z.of_nat (length rows) in
      let numberColumns := Z.of_nat (length (Object_keys row0)) in
      let cellsLimit := cellsLimitOf config in
      numberRows * numberColumns >=? cellsLimit - numberColumns
  end.

(** The column count the truncation rule speaks of: the number of keys of
    the first row, and zero when there is no row to count them on. *)
Definition columnCount (rows : list Row) : Z :=
  match rows with
  | [] => 0
  | row0 :: _ => Z.of_nat (length (Object_keys row0))
  end.

(** ** Arrays *)

(** [Array.prototype.indexOf]: the first index holding [x], [-1] when
    there is none. *)
Fixpoint indexOfFrom (l : list string) (x : string) (i : Z) : Z :=
  match l with
  | [] => -1
  | y :: rest => if String.eqb y x then i else indexOfFrom rest x (i + 1)
  end.

Definition indexOf (l : list string) (x : string) : Z := indexOfFrom l x 0.

(** [Array.prototype.includes] on strings. *)
Definition includes (l : list string) (x : string) : bool :=
  existsb (String.eqb x) l.

(** The property names of [Object.prototype]. An object literal, which
    is what the dictionaries of labels and items are, answers a read of
    one of these names with the inherited member when it has no own
    property of that name. *)
Definition Object_prototype_names : list string :=
  ["constructor"; "__defineGetter__"; "__defineSetter__";
   "hasOwnProperty"; "__lookupGetter__"; "__lookupSetter__";
   "isPrototypeOf"; "propertyIsEnumerable"; "toString"; "valueOf";
   "__proto__"; "toLocaleString"].

Definition inherited (id : string) : bool :=
  includes Object_prototype_names id.

(** [Array.prototype.sort] with a comparator. The language requires the
    sort to be stable; with a comparator that compares two keys, as the
    one of [writeRowsToFile] does, every stable sort returns the same
    array, so a stable insertion sort stands for the engine's. An element
    is placed before the first element of the sorted tail that does not
    compare below it. *)
Fixpoint insertSorted {A : Type} (compareFn : A → A → Z) (x : A)
    (sorted : list A) : list A :=
  match sorted with
  | [] => [x]
  | y :: rest =>
      if compareFn x y <=? 0 then x :: y :: rest
      else y :: insertSorted compareFn x rest
  end.

Fixpoint sortWith {A : Type} (compareFn : A → A → Z) (l : list A) : list A :=
  match l with
  | [] => []
  | x :: rest => insertSorted compareFn x (sortWith compareFn rest)
  end.

(** ** Items of a metric query *)

(** The values of the [DimensionType] and [SchedulerFormat] enums the
    service uses. *)
Definition SchedulerFormat_CSV : string := "csv".
Definition DimensionType_TIMESTAMP : string := "timestamp".
Definition DimensionType_DATE : string := "date".

(** A compiled dimension or metric: [fieldType] is ['dimension'] or
    ['metric'], [type] the value of its [DimensionType] or [MetricType]. *)
Record Field : Type := {
  fieldType : string;
  type : string;
  field_name : string;
  field_label : string;
  field_table : string;
  field_tableLabel : string
}.

Record TableCalculation : Type := {
  tc_name : string;
  tc_displayName : string;
  tc_sql : string
}.

Inductive Item : Type :=
  | ItemField (f : Field)
  | ItemTableCalculation (tc : TableCalculation).

(** [isField(item)], the type guard [item is Field] of the common
    package, applied to [itemMap[id]], which is [undefined] for an id the
    map does not have. *)
Definition isField (item : option Item) : bool :=
  match item with
  | Some (ItemField _) => true
  | _ => false
  end.

(** [item.type === t], read where [isField(item)] has been checked; a
    table calculation has no [type]. *)
Definition itemTypeIs (item : option Item) (t : string) : bool :=
  match item with
  | Some (ItemField f) => String.eqb (type f) t
  | _ => false
  end.

Record MetricQuery (Rest : Type) : Type := {
  mq_dimensions : list string;
  mq_metrics : list string;
  mq_tableCalculations : list TableCalculation;
  mq_rest : Rest
}.
Arguments mq_dimensions {Rest} _.
Arguments mq_metrics {Rest} _.
Arguments mq_tableCalculations {Rest} _.
Arguments mq_rest {Rest} _.

(** ** The world the service acts on *)

(** A CSV file or upload as the sequence of its records, header first,
    before [csv-stringify] encodes them. *)
Definition CsvRecords : Type := list (list Value).

Record DownloadCsvProperties : Type := {
  prop_jobId : string;
  prop_userId : string;
  prop_organizationId : string;
  prop_projectId : string;
  prop_fileType : string;
  prop_values : string;
  prop_limit : string;
  prop_storage : string;
  prop_context : string;
  prop_numColumns : Z;
  prop_numRows : option Z
}.

Record ApiSqlQueryResults : Type := {
  sql_rows : list Row;
  sql_fields : list (string * string)
}.

Record WorkerData : Type := {
  wd_results : ApiSqlQueryResults;
  wd_customLabels : option (gmap string string)
}.

Inductive Event : Type :=
  | AnalyticsTrack (event userId : string) (properties : DownloadCsvProperties)
  | S3UploadCsv (content : CsvRecords) (fileId : string)
  | SetTimeoutUnlink (path : string) (delayMs : Z)
  | WorkerStarted (script : string) (workerData : WorkerData).

Record World : Type := {
  files : gmap string CsvRecords;
  events : list Event
}.

Inductive Outcome (A : Type) : Type :=
  | Returned (a : A)
  | Thrown (error : string).
Arguments Returned {A} a.
Arguments Thrown {A} error.

#[global] Instance Outcome_ret : MRet Outcome := λ A a, Returned a.
#[global] Instance Outcome_bind : MBind Outcome := λ A B f m,
  match m with
  | Returned a => f a
  | Thrown e => Thrown e
  end.

(** [array.map(callback)] with a callback that may throw: the first throw
    ends the traversal. *)
Fixpoint mapOutcome {A B : Type} (callback : A → Outcome B) (l : list A)
    : Outcome (list B) :=
  match l with
  | [] => Returned []
  | x :: rest =>
      y ← callback x ; ys ← mapOutcome callback rest ; mret (y :: ys)
  end.

(** A computation of the service: it changes the world and returns or
    throws. *)
Definition IO (A : Type) : Type := World → World * Outcome A.

#[global] Instance IO_ret : MRet IO := λ A a w, (w, Returned a).
#[global] Instance IO_bind : MBind IO := λ A B f m w,
  match m w with
  | (w', Returned a) => f a w'
  | (w', Thrown e) => (w', Thrown e)
  end.

Definition throw {A : Type} (error : string) : IO A :=
  λ w, (w, Thrown error).

(** Awaiting a collaborator, or running a synchronous step, that answers
    or throws and leaves the files alone. *)
Definition awaitIO {A : Type} (o : Outcome A) : IO A :=
  λ w, (w, o).

Definition emit (e : Event) : IO unit :=
  λ w, ({| files := files w; events := events w ++ [e] |}, Returned tt).

Definition writeFile (path : string) (content : CsvRecords) : IO unit :=
  λ w, ({| files := <[path := content]> (files w); events := events w |},
        Returned tt).

Definition readFile (path : string) : IO CsvRecords :=
  λ w, match files w !! path with
       | Some content => (w, Returned content)
       | None => (w, Thrown "ENOENT")
       end.

Record AttachmentUrl : Type := {
  att_path : string;
  att_filename : string;
  att_localPath : string;
  att_truncated : bool
}.

Inductive SchedulerLimit : Type :=
  | LimitTable
  | LimitAll
  | LimitCustom (n : Z).

Record SchedulerCsvOptions : Type := {
  opt_formatted : option bool;
  opt_limit : option SchedulerLimit
}.

(** [number | null | undefined] *)
Inductive CsvLimit : Type :=
  | CsvLimitUndefined
  | CsvLimitNull
  | CsvLimitNumber (n : Z).

Definition getSchedulerCsvLimit (options : option SchedulerCsvOptions)
    : CsvLimit :=
  match options with
  | None => CsvLimitUndefined
  | Some o =>
      match opt_limit o with
      | Some LimitTable | None => CsvLimitUndefined
      | Some LimitAll => CsvLimitNull
      | Some (LimitCustom n) => CsvLimitNumber n
      end
  end.

Record SessionUser : Type := {
  userUuid : string;
  organizationUuid : string
}.

(** A JavaScript string in a condition: [undefined] and the empty string
    are falsy. *)
Definition truthy (s : option string) : bool :=
  match s with
  | Some s' => negb (String.eqb s' EmptyString)
  | None => false
  end.

(** Sample inputs at the boundary of the truncation rule. *)
Definition tenColumnRow : Row :=
  map (λ k, (k, VNull)) ["a"; "b"; "c"; "d"; "e"; "f"; "g"; "h"; "i"; "j"].

Definition configuredLimit : LightdashConfig :=
  {| siteUrl := "http://localhost:8080";
     query := Some {| csvCellsLimit := 100000 |} |}.

Definition rows9998 : list Row := repeat tenColumnRow (Z.to_nat 9998).
Definition rows9999 : list Row := repeat tenColumnRow (Z.to_nat 9999).

Definition time_2024_01_02 : Moment.t :=
  Moment.mk 2024 1 2 3 4 5 0.

(** ** CsvService *)

Section CsvService.

(** Helpers of the common package and of third-party libraries, which
    the service only calls. *)
Variable friendlyName : string → string.
Variable isMomentInput : Value → bool.
(** [moment(value).format(pattern)] *)
Variable momentFormat : Value → string → string.
Variable formatItemValue : option Item → Value → Value.
Variable getItemLabel : Item → string.
Variable getItemLabelWithoutTableName : Item → string.
(** The same two functions handed a member of [Object.prototype] where an
    item was meant. This is outside their type, and the common package is
    not among the sources: what they answer there, or throw, is a
    parameter. *)
Variable getItemLabelOfMember : string → Outcome Value.
Variable getItemLabelWithoutTableNameOfMember : string → Outcome Value.
(** [stringify(records, {delimiter: ','}, callback)] of csv-stringify,
    with the error the callback may receive. *)
Variable stringify : CsvRecords → Outcome string.

(** [customLabels[id]]: the own label; without one, the member of
    [Object.prototype] that [id] names, if it names one; else
    [undefined]. *)
Definition customLabelOf (customLabels : gmap string string) (id : string)
    : Value :=
  match customLabels !! id with
  | Some l => VString l
  | None => if inherited id then VInherited id else VUndefined
  end.

Definition isRowValueTimestamp (value : Value) (fieldType : string) : bool :=
  isMomentInput value && String.eqb fieldType DimensionType_TIMESTAMP.

Definition isRowValueDate (value : Value) (fieldType : string) : bool :=
  isMomentInput value && String.eqb fieldType DimensionType_DATE.

(** [Object.values(row)[fieldIndex]] *)
Definition valueAt (row : Row) (fieldIndex : nat) : Value :=
  nth fieldIndex (map snd row) VUndefined.

Definition convertSqlToCsv (results : ApiSqlQueryResults)
    (customLabels : option (gmap string string)) : Outcome string :=
  let customLabels := default ∅ customLabels in
  match sql_rows results with
  | [] => Thrown "TypeError"
  | row0 :: _ =>
      let csvHeader :=
        map (λ id,
               if isTruthy (customLabelOf customLabels id)
               then customLabelOf customLabels id
               else VString (friendlyName id))
            (Object_keys row0) in
      let csvBody :=
        map (λ row,
               imap (λ fieldIndex field,
                       let rowValue := valueAt row fieldIndex in
                       if isRowValueTimestamp rowValue (snd field)
                       then VString (momentFormat rowValue
                                                  "YYYY-MM-DD HH:mm:ss")
                       else if isRowValueDate rowValue (snd field)
                       then VString (momentFormat rowValue "YYYY-MM-DD")
                       else valueAt row fieldIndex)
                    (sql_fields results))
            (sql_rows results) in
      stringify (csvHeader :: csvBody)
  end.

(** Modelled from the spec: the worker script
    [dist/services/CsvService/convertSqlToCsv.js], which is not among the
    sources; the worker re-runs the pure [convertSqlToCsv] conversion on
    the [workerData] it was started with. *)
Definition convertSqlToCsvWorker (workerData : WorkerData)
    : Outcome string :=
  convertSqlToCsv (wd_results workerData) (wd_customLabels workerData).

(** Modelled from the spec: [runWorkerThread(new Worker(script,
    {workerData}))] of the utils module, which is not among the sources
    either, for the one script the service starts: a worker is started and
    the promise settles with what the worker's conversion gives. *)
Definition runWorkerThread (script : string) (workerData : WorkerData)
    : IO string :=
  λ w, ({| files := files w;
           events := events w ++ [WorkerStarted script workerData] |},
        convertSqlToCsvWorker workerData).

Definition convertRowToCsv (row : Row) (itemMap : gmap string Item)
    (onlyRaw : bool) (sortedFieldIds : list string) : list Value :=
  map (λ id,
         let data := getProp row id in
         let item := itemMap !! id in
         if isNullish data then data
         else
           let itemIsField := isField item in
           if itemIsField && itemTypeIs item DimensionType_TIMESTAMP
           then VString (momentFormat data "YYYY-MM-DD HH:mm:ss")
           else if itemIsField && itemTypeIs item DimensionType_DATE
           then VString (momentFormat data "YYYY-MM-DD")
           else if onlyRaw then data
           else formatItemValue item data)
      sortedFieldIds.

(** The ids [writeRowsToFile] keeps and their order. *)
Definition selectedFieldIdsOf {Rest} (metricQuery : MetricQuery Rest)
    : list string :=
  mq_metrics metricQuery ++ mq_dimensions metricQuery ++
  map tc_name (mq_tableCalculations metricQuery).

Definition sortedFieldIdsOf (row0 : Row) (selectedFieldIds : list string)
    (columnOrder : list string) : list string :=
  sortWith (λ a b, indexOf columnOrder a - indexOf columnOrder b)
           (List.filter (λ id, includes selectedFieldIds id)
                        (Object_keys row0)).

(** The callback that makes the header of a column. [itemMap[id]] is read
    like [customLabels[id]]: an own item, else an inherited member, which
    is truthy and is handed to the label function, else [undefined]. *)
Definition csvHeaderOf (itemMap : gmap string Item) (showTableNames : bool)
    (customLabels : gmap string string) (id : string) : Outcome Value :=
  if isTruthy (customLabelOf customLabels id)
  then Returned (customLabelOf customLabels id)
  else
    match itemMap !! id with
    | Some item =>
        Returned (VString (if showTableNames then getItemLabel item
                           else getItemLabelWithoutTableName item))
    | None =>
        if inherited id
        then (if showTableNames then getItemLabelOfMember id
              else getItemLabelWithoutTableNameOfMember id)
        else Returned (VString id)
    end.

(** The header a column is meant to have, and has when both reads find
    an own property or nothing: the custom label when a non-empty one is
    set, else the label of the item, else the id. *)
Definition expectedHeaderOf (itemMap : gmap string Item)
    (showTableNames : bool) (customLabels : gmap string string)
    (id : string) : string :=
  let itemLabelOrId :=
    match itemMap !! id with
    | Some item =>
        if showTableNames then getItemLabel item
        else getItemLabelWithoutTableName item
    | None => id
    end in
  match customLabels !! id with
  | Some l => if String.eqb l EmptyString then itemLabelOrId else l
  | None => itemLabelOrId
  end.

(** [now] is the reading of the clock that [generateFileId] takes when it
    is called without a time. The write stream is created before the
    first row is looked at, so a call that throws leaves an empty file
    behind: without rows, reading the keys of the first row throws a
    [TypeError]; with rows, the header is made, and
    [stringify({ columns: csvHeader })] of csv-stringify throws its
    "Invalid column definition" error when a column is not a string (it
    also takes an object with a [key], which no value here is). Then the
    pipeline writes the header and one record per row. *)
Definition writeRowsToFile {Rest} (now : Moment.t) (rows : list Row)
    (onlyRaw : bool) (metricQuery : MetricQuery Rest)
    (itemMap : gmap string Item) (showTableNames : bool)
    (fileName : string) (truncated : bool)
    (customLabels : gmap string string) (columnOrder : list string)
    : IO string :=
  let selectedFieldIds := selectedFieldIdsOf metricQuery in
  let fileId := generateFileId fileName truncated now in
  writeFile ("/tmp/" +:+ fileId) [] ;;
  match rows with
  | [] => throw "TypeError"
  | row0 :: _ =>
      let sortedFieldIds :=
        sortedFieldIdsOf row0 selectedFieldIds columnOrder in
      csvHeader ← awaitIO
                    (mapOutcome
                       (csvHeaderOf itemMap showTableNames customLabels)
                       sortedFieldIds) ;
      if forallb isStringValue csvHeader then
        writeFile ("/tmp/" +:+ fileId)
                  (csvHeader ::
                   map (λ chunk, convertRowToCsv chunk itemMap onlyRaw
                                                 sortedFieldIds) rows) ;;
        mret fileId
      else throw "Invalid column definition"
  end.

Definition convertSqlQueryResultsToCsv (results : ApiSqlQueryResults)
    (customLabels : option (gmap string string)) : IO string :=
  if 500 <? Z.of_nat (length (sql_rows results)) then
    runWorkerThread "./dist/services/CsvService/convertSqlToCsv.js"
      {| wd_results := results; wd_customLabels := customLabels |}
  else
    λ w, (w, convertSqlToCsv results customLabels).

(** *** getCsvForChart *)

Variables (Explore ChartConfig DashboardFilters MetricQueryRest : Type).

Record SavedChart : Type := {
  chart_name : string;
  chart_projectUuid : string;
  chart_tableName : string;
  chart_metricQuery : MetricQuery MetricQueryRest;
  chart_config : ChartConfig;
  chart_columnOrder : list string
}.

(** The collaborators of the service. The models and services that are
    awaited answer or reject; the helpers of the common package are
    functions. *)
Variable lightdashConfig : LightdashConfig.
Variable savedChartModel_get : string → Outcome SavedChart.
Variable projectService_getExplore :
  SessionUser → string → string → Outcome Explore.
Variable projectService_runMetricQuery :
  SessionUser → MetricQuery MetricQueryRest → string → string →
  CsvLimit → Outcome (list Row).
Variable s3Service_isEnabled : bool.
Variable s3Service_uploadCsv : CsvRecords → string → Outcome string.
Variable exploreTableNames : Explore → list string.
Variable getDashboardFiltersForTile :
  string → list string → DashboardFilters → DashboardFilters.
Variable addDashboardFiltersToMetricQuery :
  MetricQuery MetricQueryRest → DashboardFilters →
  MetricQuery MetricQueryRest.
(** [getItemMap(explore, additionalMetrics, tableCalculations)], the
    last two taken from the metric query it is given here. *)
Variable getItemMap :
  Explore → MetricQuery MetricQueryRest → gmap string Item.
Variable parseAnalyticsLimit : option SchedulerLimit → string.
Variable isTableChartConfig : ChartConfig → bool.
Variable config_showTableNames : ChartConfig → option bool.
Variable getCustomLabelsFromTableConfig :
  ChartConfig → gmap string string.

(** [tileUuid && dashboardFilters ? getDashboardFiltersForTile(...) :
    undefined] *)
Definition dashboardFiltersForTileOf (explore : Explore)
    (tileUuid : option string) (dashboardFilters : option DashboardFilters)
    : option DashboardFilters :=
  match tileUuid, dashboardFilters with
  | Some t, Some filters =>
      if truthy tileUuid
      then Some (getDashboardFiltersForTile
                   t (exploreTableNames explore) filters)
      else None
  | _, _ => None
  end.

(** [dashboardFiltersForTile ? addDashboardFiltersToMetricQuery(...) :
    metricQuery] *)
Definition metricQueryWithDashboardFiltersOf
    (metricQuery : MetricQuery MetricQueryRest)
    (dashboardFiltersForTile : option DashboardFilters)
    : MetricQuery MetricQueryRest :=
  match dashboardFiltersForTile with
  | Some filters => addDashboardFiltersToMetricQuery metricQuery filters
  | None => metricQuery
  end.

Definition getCsvForChart (now : Moment.t) (user : SessionUser)
    (chartUuid : string) (options : option SchedulerCsvOptions)
    (jobId : option string) (tileUuid : option string)
    (dashboardFilters : option DashboardFilters) : IO AttachmentUrl :=
  chart ← awaitIO (savedChartModel_get chartUuid) ;
  let metricQuery := chart_metricQuery chart in
  let config := chart_config chart in
  let exploreId := chart_tableName chart in
  let onlyRaw :=
    match options with
    | Some o => match opt_formatted o with
                | Some false => true
                | _ => false
                end
    | None => false
    end in
  let analyticProperties :=
    if truthy jobId then
      Some {| prop_jobId := default EmptyString jobId;
              prop_userId := userUuid user;
              prop_organizationId := organizationUuid user;
              prop_projectId := chart_projectUuid chart;
              prop_fileType := SchedulerFormat_CSV;
              prop_values := if onlyRaw then "raw" else "formatted";
              prop_limit :=
                parseAnalyticsLimit (options ≫= opt_limit);
              prop_storage := if s3Service_isEnabled then "s3" else "local";
              prop_context := "scheduled delivery chart";
              prop_numColumns :=
                Z.of_nat (length (mq_dimensions metricQuery)) +
                Z.of_nat (length (mq_metrics metricQuery)) +
                Z.of_nat (length (mq_tableCalculations metricQuery));
              prop_numRows := None |}
    else None in
  match analyticProperties with
  | Some p => emit (AnalyticsTrack "download_results.started"
                                   (userUuid user) p)
  | None => mret tt
  end ;;
  explore ← awaitIO (projectService_getExplore
                       user (chart_projectUuid chart) exploreId) ;
  let dashboardFiltersForTile :=
    dashboardFiltersForTileOf explore tileUuid dashboardFilters in
  let metricQueryWithDashboardFilters :=
    metricQueryWithDashboardFiltersOf metricQuery
                                      dashboardFiltersForTile in
  rows ← awaitIO (projectService_runMetricQuery
                    user metricQueryWithDashboardFilters
                    (chart_projectUuid chart) exploreId
                    (getSchedulerCsvLimit options)) ;
  let numberRows := Z.of_nat (length rows) in
  if numberRows =? 0 then
    mret {| att_path := "#no-results";
            att_filename := chart_name chart +:+ " (empty)";
            att_localPath := EmptyString;
            att_truncated := true |}
  else
    let itemMap := getItemMap explore metricQueryWithDashboardFilters in
    let truncated := couldBeTruncated lightdashConfig rows in
    fileId ← writeRowsToFile now rows onlyRaw
               metricQueryWithDashboardFilters itemMap
               (if isTableChartConfig config
                then default false (config_showTableNames config)
                else true)
               (chart_name chart) truncated
               (getCustomLabelsFromTableConfig config)
               (chart_columnOrder chart) ;
    match analyticProperties with
    | Some p =>
        emit (AnalyticsTrack "download_results.completed" (userUuid user)
                {| prop_jobId := prop_jobId p;
                   prop_userId := prop_userId p;
                   prop_organizationId := prop_organizationId p;
                   prop_projectId := prop_projectId p;
                   prop_fileType := prop_fileType p;
                   prop_values := prop_values p;
                   prop_limit := prop_limit p;
                   prop_storage := prop_storage p;
                   prop_context := prop_context p;
                   prop_numColumns := prop_numColumns p;
                   prop_numRows := Some numberRows |})
    | None => mret tt
    end ;;
    if s3Service_isEnabled then
      csvContent ← readFile ("/tmp/" +:+ fileId) ;
      emit (S3UploadCsv csvContent fileId) ;;
      s3Url ← awaitIO (s3Service_uploadCsv csvContent fileId) ;
      emit (SetTimeoutUnlink ("/tmp/" +:+ fileId) (60 * 10 * 1000)) ;;
      mret {| att_path := s3Url;
              att_filename := chart_name chart;
              att_localPath := "/tmp/" +:+ fileId;
              att_truncated := truncated |}
    else
      let localUrl :=
        siteUrl lightdashConfig +:+ "/api/v1/projects/" +:+
        chart_projectUuid chart +:+ "/csv/" +:+ fileId in
      mret {| att_path := localUrl;
              att_filename := chart_name chart;
              att_localPath := "/tmp/" +:+ fileId;
              att_truncated := truncated |}.

(** The rows the project service answers the chart's query with, when
    the chart, its explore and the query all answer. *)
Definition chartRowsOf (user : SessionUser) (chartUuid : string)
    (options : option SchedulerCsvOptions) (tileUuid : option string)
    (dashboardFilters : option DashboardFilters) : Outcome (list Row) :=
  chart ← savedChartModel_get chartUuid ;
  explore ← projectService_getExplore user (chart_projectUuid chart)
                                      (chart_tableName chart) ;
  projectService_runMetricQuery user
    (metricQueryWithDashboardFiltersOf
       (chart_metricQuery chart)
       (dashboardFiltersForTileOf explore tileUuid dashboardFilters))
    (chart_projectUuid chart) (chart_tableName chart)
    (getSchedulerCsvLimit options).

End CsvService.

Arguments chart_name {ChartConfig MetricQueryRest} _.
Arguments chart_projectUuid {ChartConfig MetricQueryRest} _.
Arguments chart_tableName {ChartConfig MetricQueryRest} _.
Arguments chart_metricQuery {ChartConfig MetricQueryRest} _.
Arguments chart_config {ChartConfig MetricQueryRest} _.
Arguments chart_columnOrder {ChartConfig MetricQueryRest} _.

(** Sample inputs of the service. *)
Definition createdAtField : Field :=
  {| fieldType := "dimension"; type := "timestamp";
     field_name := "created_at"; field_label := "Created at";
     field_table := "orders"; field_tableLabel := "Orders" |}.

Definition sampleItemMap : gmap string Item :=
  {[ "orders_created_at" := ItemField createdAtField ]}.

Definition sampleRow : Row :=
  [("orders_created_at", VDate 1704164645000); ("orders_status", VNull)].

Definition sampleMomentFormat (v : Value) (pattern : string) : string :=
  pattern.

Definition sampleFormatItemValue (item : option Item) (v : Value) : Value :=
  VString "formatted".

Definition emptyChart : SavedChart unit unit :=
  {| chart_name := "Orders";
     chart_projectUuid := "project-1";
     chart_tableName := "orders";
     chart_metricQuery :=
       {| mq_dimensions := ["orders_status"];
          mq_metrics := ["orders_count"];
          mq_tableCalculations := [];
          mq_rest := tt |};
     chart_config := tt;
     chart_columnOrder := [] |}.

Definition sampleUser : SessionUser :=
  {| userUuid := "user-1"; organizationUuid := "org-1" |}.

Definition emptyWorld : World := {| files := ∅; events := [] |}.

(** A query with a table calculation named [constructor], a row of its
    result, and the item map made for it. *)
Definition constructorCalculation : TableCalculation :=
  {| tc_name := "constructor";
     tc_displayName := "Constructor";
     tc_sql := "1" |}.

Definition constructorQuery : MetricQuery unit :=
  {| mq_dimensions := ["orders_status"];
     mq_metrics := [];
     mq_tableCalculations := [constructorCalculation];
     mq_rest := tt |}.

Definition constructorRow : Row :=
  [("orders_status", VString "complete"); ("constructor", VNumber 1)].

Definition constructorItemMap : gmap string Item :=
  {[ "constructor" := ItemTableCalculation constructorCalculation ]}.

(** ** User attributes: the access filter on values *)

(** [UserAttributeValueMap]: attribute name to value. [undefined] is what
    reading an absent attribute gives. *)
Definition UserAttributeValueMap : Type := gmap string Value.

Definition hasUserAttribute (userAttributes : gmap string Value)
    (attributeName value : string) : bool :=
  bool_decide (default VUndefined (userAttributes !! attributeName)
               = VString value).

(** [Object.entries] of an object used as a dictionary. *)
Definition Object_entries {A : Type} (o : gmap string A)
    : list (string * A) :=
  map_to_list o.

Definition hasUserAttributes
    (requiredAttributes : option (gmap string string))
    (userAttributes : gmap string Value) : bool :=
  match requiredAttributes with
  | None => true
  | Some required =>
      forallb (λ attribute,
                 let '(attributeName, value) := attribute in
                 hasUserAttribute userAttributes attributeName value)
              (Object_entries required)
  end.

Section Explore.

(** What an explore, a table and a dimension carry besides the fields
    the filter looks at; the filter copies it over. *)
Context {ExploreRest TableRest MetricT DimensionRest : Type}.

Record CompiledDimension : Type := {
  dimension_rest : DimensionRest;
  requiredAttributes : option (gmap string string)
}.

(** The [dimensions] of a table. The reduction that rebuilds them starts
    from the array literal [[]] and only makes an object once a dimension
    is kept, so a table that keeps none ends up with the empty array. *)
Inductive Dimensions : Type :=
  | EmptyArray
  | DimensionsObject (entries : gmap string CompiledDimension).

(** The own enumerable properties: what [{...acc}] copies and what
    [Object.entries] lists. *)
Definition dimensionEntries (d : Dimensions)
    : gmap string CompiledDimension :=
  match d with
  | EmptyArray => ∅
  | DimensionsObject entries => entries
  end.

Record CompiledTable : Type := {
  table_rest : TableRest;
  metrics : gmap string MetricT;
  dimensions : Dimensions
}.

Record Explore : Type := {
  explore_rest : ExploreRest;
  tables : gmap string CompiledTable
}.

Definition exploreHasFilteredAttribute (explore : Explore) : bool :=
  existsb (λ table,
             existsb (λ dimension,
                        bool_decide (requiredAttributes dimension ≠ None))
                     (map snd (Object_entries
                                 (dimensionEntries (dimensions table)))))
          (map snd (Object_entries (tables explore))).

(** The inner reduction, over the dimensions of one table. *)
Definition filterDimensions (userAttributes : gmap string Value)
    (tableDimensions : Dimensions) : Dimensions :=
  foldl (λ acc tableDimension,
           let '(dimensionName, dimension) := tableDimension in
           if hasUserAttributes (requiredAttributes dimension)
                                userAttributes
           then DimensionsObject
                  (<[dimensionName := dimension]> (dimensionEntries acc))
           else acc)
        EmptyArray
        (Object_entries (dimensionEntries tableDimensions)).

Definition filterDimensionsFromExplore (explore : Explore)
    (userAttributes : gmap string Value) : Explore :=
  {| explore_rest := explore_rest explore;
     tables :=
       foldl (λ at_ exploreTable,
                let '(tableName, table) := exploreTable in
                <[tableName :=
                    {| table_rest := table_rest table;
                       metrics := metrics table;
                       dimensions :=
                         filterDimensions userAttributes
                                          (dimensions table) |}]> at_)
             ∅
             (Object_entries (tables explore)) |}.

(** One step of the inner reduction. *)
Definition keepStep (userAttributes : gmap string Value) (acc : Dimensions)
    (tableDimension : string * CompiledDimension) : Dimensions :=
  let '(dimensionName, dimension) := tableDimension in
  if hasUserAttributes (requiredAttributes dimension) userAttributes
  then DimensionsObject
         (<[dimensionName := dimension]> (dimensionEntries acc))
  else acc.

Definition keptOf (userAttributes : gmap string Value)
    (d : CompiledDimension) : option CompiledDimension :=
  if hasUserAttributes (requiredAttributes d) userAttributes
  then Some d else None.

(** What the outer reduction does to one table. *)
Definition filterTable (userAttributes : gmap string Value)
    (table : CompiledTable) : CompiledTable :=
  {| table_rest := table_rest table;
     metrics := metrics table;
     dimensions := filterDimensions userAttributes (dimensions table) |}.

(** What the description of the access filter asks of a dimension it
    keeps: no required attributes, or for every entry the user's attribute
    is the expected value. *)
Definition entitled (userAttributes : gmap string Value)
    (dimension : CompiledDimension) : Prop :=
  match requiredAttributes dimension with
  | None => True
  | Some required =>
      ∀ attribute expectedValue,
        required !! attribute = Some expectedValue →
        userAttributes !! attribute = Some (VString expectedValue)
  end.

End Explore.

Arguments CompiledDimension : clear implicits.
Arguments Dimensions : clear implicits.
Arguments CompiledTable : clear implicits.
Arguments Explore : clear implicits.

(** A sample explore and a sample user. *)
Definition statusDimension : CompiledDimension string :=
  {| dimension_rest := "status"; requiredAttributes := None |}.

Definition emailDimension : CompiledDimension string :=
  {| dimension_rest := "email";
     requiredAttributes := Some {[ "is_admin" := "true" ]} |}.

Definition ordersTable : CompiledTable string string string :=
  {| table_rest := "orders";
     metrics := {[ "count" := "COUNT(*)" ]};
     dimensions :=
       DimensionsObject {[ "status" := statusDimension;
                           "email" := emailDimension ]} |}.

Definition sampleExplore : Explore string string string string :=
  {| explore_rest := "orders"; tables := {[ "orders" := ordersTable ]} |}.

Definition analystAttributes : gmap string Value :=
  {[ "is_admin" := VString "false" ]}.

(** ** User attributes: the access filter on the object heap

    The same functions once more, this time with the objects where
    JavaScript keeps them: in a heap, reached through references, so that
    sharing and identity are visible. Object and array literals allocate;
    the functions contain no assignment, so nothing else touches the
    heap. *)

Module Heap.

Abbreviation loc := positive.

Inductive JsVal : Type :=
  | JUndefined
  | JNull
  | JBoolean (b : bool)
  | JNumber (n : Z)
  | JString (s : string)
  | JRef (l : loc).

#[global] Instance JsVal_eq_dec : EqDecision JsVal.
Proof. solve_decision. Defined.

(** An object: whether it is an array, and its own enumerable
    properties. *)
Record JsObject : Type := {
  isArray : bool;
  props : gmap string JsVal
}.

Abbreviation heap := (gmap loc JsObject).

(** A computation on the heap; [None] is a thrown [TypeError]. *)
Definition H (A : Type) : Type := heap → option (A * heap).

#[global] Instance H_ret : MRet H := λ A a h, Some (a, h).
#[global] Instance H_bind : MBind H := λ A B f m h,
  match m h with
  | Some (a, h') => f a h'
  | None => None
  end.

(** An object or array literal. *)
Definition alloc (o : JsObject) : H JsVal :=
  λ h, let l := fresh (dom h) in Some (JRef l, <[l := o]> h).

Definition objectOf (h : heap) (v : JsVal) : option JsObject :=
  match v with
  | JRef l => h !! l
  | _ => None
  end.

(** Reading through a value that has to be an object: property access,
    spread into an object literal, and [Object.entries], which throw on
    [undefined] and [null]. By their types the functions meet no other
    primitive value there. *)
Definition getObject (v : JsVal) : H JsObject :=
  λ h, match objectOf h v with
       | Some o => Some (o, h)
       | None => None
       end.

(** [o[key]] *)
Definition get (o : JsObject) (key : string) : JsVal :=
  default JUndefined (props o !! key).

Definition entries (o : JsObject) : list (string * JsVal) :=
  map_to_list (props o).

(** [Array.prototype.reduce] with an initial value. *)
Fixpoint reduce {A B : Type} (callback : B → A → H B) (l : list A)
    (initial : B) : H B :=
  match l with
  | [] => mret initial
  | x :: rest => acc ← callback initial x ; reduce callback rest acc
  end.

(** [Array.prototype.every], which stops at the first failure. *)
Fixpoint every {A : Type} (callback : A → H bool) (l : list A) : H bool :=
  match l with
  | [] => mret true
  | x :: rest =>
      ok ← callback x ; if ok : bool then every callback rest else mret false
  end.

Definition hasUserAttribute (userAttributes : JsVal)
    (attributeName : string) (value : JsVal) : H bool :=
  attributes ← getObject userAttributes ;
  mret (bool_decide (get attributes attributeName = value)).

Definition hasUserAttributes (requiredAttributes userAttributes : JsVal)
    : H bool :=
  match requiredAttributes with
  | JUndefined => mret true
  | _ =>
      required ← getObject requiredAttributes ;
      every (λ attribute,
               let '(attributeName, value) := attribute in
               hasUserAttribute userAttributes attributeName value)
            (entries required)
  end.

(** The callback of the inner reduction: a kept dimension goes into a
    new object next to what [acc] has, a dropped one leaves [acc] as it
    is. *)
Definition keepDimension (userAttributes acc : JsVal)
    (tableDimension : string * JsVal) : H JsVal :=
  let '(dimensionName, dimension) := tableDimension in
  dimensionObject ← getObject dimension ;
  keep ← hasUserAttributes (get dimensionObject "requiredAttributes")
                           userAttributes ;
  if keep : bool then
    spreadAcc ← getObject acc ;
    alloc {| isArray := false;
             props := <[dimensionName := dimension]> (props spreadAcc) |}
  else mret acc.

(** The callback of the outer reduction: a copy of the table with new
    [dimensions], put into a new object next to what [at_] has. *)
Definition copyTable (userAttributes at_ : JsVal)
    (exploreTable : string * JsVal) : H JsVal :=
  let '(tableName, table) := exploreTable in
  spreadAt ← getObject at_ ;
  spreadTable ← getObject table ;
  tableDimensions ← getObject (get spreadTable "dimensions") ;
  emptyArray ← alloc {| isArray := true; props := ∅ |} ;
  newDimensions ← reduce (keepDimension userAttributes)
                         (entries tableDimensions) emptyArray ;
  newTable ← alloc {| isArray := false;
                      props := <["dimensions" := newDimensions]>
                                 (props spreadTable) |} ;
  alloc {| isArray := false;
           props := <[tableName := newTable]> (props spreadAt) |}.

Definition filterDimensionsFromExplore (explore userAttributes : JsVal)
    : H JsVal :=
  exploreObject ← getObject explore ;
  exploreTables ← getObject (get exploreObject "tables") ;
  emptyTables ← alloc {| isArray := false; props := ∅ |} ;
  newTables ← reduce (copyTable userAttributes) (entries exploreTables)
                     emptyTables ;
  alloc {| isArray := false;
           props := <["tables" := newTables]> (props exploreObject) |}.

(** *** Well-typed arguments, as the heap holds them *)

Definition isObjectIn (h : heap) (v : JsVal) : Prop :=
  is_Some (objectOf h v).

Definition isString (v : JsVal) : Prop :=
  match v with
  | JString _ => True
  | _ => False
  end.

(** [requiredAttributes?: Record<string, string>] *)
Definition isRequiredIn (h : heap) (v : JsVal) : Prop :=
  match v with
  | JUndefined => True
  | _ =>
      match objectOf h v with
      | Some required => map_Forall (λ _ value, isString value)
                                    (props required)
      | None => False
      end
  end.

Definition isDimensionIn (h : heap) (v : JsVal) : Prop :=
  match objectOf h v with
  | Some o => isRequiredIn h (get o "requiredAttributes")
  | None => False
  end.

(** [dimensions: Record<string, CompiledDimension>], or the empty array
    that an earlier run of the filter left in its place. *)
Definition isDimensionsIn (h : heap) (v : JsVal) : Prop :=
  match objectOf h v with
  | Some o =>
      (isArray o = true → props o = ∅)
      ∧ map_Forall (λ _ d, isDimensionIn h d) (props o)
  | None => False
  end.

Definition isTableIn (h : heap) (v : JsVal) : Prop :=
  match objectOf h v with
  | Some o =>
      isObjectIn h (get o "metrics")
      ∧ isDimensionsIn h (get o "dimensions")
  | None => False
  end.

Definition isExploreIn (h : heap) (v : JsVal) : Prop :=
  match objectOf h v with
  | Some o =>
      match objectOf h (get o "tables") with
      | Some ot => map_Forall (λ _ t, isTableIn h t) (props ot)
      | None => False
      end
  | None => False
  end.

#[global] Instance isString_dec v : Decision (isString v).
Proof. destruct v; cbn; apply _. Defined.

#[global] Instance isRequiredIn_dec h v : Decision (isRequiredIn h v).
Proof.
  unfold isRequiredIn.
  destruct v; try apply _; destruct (objectOf h _); apply _.
Defined.

#[global] Instance isDimensionIn_dec h v : Decision (isDimensionIn h v).
Proof. unfold isDimensionIn. destruct (objectOf h v); apply _. Defined.

#[global] Instance isDimensionsIn_dec h v : Decision (isDimensionsIn h v).
Proof. unfold isDimensionsIn. destruct (objectOf h v); apply _. Defined.

#[global] Instance isTableIn_dec h v : Decision (isTableIn h v).
Proof. unfold isTableIn. destruct (objectOf h v); apply _. Defined.

#[global] Instance isExploreIn_dec h v : Decision (isExploreIn h v).
Proof.
  unfold isExploreIn. destruct (objectOf h v) as [o|]; [|apply _].
  destruct (objectOf h (get o "tables")); apply _.
Defined.

(** The values a reduction carries along: references to objects that
    were made after the call started. *)
Definition madeSince (h0 h : heap) (v : JsVal) : Prop :=
  ∃ l o, v = JRef l ∧ h !! l = Some o ∧ h0 !! l = None.

(** The accumulator of the outer reduction: an object made since the
    call started, whose properties are tables. *)
Definition tablesSince (h0 h : heap) (v : JsVal) (o : JsObject) : Prop :=
  madeSince h0 h v ∧ objectOf h v = Some o
  ∧ map_Forall (λ _ t, isTableIn h t) (props o).

(** *** From the heap back to values

    What an explore in the heap is as a value of the first embedding. A
    dimension keeps its identity: what the value carries besides the
    required attributes is the reference itself. A table and an explore
    carry their other properties. *)

Definition asString (v : JsVal) : option string :=
  match v with
  | JString s => Some s
  | _ => None
  end.

(** An object is no string, which is all the filter asks of an attribute
    value. *)
Definition toValue (v : JsVal) : Value :=
  match v with
  | JUndefined => VUndefined
  | JNull => VNull
  | JBoolean b => VBoolean b
  | JNumber n => VNumber n
  | JString s => VString s
  | JRef _ => VNull
  end.

Definition reifyAttributes (h : heap) (v : JsVal) : gmap string Value :=
  match objectOf h v with
  | Some o => toValue <$> props o
  | None => ∅
  end.

Definition reifyRequired (h : heap) (v : JsVal)
    : option (gmap string string) :=
  match v with
  | JUndefined => None
  | _ =>
      match objectOf h v with
      | Some required => Some (omap asString (props required))
      | None => None
      end
  end.

Definition reifyDimension (h : heap) (v : JsVal) : CompiledDimension JsVal :=
  {| dimension_rest := v;
     requiredAttributes :=
       match objectOf h v with
       | Some o => reifyRequired h (get o "requiredAttributes")
       | None => None
       end |}.

Definition reifyDimensions (h : heap) (v : JsVal) : Dimensions JsVal :=
  match objectOf h v with
  | Some o =>
      if isArray o then EmptyArray
      else DimensionsObject (reifyDimension h <$> props o)
  | None => EmptyArray
  end.

Definition reifyTable (h : heap) (v : JsVal)
    : CompiledTable (gmap string JsVal) JsVal JsVal :=
  match objectOf h v with
  | Some o =>
      {| table_rest := delete "dimensions" (props o);
         metrics := match objectOf h (get o "metrics") with
                    | Some om => props om
                    | None => ∅
                    end;
         dimensions := reifyDimensions h (get o "dimensions") |}
  | None => {| table_rest := ∅; metrics := ∅; dimensions := EmptyArray |}
  end.

Definition reifyExplore (h : heap) (v : JsVal)
    : Explore (gmap string JsVal) (gmap string JsVal) JsVal JsVal :=
  match objectOf h v with
  | Some o =>
      {| explore_rest := delete "tables" (props o);
         tables := match objectOf h (get o "tables") with
                   | Some ot => reifyTable h <$> props ot
                   | None => ∅
                   end |}
  | None => {| explore_rest := ∅; tables := ∅ |}
  end.

Definition object (properties : list (string * JsVal)) : JsObject :=
  {| isArray := false; props := list_to_map properties |}.

(** An explore with one table, one metric and two dimensions, one of them
    for administrators only, and the attributes of a user who is none. *)
Definition sampleHeap : heap :=
  list_to_map
    [ (1%positive, object [("name", JString "orders");
                           ("tables", JRef 2)]);
      (2%positive, object [("orders", JRef 3)]);
      (3%positive, object [("name", JString "orders");
                           ("dimensions", JRef 4);
                           ("metrics", JRef 9)]);
      (4%positive, object [("status", JRef 5); ("email", JRef 6)]);
      (5%positive, object [("name", JString "status")]);
      (6%positive, object [("name", JString "email");
                           ("requiredAttributes", JRef 7)]);
      (7%positive, object [("is_admin", JString "true")]);
      (8%positive, object [("is_admin", JString "false")]);
      (9%positive, object [("count", JRef 10)]);
      (10%positive, object [("sql", JString "COUNT(*)")]) ].

End Heap.

(** * Further definitions

    Character classes of file names, more sample inputs, and the download
    endpoints of the service with the world they act on. *)

(** ** Characters of a string *)

Fixpoint allChars (p : ascii → bool) (s : string) : bool :=
  match s with
  | EmptyString => true
  | String c rest => p c && allChars p rest
  end.

(** Two underscores in a row somewhere in the string. *)
Fixpoint hasUnderscoreRun (s : string) : bool :=
  match s with
  | EmptyString => false
  | String c rest =>
      (Ascii.eqb c JsString.underscore
       && JsString.startsWithUnderscore rest)
      || hasUnderscoreRun rest
  end.

(** What a sanitized file name is made of. *)
Definition isSanitizedChar (c : ascii) : bool :=
  JsString.isLower c || JsString.isDigit c
  || Ascii.eqb c JsString.underscore.

(** What a file id is made of: the above, the hyphen and the dot. *)
Definition isFileIdChar (c : ascii) : bool :=
  isSanitizedChar c || Ascii.eqb c "-"%char || Ascii.eqb c "."%char.

(** ** Sample inputs *)

Definition smallLimit : LightdashConfig :=
  {| siteUrl := "http://localhost:8080";
     query := Some {| csvCellsLimit := 20 |} |}.

Definition ordersQuery : MetricQuery unit :=
  {| mq_dimensions := ["orders_status"];
     mq_metrics := ["orders_count"];
     mq_tableCalculations := [];
     mq_rest := tt |}.

Definition ordersRow : Row :=
  [("orders_status", VString "complete"); ("orders_count", VNumber 3);
   ("orders_internal", VString "x")].

Definition ordersSqlResults : ApiSqlQueryResults :=
  {| sql_rows := [ordersRow];
     sql_fields := [("orders_status", "string"); ("orders_count", "number")]
  |}.

Definition noSqlResults : ApiSqlQueryResults :=
  {| sql_rows := [];
     sql_fields := [("orders_status", "string")] |}.

Definition isAnalyticsTrack (e : Event) : bool :=
  match e with
  | AnalyticsTrack _ _ _ => true
  | _ => false
  end.


(** A chart export over sample collaborators: the chart named Orders,
    whose query answers with one row. *)
Definition ordersChartExport (s3 : bool) (jobId : option string)
    : IO AttachmentUrl :=
  getCsvForChart sampleMomentFormat sampleFormatItemValue
    (λ _, "label") (λ _, "label") (λ _, Returned VUndefined)
    (λ _, Returned VUndefined) unit unit unit unit configuredLimit
    (λ _, Returned emptyChart) (λ _ _ _, Returned tt)
    (λ _ _ _ _ _, Returned [ordersRow]) s3
    (λ _ _, Returned "https://bucket/file") (λ _, ["orders"]) (λ _ _ f, f)
    (λ mq _, mq) (λ _ _, sampleItemMap) (λ _, "results") (λ _, true)
    (λ _, None) (λ _, ∅) time_2024_01_02 sampleUser "chart-1" None jobId
    None None.

(** An explore none of whose dimensions declares required attributes,
    and a user with one attribute more than the analyst. *)
Definition openTable : CompiledTable string string string :=
  {| table_rest := "orders";
     metrics := {[ "count" := "COUNT(*)" ]};
     dimensions := DimensionsObject {[ "status" := statusDimension ]} |}.

Definition openExplore : Explore string string string string :=
  {| explore_rest := "orders"; tables := {[ "orders" := openTable ]} |}.

Definition staffAttributes : gmap string Value :=
  <[ "team" := VString "sales" ]> analystAttributes.

(** ** The download endpoints

    [downloadCsv] and [downloadSqlCsv] catch what their collaborators
    throw and track analytics whose properties differ
    from one event to the next. Their world has the files and one log of
    what happened, in order. The content of a file is what was handed to
    the writer: the records of [writeRowsToFile], or the text of
    [convertSqlQueryResultsToCsv]. *)

Inductive ServiceEvent (Content : Type) : Type :=
  (** [analytics.track({ event, userId, properties })] *)
  | Track (event userId : string) (properties : gmap string Value)
  (** a call of [s3Service.uploadCsv(content, fileId)] *)
  | Upload (content : Content) (fileId : string)
  (** what a step on [World] (see [liftIO]) left in its own log *)
  | Inner (e : Event).
Arguments Track {Content} event userId properties.
Arguments Upload {Content} content fileId.
Arguments Inner {Content} e.

Record ServiceWorld (Content : Type) : Type := {
  sw_files : gmap string Content;
  sw_log : list (ServiceEvent Content)
}.
Arguments sw_files {Content} _.
Arguments sw_log {Content} _.

Definition Service (Content A : Type) : Type :=
  ServiceWorld Content → ServiceWorld Content * Outcome A.

#[global] Instance Service_ret {Content} : MRet (Service Content) :=
  λ A a sw, (sw, Returned a).
#[global] Instance Service_bind {Content} : MBind (Service Content) :=
  λ A B f m sw,
    match m sw with
    | (sw', Returned a) => f a sw'
    | (sw', Thrown e) => (sw', Thrown e)
    end.

(** [try { body } catch (e) { handler }] *)
Definition tryCatch {Content A : Type} (body : Service Content A)
    (handler : string → Service Content A) : Service Content A :=
  λ sw,
    match body sw with
    | (sw', Returned a) => (sw', Returned a)
    | (sw', Thrown e) => handler e sw'
    end.

(** Awaiting a collaborator that answers or rejects. *)
Definition await {Content A : Type} (o : Outcome A) : Service Content A :=
  λ sw, (sw, o).

Definition track {Content : Type} (event userId : string)
    (properties : gmap string Value) : Service Content unit :=
  λ sw, ({| sw_files := sw_files sw;
            sw_log := sw_log sw ++ [Track event userId properties] |},
         Returned tt).

Definition fsWriteFile {Content : Type} (path : string)
    (content : Content) : Service Content unit :=
  λ sw, ({| sw_files := <[path := content]> (sw_files sw);
            sw_log := sw_log sw |},
         Returned tt).

Definition fsReadFile {Content : Type} (path : string)
    : Service Content Content :=
  λ sw, match sw_files sw !! path with
        | Some content => (sw, Returned content)
        | None => (sw, Thrown "ENOENT")
        end.

Definition fsUnlink {Content : Type} (path : string)
    : Service Content unit :=
  λ sw, match sw_files sw !! path with
        | Some _ => ({| sw_files := delete path (sw_files sw);
                        sw_log := sw_log sw |},
                     Returned tt)
        | None => (sw, Thrown "ENOENT")
        end.

(** A step on [World], run on the same files; what it logs goes into
    the log, in its place. *)
Definition liftIO {A : Type} (m : IO A) : Service CsvRecords A :=
  λ sw,
    let '(w', o) := m {| files := sw_files sw; events := [] |} in
    ({| sw_files := files w';
        sw_log := sw_log sw ++ (Inner <$> events w') |},
     o).

(** The conversion of SQL results, which touches no file. *)
Definition liftConversion {A : Type} (m : IO A) : Service string A :=
  λ sw,
    let '(w', o) := m {| files := ∅; events := [] |} in
    ({| sw_files := sw_files sw;
        sw_log := sw_log sw ++ (Inner <$> events w') |},
     o).

Record DownloadMetricCsv (Rest : Type) : Type := {
  dl_userUuid : string;
  dl_projectUuid : string;
  dl_exploreId : string;
  dl_metricQuery : MetricQuery Rest;
  dl_onlyRaw : bool;
  dl_csvLimit : CsvLimit;
  dl_showTableNames : bool;
  dl_customLabels : option (gmap string string);
  dl_columnOrder : option (list string)
}.
Arguments dl_userUuid {Rest} _.
Arguments dl_projectUuid {Rest} _.
Arguments dl_exploreId {Rest} _.
Arguments dl_metricQuery {Rest} _.
Arguments dl_onlyRaw {Rest} _.
Arguments dl_csvLimit {Rest} _.
Arguments dl_showTableNames {Rest} _.
Arguments dl_customLabels {Rest} _.
Arguments dl_columnOrder {Rest} _.

(** [{ fileUrl, truncated }] *)
Record DownloadCsvResult : Type := {
  fileUrl : string;
  res_truncated : bool
}.

Section DownloadEndpoints.

Variable friendlyName : string → string.
Variable isMomentInput : Value → bool.
Variable momentFormat : Value → string → string.
Variable formatItemValue : option Item → Value → Value.
Variable getItemLabel : Item → string.
Variable getItemLabelWithoutTableName : Item → string.
Variable getItemLabelOfMember : string → Outcome Value.
Variable getItemLabelWithoutTableNameOfMember : string → Outcome Value.
Variable stringify : CsvRecords → Outcome string.
Variables (ExploreT MetricQueryRest : Type).
Variable lightdashConfig : LightdashConfig.
(** [`${e}`] of what was thrown *)
Variable errorText : string → string.
Variable userModel_findSessionUserByUUID : string → Outcome SessionUser.
(** [user.ability.cannot(action, subject(type, { organizationUuid,
    projectUuid }))] *)
Variable ability_cannot :
  SessionUser → string → string → string → string → bool.
Variable projectService_getExplore :
  SessionUser → string → string → Outcome ExploreT.
Variable projectService_runMetricQuery :
  SessionUser → MetricQuery MetricQueryRest → string → string →
  CsvLimit → Outcome (list Row).
Variable projectService_runSqlQuery :
  SessionUser → string → string → Outcome ApiSqlQueryResults.
Variable s3Service_isEnabled : bool.
Variable getItemMap :
  ExploreT → MetricQuery MetricQueryRest → gmap string Item.
Variable parseAnalyticsLimit : CsvLimit → string.

Section Storage.

Context {Content : Type}.
Variable s3Service_uploadCsv : Content → string → Outcome string.

Definition uploadCsv (content : Content) (fileId : string)
    : Service Content string :=
  λ sw, ({| sw_files := sw_files sw;
            sw_log := sw_log sw ++ [Upload content fileId] |},
         s3Service_uploadCsv content fileId).

End Storage.

(** [baseAnalyticsProperties] of [downloadCsv] *)
Definition baseAnalyticsPropertiesOf (jobId : string)
    (payload : DownloadMetricCsv MetricQueryRest) (user : SessionUser)
    : gmap string Value :=
  {[ "jobId" := VString jobId;
     "userId" := VString (dl_userUuid payload);
     "organizationId" := VString (organizationUuid user);
     "projectId" := VString (dl_projectUuid payload);
     "fileType" := VString SchedulerFormat_CSV;
     "storage" := VString (if s3Service_isEnabled then "s3" else "local") ]}.

(** [analyticsProperties] of [downloadCsv] *)
Definition analyticsPropertiesOf (jobId : string)
    (payload : DownloadMetricCsv MetricQueryRest) (user : SessionUser)
    : gmap string Value :=
  let metricQuery := dl_metricQuery payload in
  let numberColumns :=
    Z.of_nat (length (mq_dimensions metricQuery)) +
    Z.of_nat (length (mq_metrics metricQuery)) +
    Z.of_nat (length (mq_tableCalculations metricQuery)) in
  <[ "numColumns" := VNumber numberColumns ]>
    (<[ "limit" := VString (parseAnalyticsLimit (dl_csvLimit payload)) ]>
       (<[ "context" := VString "results" ]>
          (<[ "values" := VString (if dl_onlyRaw payload
                                   then "raw" else "formatted") ]>
             (<[ "tableId" := VString (dl_exploreId payload) ]>
                (baseAnalyticsPropertiesOf jobId payload user))))).

Definition downloadCsv
    (s3Service_uploadCsv : CsvRecords → string → Outcome string)
    (now : Moment.t) (jobId : string)
    (payload : DownloadMetricCsv MetricQueryRest)
    : Service CsvRecords DownloadCsvResult :=
  let userUuid_ := dl_userUuid payload in
  let projectUuid := dl_projectUuid payload in
  let exploreId := dl_exploreId payload in
  let metricQuery := dl_metricQuery payload in
  let onlyRaw := dl_onlyRaw payload in
  let csvLimit := dl_csvLimit payload in
  user ← await (userModel_findSessionUserByUUID userUuid_) ;
  if ability_cannot user "manage" "ExportCsv" (organizationUuid user)
                    projectUuid
  then await (Thrown "ForbiddenError")
  else
    let baseAnalyticsProperties :=
      baseAnalyticsPropertiesOf jobId payload user in
    tryCatch
      (let analyticsProperties :=
         analyticsPropertiesOf jobId payload user in
       track "download_results.started" (userUuid user)
             analyticsProperties ;;
       rows ← await (projectService_runMetricQuery user metricQuery
                       projectUuid exploreId csvLimit) ;
       let numberRows := Z.of_nat (length rows) in
       explore ← await (projectService_getExplore user projectUuid
                          exploreId) ;
       let itemMap := getItemMap explore metricQuery in
       let truncated := couldBeTruncated lightdashConfig rows in
       fileId ← liftIO
                  (writeRowsToFile momentFormat formatItemValue
                     getItemLabel getItemLabelWithoutTableName
                     getItemLabelOfMember
                     getItemLabelWithoutTableNameOfMember now rows
                     onlyRaw metricQuery itemMap
                     (dl_showTableNames payload) exploreId truncated
                     (default ∅ (dl_customLabels payload))
                     (default [] (dl_columnOrder payload))) ;
       fileUrl_ ←
         (if s3Service_isEnabled then
            csvContent ← fsReadFile ("/tmp/" +:+ fileId) ;
            url ← uploadCsv s3Service_uploadCsv csvContent fileId ;
            fsUnlink ("/tmp/" +:+ fileId) ;;
            mret url
          else
            mret (siteUrl lightdashConfig +:+ "/api/v1/projects/" +:+
                  projectUuid +:+ "/csv/" +:+ fileId)) ;
       track "download_results.completed" (userUuid user)
             (<[ "numRows" := VNumber numberRows ]> analyticsProperties) ;;
       mret {| fileUrl := fileUrl_; res_truncated := truncated |})
      (λ e,
         track "download_results.error" (userUuid user)
               (<[ "error" := VString (errorText e) ]>
                  baseAnalyticsProperties) ;;
         await (Thrown e)).

(** [analyticsProperties] of [downloadSqlCsv] *)
Definition sqlAnalyticsPropertiesOf (jobId : string) (user : SessionUser)
    (projectUuid : string) : gmap string Value :=
  {[ "jobId" := VString jobId;
     "userId" := VString (userUuid user);
     "organizationId" := VString (organizationUuid user);
     "projectId" := VString projectUuid;
     "tableId" := VString "sql_runner";
     "values" := VString "raw";
     "context" := VString "sql runner";
     "fileType" := VString SchedulerFormat_CSV;
     "storage" := VString (if s3Service_isEnabled then "s3" else "local") ]}.

(** [jobId] is what [nanoid()] answers. *)
Definition downloadSqlCsv
    (s3Service_uploadCsv : string → string → Outcome string)
    (jobId : string) (user : SessionUser) (projectUuid sql : string)
    (customLabels : option (gmap string string))
    : Service string string :=
  let analyticsProperties :=
    sqlAnalyticsPropertiesOf jobId user projectUuid in
  tryCatch
    (if ability_cannot user "manage" "ExportCsv" (organizationUuid user)
                       projectUuid
     then await (Thrown "ForbiddenError")
     else
       track "download_results.started" (userUuid user)
             analyticsProperties ;;
       results ← await (projectService_runSqlQuery user projectUuid sql) ;
       csvContent ← liftConversion
                      (convertSqlQueryResultsToCsv friendlyName
                         isMomentInput momentFormat stringify results
                         customLabels) ;
       let fileId := "csv-" +:+ jobId +:+ ".csv" in
       fileUrl_ ←
         (if s3Service_isEnabled then
            uploadCsv s3Service_uploadCsv csvContent fileId
          else
            fsWriteFile ("/tmp/" +:+ fileId) csvContent ;;
            mret (siteUrl lightdashConfig +:+ "/api/v1/projects/" +:+
                  projectUuid +:+ "/csv/" +:+ fileId)) ;
       track "download_results.completed" (userUuid user)
             (<[ "numColumns" :=
                   VNumber (Z.of_nat (length (sql_fields results))) ]>
                (<[ "numRows" :=
                      VNumber (Z.of_nat (length (sql_rows results))) ]>
                   analyticsProperties)) ;;
       mret fileUrl_)
    (λ e,
       track "download_results.error" (userUuid user)
             (<[ "error" := VString (errorText e) ]> analyticsProperties) ;;
       await (Thrown e)).

End DownloadEndpoints.

Definition isTrack {Content : Type} (e : ServiceEvent Content) : bool :=
  match e with
  | Track _ _ _ => true
  | _ => false
  end.

Definition isUpload {Content : Type} (e : ServiceEvent Content) : bool :=
  match e with
  | Upload _ _ => true
  | _ => false
  end.

(** Sample inputs of the download endpoints: a payload for the orders
    explore, a disk without files, and the endpoints over collaborators
    that know one user, answer every query with the given rows or results,
    and upload to one place. *)
Definition samplePayload : DownloadMetricCsv unit :=
  {| dl_userUuid := "user-1";
     dl_projectUuid := "project-1";
     dl_exploreId := "orders";
     dl_metricQuery := ordersQuery;
     dl_onlyRaw := false;
     dl_csvLimit := CsvLimitUndefined;
     dl_showTableNames := true;
     dl_customLabels := None;
     dl_columnOrder := None |}.

Definition noFiles {Content : Type} : ServiceWorld Content :=
  {| sw_files := ∅; sw_log := [] |}.

Definition sampleDownloadCsv (s3 : bool) (rows : list Row)
    : Service CsvRecords DownloadCsvResult :=
  downloadCsv sampleMomentFormat sampleFormatItemValue (λ _, "label")
    (λ _, "label") (λ _, Returned VUndefined) (λ _, Returned VUndefined)
    unit unit configuredLimit (λ e, e)
    (λ _, Returned sampleUser) (λ _ _ _ _ _, false)
    (λ _ _ _, Returned tt) (λ _ _ _ _ _, Returned rows) s3
    (λ _ _, sampleItemMap) (λ _, "table")
    (λ _ _, Returned "https://bucket/file") time_2024_01_02 "job-1"
    samplePayload.

Definition sampleDownloadSqlCsv (s3 refused : bool)
    (results : ApiSqlQueryResults) : Service string string :=
  downloadSqlCsv (λ id, id) (λ _, false) sampleMomentFormat
    (λ _, Returned "status,count") configuredLimit (λ e, e)
    (λ _ _ _ _ _, refused) (λ _ _ _, Returned results) s3
    (λ _ _, Returned "https://bucket/file") "job-1" sampleUser "project-1"
    "select 1" None.

(** * Properties *)

(** ** The truncation heuristic *)

Lemma couldBeTruncated_unfold config rows :
  couldBeTruncated config rows =
  bool_decide (rows ≠ [] ∧
               Z.of_nat (length rows) * columnCount rows
               >= cellsLimitOf config - columnCount rows).
Proof.
  destruct rows as [|row0 rest].
  - symmetry. apply bool_decide_eq_false. intros [? _]. done.
  - unfold couldBeTruncated, columnCount.
    destruct (Z.geb_spec (Z.of_nat (length (row0 :: rest)) *
                          Z.of_nat (length (Object_keys row0)))
                         (cellsLimitOf config -
                          Z.of_nat (length (Object_keys row0)))) as [Hge|Hlt].
    + symmetry. apply bool_decide_eq_true. split; [done | lia].
    + symmetry. apply bool_decide_eq_false. intros [_ ?]. lia.
Qed.

(** C1, as the code has it. With a cells limit of 100000 (configured, or
    the default), an export is marked truncated exactly when the number of
    rows times the column count reaches the limit minus the column count,
    the column count being the number of keys of the first row. With ten
    columns that bound is 99990 cells: 9998 rows are not marked, 9999 rows
    and 10000 rows are. *)
Theorem couldBeTruncated_boundary (config : LightdashConfig)
    (rows : list Row) :
  cellsLimitOf config = 100000 →
  (couldBeTruncated config rows = true ↔
   Z.of_nat (length rows) * columnCount rows >= 100000 - columnCount rows)
  ∧ (columnCount rows = 10 → Z.of_nat (length rows) = 9998 →
     couldBeTruncated config rows = false)
  ∧ (columnCount rows = 10 → Z.of_nat (length rows) = 9999 →
     couldBeTruncated config rows = true)
  ∧ (columnCount rows = 10 → Z.of_nat (length rows) = 10000 →
     couldBeTruncated config rows = true).
Proof.
  intros Hlimit. rewrite couldBeTruncated_unfold, Hlimit.
  assert (Hne : ∀ n, 0 < n → Z.of_nat (length rows) = n → rows ≠ []).
  { intros n Hn Hlen ->. simpl in Hlen. lia. }
  split; [|split; [|split]].
  - rewrite bool_decide_eq_true. split; [tauto|].
    intros Hge. split; [|done].
    intros ->. simpl in Hge. lia.
  - intros Hcols Hlen. apply bool_decide_eq_false. intros [_ Hge].
    rewrite Hcols, Hlen in Hge. lia.
  - intros Hcols Hlen. apply bool_decide_eq_true.
    rewrite Hcols, Hlen. split; [apply (Hne 9999); [lia|done] | lia].
  - intros Hcols Hlen. apply bool_decide_eq_true.
    rewrite Hcols, Hlen. split; [apply (Hne 10000); [lia|done] | lia].
Qed.


Lemma couldBeTruncated_boundary_witness :
  cellsLimitOf configuredLimit = 100000
  ∧ couldBeTruncated configuredLimit rows9998 = false.
Proof.
  split; [reflexivity|].
  apply (couldBeTruncated_boundary configuredLimit rows9998);
    [reflexivity | reflexivity |].
  unfold rows9998. rewrite repeat_length. lia.
Defined.

(** C1, as stated, fails on its own example: 9999 rows of ten columns
    make 99990 cells, which already reaches 100000 - 10, so the export is
    marked truncated. *)
Lemma couldBeTruncated_9999_rows_marked :
  cellsLimitOf configuredLimit = 100000
  ∧ columnCount rows9999 = 10
  ∧ Z.of_nat (length rows9999) = 9999
  ∧ couldBeTruncated configuredLimit rows9999 ≠ false.
Proof.
  split; [reflexivity|]. split; [reflexivity|].
  split; [unfold rows9999; rewrite repeat_length; lia|].
  rewrite couldBeTruncated_unfold.
  rewrite bool_decide_eq_true_2; [discriminate|].
  split; [discriminate|].
  change (columnCount rows9999) with 10.
  unfold rows9999. rewrite repeat_length. vm_compute. discriminate.
Qed.

(** ** File ids *)

Module JsStringFacts.
Import JsString.


Lemma underscore_nonAlphanumeric c :
  Ascii.eqb c underscore = true → nonAlphanumeric c = true.
Proof. intros Heq%Ascii.eqb_eq. by subst. Qed.

Lemma startsWithUnderscore_replace s :
  startsWithUnderscore (replaceNonAlphanumeric s) = startsNonAlphanumeric s.
Proof.
  destruct s as [|c rest]; [done|]. simpl.
  destruct (nonAlphanumeric c) eqn:Hc; [done|].
  destruct (Ascii.eqb c underscore) eqn:Heq; [|done].
  apply underscore_nonAlphanumeric in Heq. congruence.
Qed.

(** The two regular-expression passes against the one-pass reading:
    the passes keep the last underscore of a run, the reading puts one
    at its start. *)
Lemma replace_passes_runs s :
  replaceUnderscoreRuns (replaceNonAlphanumeric s) = runsToUnderscore false s
  ∧ (if startsNonAlphanumeric s
     then String underscore (runsToUnderscore true s)
     else runsToUnderscore true s)
    = replaceUnderscoreRuns (replaceNonAlphanumeric s).
Proof.
  induction s as [|c rest [IH1 IH2]]; [done|].
  cbn [replaceNonAlphanumeric replaceUnderscoreRuns runsToUnderscore
       startsNonAlphanumeric].
  rewrite startsWithUnderscore_replace.
  destruct (nonAlphanumeric c) eqn:Hc.
  - change (Ascii.eqb underscore underscore) with true. cbn [andb].
    destruct (startsNonAlphanumeric rest) eqn:Hrest.
    + by rewrite <- IH2.
    + by rewrite <- IH2.
  - destruct (Ascii.eqb c underscore) eqn:Heq.
    { apply underscore_nonAlphanumeric in Heq. congruence. }
    cbn [andb]. by rewrite IH1.
Qed.

(** A run of two or more underscores comes out as one underscore. *)
Lemma replaceUnderscoreRuns_run n s :
  startsWithUnderscore s = false →
  replaceUnderscoreRuns (replicate (S (S n)) underscore +:+ s)
  = String underscore (replaceUnderscoreRuns s).
Proof.
  intros Hs. induction n as [|n IH].
  - change (replicate 2 underscore +:+ s)
      with (String underscore (String underscore s)).
    cbn [replaceUnderscoreRuns].
    change (startsWithUnderscore (String underscore s)) with true.
    change (Ascii.eqb underscore underscore) with true.
    by rewrite Hs.
  - change (replicate (S (S (S n))) underscore +:+ s)
      with (String underscore (replicate (S (S n)) underscore +:+ s)).
    cbn [replaceUnderscoreRuns]. rewrite <- IH. done.
Qed.

End JsStringFacts.

Lemma sanitizeFileName_runs fileName :
  sanitizeFileName fileName
  = JsString.runsToUnderscore false (JsString.toLowerCase fileName).
Proof. apply JsStringFacts.replace_passes_runs. Qed.

(** C2, as the code has it. For every file name, truncated flag and
    timestamp the file id is
    [csv-[incomplete_results-]<sanitized-name>-<timestamp>.csv]: the
    marker is there exactly when [truncated] is set, and the sanitized name
    is the lower-cased name with every run of non-alphanumeric characters
    replaced by a single underscore, a run at the end of the name
    included. ["My Chart!!"] at 2024-01-02 03:04:05 therefore gives
    [csv-my_chart_-2024-01-02-03-04-05-0000.csv]. *)
Theorem generateFileId_format (fileName : string) (truncated : bool)
    (time : Moment.t) :
  generateFileId fileName truncated time
  = "csv-" +:+ (if truncated then "incomplete_results-" else EmptyString) +:+
    JsString.runsToUnderscore false (JsString.toLowerCase fileName) +:+
    "-" +:+ Moment.format_fileId time +:+ ".csv"
  ∧ generateFileId "My Chart!!" false time_2024_01_02
    = "csv-my_chart_-2024-01-02-03-04-05-0000.csv".
Proof.
  split; [|reflexivity].
  unfold generateFileId. by rewrite sanitizeFileName_runs.
Qed.

(** Whatever the timestamp, the underscore is there. *)
Lemma generateFileId_example_never (time : Moment.t) :
  generateFileId "My Chart!!" false time
  ≠ "csv-my_chart-2024-01-02-03-04-05-0006.csv".
Proof.
  unfold generateFileId.
  change (sanitizeFileName "My Chart!!") with "my_chart_".
  cbn [String.append]. discriminate.
Qed.

(** C2, as stated, fails: the two exclamation marks of ["My Chart!!"]
    leave an underscore before the timestamp, so the file id is not
    [csv-my_chart-2024-01-02-03-04-05-0006.csv]. *)
Lemma generateFileId_example_differs :
  generateFileId "My Chart!!" false time_2024_01_02
  ≠ "csv-my_chart-2024-01-02-03-04-05-0006.csv".
Proof. vm_compute. discriminate. Qed.

(** ** Rows to CSV cells *)

Section ConvertRowFacts.

Variable momentFormat : Value → string → string.
Variable formatItemValue : option Item → Value → Value.

Let convert := convertRowToCsv momentFormat formatItemValue.

Lemma convertRowToCsv_length row itemMap onlyRaw sortedFieldIds :
  length (convert row itemMap onlyRaw sortedFieldIds)
  = length sortedFieldIds.
Proof. apply length_map. Qed.

(** The cell at a position is decided by the id at that position
    alone. *)
Lemma convertRowToCsv_lookup row itemMap onlyRaw sortedFieldIds i id :
  sortedFieldIds !! i = Some id →
  convert row itemMap onlyRaw sortedFieldIds !! i
  = Some (let data := getProp row id in
          let item := itemMap !! id in
          if isNullish data then data
          else if isField item && itemTypeIs item DimensionType_TIMESTAMP
          then VString (momentFormat data "YYYY-MM-DD HH:mm:ss")
          else if isField item && itemTypeIs item DimensionType_DATE
          then VString (momentFormat data "YYYY-MM-DD")
          else if onlyRaw then data
          else formatItemValue item data).
Proof.
  intros Hid. unfold convert, convertRowToCsv.
  rewrite list_lookup_fmap, Hid. done.
Qed.

(** C8. Whatever the row, the item map, the list of ids and the
    [onlyRaw] flag: where the row holds [null] or [undefined] for an id
    (an id the row does not have reads as [undefined]), the cell is that
    very value. *)
Theorem convertRowToCsv_nullish_unchanged (row : Row)
    (itemMap : gmap string Item) (onlyRaw : bool)
    (sortedFieldIds : list string) (i : nat) (id : string) :
  sortedFieldIds !! i = Some id →
  getProp row id = VNull ∨ getProp row id = VUndefined →
  convert row itemMap onlyRaw sortedFieldIds !! i = Some (getProp row id).
Proof.
  intros Hid Hnull.
  rewrite (convertRowToCsv_lookup _ _ _ _ _ _ Hid). cbn zeta.
  by destruct Hnull as [-> | ->].
Qed.

(** C9. A cell that is neither [null] nor [undefined] and belongs to a
    field of type timestamp or date is formatted with the pattern of that
    type, with [onlyRaw] set or not; with [onlyRaw] set, a cell that is
    neither [null] nor [undefined] and belongs to anything else (a field
    of another type, a table calculation, an id without item) is the raw
    value. *)
Theorem convertRowToCsv_dates_before_onlyRaw (row : Row)
    (itemMap : gmap string Item) (onlyRaw : bool)
    (sortedFieldIds : list string) (i : nat) (id : string) :
  sortedFieldIds !! i = Some id →
  isNullish (getProp row id) = false →
  let data := getProp row id in
  let cell := convert row itemMap onlyRaw sortedFieldIds !! i in
  (∀ f, itemMap !! id = Some (ItemField f) →
        type f = DimensionType_TIMESTAMP →
        cell = Some (VString (momentFormat data "YYYY-MM-DD HH:mm:ss")))
  ∧ (∀ f, itemMap !! id = Some (ItemField f) →
          type f = DimensionType_DATE →
          cell = Some (VString (momentFormat data "YYYY-MM-DD")))
  ∧ (onlyRaw = true →
     (∀ f, itemMap !! id = Some (ItemField f) →
           type f ≠ DimensionType_TIMESTAMP ∧ type f ≠ DimensionType_DATE) →
     cell = Some data).
Proof.
  intros Hid Hdata data cell. subst cell data.
  rewrite (convertRowToCsv_lookup _ _ _ _ _ _ Hid). cbn zeta.
  rewrite Hdata.
  split; [|split].
  - intros f -> Htype. cbn [isField itemTypeIs andb]. by rewrite Htype.
  - intros f -> Htype. cbn [isField itemTypeIs andb]. by rewrite Htype.
  - intros -> Hother.
    destruct (itemMap !! id) as [[f|tc]|]; cbn [isField itemTypeIs andb];
      [|done..].
    destruct (Hother f eq_refl) as [Hts Hdate].
    apply String.eqb_neq in Hts, Hdate. by rewrite Hts, Hdate.
Qed.

End ConvertRowFacts.


Lemma convertRowToCsv_nullish_unchanged_witness :
  convertRowToCsv sampleMomentFormat sampleFormatItemValue sampleRow
    sampleItemMap false ["orders_created_at"; "orders_status"] !! 1%nat
  = Some VNull.
Proof.
  apply (convertRowToCsv_nullish_unchanged sampleMomentFormat
           sampleFormatItemValue sampleRow sampleItemMap false
           ["orders_created_at"; "orders_status"] 1 "orders_status").
  - reflexivity.
  - left. reflexivity.
Defined.

Lemma convertRowToCsv_dates_before_onlyRaw_witness :
  convertRowToCsv sampleMomentFormat sampleFormatItemValue sampleRow
    sampleItemMap true ["orders_created_at"; "orders_status"] !! 0%nat
  = Some (VString "YYYY-MM-DD HH:mm:ss").
Proof.
  refine (proj1 (convertRowToCsv_dates_before_onlyRaw sampleMomentFormat
                   sampleFormatItemValue sampleRow sampleItemMap true
                   ["orders_created_at"; "orders_status"] 0
                   "orders_created_at" _ _) createdAtField _ _);
    reflexivity.
Defined.

(** ** Sorting by a key *)

Section SortFacts.

Context {A : Type} (key : A → Z).

Let compareFn (a b : A) : Z := key a - key b.
Let le_key (a b : A) : Prop := key a <= key b.

Lemma insertSorted_Permutation x l :
  insertSorted compareFn x l ≡ₚ x :: l.
Proof.
  induction l as [|y rest IH]; [done|]. cbn [insertSorted].
  destruct (compareFn x y <=? 0); [done|].
  rewrite IH. apply Permutation_swap.
Qed.

Lemma sortWith_Permutation l : sortWith compareFn l ≡ₚ l.
Proof.
  induction l as [|x rest IH]; [done|]. cbn [sortWith].
  by rewrite insertSorted_Permutation, IH.
Qed.

Lemma insertSorted_StronglySorted x l :
  StronglySorted le_key l →
  StronglySorted le_key (insertSorted compareFn x l).
Proof.
  induction 1 as [|y rest Hrest IH Hy]; cbn [insertSorted].
  - repeat constructor.
  - destruct (Z.leb_spec (compareFn x y) 0) as [Hle|Hgt].
    + constructor; [by constructor|].
      assert (Hxy : le_key x y) by (unfold le_key, compareFn in *; lia).
      constructor; [done|].
      eapply Forall_impl; [exact Hy|].
      intros z Hz. unfold le_key in *. lia.
    + constructor; [done|].
      rewrite insertSorted_Permutation.
      constructor; [|done]. unfold le_key, compareFn in *. lia.
Qed.

Lemma sortWith_StronglySorted l :
  StronglySorted le_key (sortWith compareFn l).
Proof.
  induction l as [|x rest IH]; cbn [sortWith].
  - constructor.
  - by apply insertSorted_StronglySorted.
Qed.

Lemma StronglySorted_lookup_le l i j a b :
  StronglySorted le_key l → (i < j)%nat →
  l !! i = Some a → l !! j = Some b → key a <= key b.
Proof.
  intros Hsorted. revert i j.
  induction Hsorted as [|x rest Hrest IH Hx]; intros i j Hij Hi Hj.
  - done.
  - destruct j as [|j]; [lia|]. cbn in Hj.
    destruct i as [|i].
    + cbn in Hi. injection Hi as ->.
      rewrite Forall_forall in Hx. apply Hx.
      by eapply list_elem_of_lookup_2.
    + cbn in Hi. apply (IH i j); [lia|done..].
Qed.

(** Elements with the same key keep the order they came in. *)
Lemma insertSorted_keep k x l :
  List.filter (λ a, key a =? k) (insertSorted compareFn x l)
  = List.filter (λ a, key a =? k) (x :: l).
Proof.
  induction l as [|y rest IH]; [done|]. cbn [insertSorted].
  destruct (Z.leb_spec (compareFn x y) 0) as [Hle|Hgt]; [done|].
  cbn [List.filter] in *. rewrite IH.
  destruct (Z.eqb_spec (key y) k) as [Hy|Hy];
    destruct (Z.eqb_spec (key x) k) as [Hx|Hx]; try done.
  unfold compareFn in Hgt. lia.
Qed.

Lemma sortWith_stable k l :
  List.filter (λ a, key a =? k) (sortWith compareFn l)
  = List.filter (λ a, key a =? k) l.
Proof.
  induction l as [|x rest IH]; [done|]. cbn [sortWith].
  rewrite insertSorted_keep. cbn [List.filter]. by rewrite IH.
Qed.

End SortFacts.

Lemma includes_elem_of l x : includes l x = true ↔ x ∈ l.
Proof.
  unfold includes. rewrite existsb_exists. split.
  - intros (y & Hin & Heq). apply String.eqb_eq in Heq. subst.
    by apply list_elem_of_In.
  - intros Hin. exists x. split; [by apply list_elem_of_In|].
    apply String.eqb_refl.
Qed.

(** ** Columns of a written file *)

(** The columns are keys of the first row: when none of these names a
    member of [Object.prototype], no column does. *)
Lemma sortedFieldIdsOf_plain (row0 : Row)
    (selectedFieldIds columnOrder : list string) :
  Forall (λ id, inherited id = false) (Object_keys row0) →
  Forall (λ id, inherited id = false)
         (sortedFieldIdsOf row0 selectedFieldIds columnOrder).
Proof.
  intros Hkeys. unfold sortedFieldIdsOf.
  rewrite (sortWith_Permutation (indexOf columnOrder)).
  rewrite Forall_forall in Hkeys |- *. intros id Hid. apply Hkeys.
  apply list_elem_of_In, filter_In in Hid as [Hid _].
  by apply list_elem_of_In.
Qed.

Lemma mapOutcome_Returned {A B : Type} (callback : A → Outcome B)
    (result : A → B) (l : list A) :
  Forall (λ x, callback x = Returned (result x)) l →
  mapOutcome callback l = Returned (map result l).
Proof.
  induction 1 as [|x rest Hx _ IH]; [done|].
  cbn. rewrite Hx. cbn. rewrite IH. done.
Qed.

Lemma mapOutcome_length {A B : Type} (callback : A → Outcome B)
    (l : list A) (ys : list B) :
  mapOutcome callback l = Returned ys → length ys = length l.
Proof.
  revert ys. induction l as [|x rest IH]; intros ys.
  - by intros [= <-].
  - cbn. destruct (callback x) as [y|e]; [|done]. cbn.
    destruct (mapOutcome callback rest) as [ys'|e]; [|done]. cbn.
    intros [= <-]. cbn. by rewrite (IH ys').
Qed.

Section WriteRowsFacts.

Variable momentFormat : Value → string → string.
Variable formatItemValue : option Item → Value → Value.
Variable getItemLabel : Item → string.
Variable getItemLabelWithoutTableName : Item → string.
Variable getItemLabelOfMember : string → Outcome Value.
Variable getItemLabelWithoutTableNameOfMember : string → Outcome Value.
Context {Rest : Type}.

Let write :=
  @writeRowsToFile momentFormat formatItemValue getItemLabel
                   getItemLabelWithoutTableName getItemLabelOfMember
                   getItemLabelWithoutTableNameOfMember Rest.
Let header :=
  csvHeaderOf getItemLabel getItemLabelWithoutTableName
              getItemLabelOfMember getItemLabelWithoutTableNameOfMember.
Let expectedHeader :=
  expectedHeaderOf getItemLabel getItemLabelWithoutTableName.

(** For an id that names no member of [Object.prototype], the header is
    the expected one. *)
Lemma csvHeaderOf_expected (itemMap : gmap string Item)
    (showTableNames : bool) (customLabels : gmap string string)
    (id : string) :
  inherited id = false →
  header itemMap showTableNames customLabels id
  = Returned (VString (expectedHeader itemMap showTableNames customLabels
                                      id)).
Proof.
  intros Hid.
  unfold header, csvHeaderOf, expectedHeader, expectedHeaderOf,
    customLabelOf.
  rewrite Hid.
  destruct (customLabels !! id) as [l|]; cbn.
  - by destruct (String.eqb l EmptyString); cbn;
      [destruct (itemMap !! id)|].
  - by destruct (itemMap !! id).
Qed.

(** So is the header of a column with a non-empty custom label of its
    own, whatever its name. *)
Lemma csvHeaderOf_own_label (itemMap : gmap string Item)
    (showTableNames : bool) (customLabels : gmap string string)
    (id l : string) :
  customLabels !! id = Some l → l ≠ EmptyString →
  header itemMap showTableNames customLabels id = Returned (VString l).
Proof.
  intros Hl Hne. unfold header, csvHeaderOf, customLabelOf.
  rewrite Hl. cbn. by apply String.eqb_neq in Hne as ->.
Qed.

(** A read of a custom label that finds an inherited member makes that
    member the header. *)
Lemma csvHeaderOf_inherited (itemMap : gmap string Item)
    (showTableNames : bool) (customLabels : gmap string string)
    (id : string) :
  customLabels !! id = None → inherited id = true →
  header itemMap showTableNames customLabels id
  = Returned (VInherited id).
Proof.
  intros Hnone Hid. unfold header, csvHeaderOf, customLabelOf.
  by rewrite Hnone, Hid.
Qed.

(** What a call with rows does: it writes the header and the records and
    returns the file id, or it throws and leaves the file empty. *)
Lemma writeRowsToFile_rows_run (now : Moment.t) (row0 : Row)
    (rest : list Row) (onlyRaw : bool) (metricQuery : MetricQuery Rest)
    (itemMap : gmap string Item) (showTableNames : bool)
    (fileName : string) (truncated : bool)
    (customLabels : gmap string string) (columnOrder : list string)
    (w : World) :
  let fileId := generateFileId fileName truncated now in
  let ids :=
    sortedFieldIdsOf row0 (selectedFieldIdsOf metricQuery) columnOrder in
  let run :=
    write now (row0 :: rest) onlyRaw metricQuery itemMap showTableNames
          fileName truncated customLabels columnOrder w in
  (∃ csvHeader,
     mapOutcome (header itemMap showTableNames customLabels) ids
     = Returned csvHeader
     ∧ forallb isStringValue csvHeader = true
     ∧ run
       = ({| files :=
               <["/tmp/" +:+ fileId :=
                   csvHeader ::
                   map (λ row, convertRowToCsv momentFormat formatItemValue
                                               row itemMap onlyRaw ids)
                       (row0 :: rest)]> (files w);
             events := events w |},
          Returned fileId))
  ∨ (∃ e,
       run = ({| files := <["/tmp/" +:+ fileId := []]> (files w);
                 events := events w |},
              Thrown e)
       ∧ (mapOutcome (header itemMap showTableNames customLabels) ids
          = Thrown e
          ∨ ∃ csvHeader,
              mapOutcome (header itemMap showTableNames customLabels) ids
              = Returned csvHeader
              ∧ forallb isStringValue csvHeader = false
              ∧ e = "Invalid column definition")).
Proof.
  intros fileId ids run. subst run.
  unfold write, writeRowsToFile, mbind, IO_bind, writeFile, awaitIO,
    throw, mret, IO_ret.
  cbn -[generateFileId sortedFieldIdsOf].
  fold fileId. fold ids. fold header.
  destruct (mapOutcome (header itemMap showTableNames customLabels) ids)
    as [csvHeader|e] eqn:Hheader.
  - destruct (forallb isStringValue csvHeader) eqn:Hstrings.
    + left. exists csvHeader. split; [done|]. split; [done|].
      cbn. by rewrite insert_insert_eq.
    + right. exists "Invalid column definition". split; [done|].
      right. by exists csvHeader.
  - right. exists e. split; [done|]. by left.
Qed.

(** With columns that name no member of [Object.prototype] the call
    returns, and the header is the expected one. *)
Lemma writeRowsToFile_plain_run (now : Moment.t) (row0 : Row)
    (rest : list Row) (onlyRaw : bool) (metricQuery : MetricQuery Rest)
    (itemMap : gmap string Item) (showTableNames : bool)
    (fileName : string) (truncated : bool)
    (customLabels : gmap string string) (columnOrder : list string)
    (w : World) :
  Forall (λ id, inherited id = false)
         (sortedFieldIdsOf row0 (selectedFieldIdsOf metricQuery)
                           columnOrder) →
  write now (row0 :: rest) onlyRaw metricQuery itemMap showTableNames
        fileName truncated customLabels columnOrder w
  = ({| files :=
          <["/tmp/" +:+ generateFileId fileName truncated now :=
              map (λ id, VString (expectedHeader itemMap showTableNames
                                                 customLabels id))
                  (sortedFieldIdsOf row0 (selectedFieldIdsOf metricQuery)
                                    columnOrder) ::
              map (λ row,
                     convertRowToCsv momentFormat formatItemValue row
                       itemMap onlyRaw
                       (sortedFieldIdsOf row0
                          (selectedFieldIdsOf metricQuery) columnOrder))
                  (row0 :: rest)]> (files w);
        events := events w |},
     Returned (generateFileId fileName truncated now)).
Proof.
  set (fileId := generateFileId fileName truncated now).
  set (ids := sortedFieldIdsOf row0 (selectedFieldIdsOf metricQuery)
                               columnOrder).
  intros Hplain.
  assert (Hheader :
            mapOutcome (header itemMap showTableNames customLabels) ids
            = Returned (map (λ id, VString (expectedHeader
                                              itemMap showTableNames
                                              customLabels id)) ids)).
  { apply mapOutcome_Returned. eapply Forall_impl; [exact Hplain|].
    intros id Hid. by apply csvHeaderOf_expected. }
  destruct (writeRowsToFile_rows_run now row0 rest onlyRaw metricQuery
              itemMap showTableNames fileName truncated customLabels
              columnOrder w)
    as [(csvHeader & Hsame & _ & Hrun)|(e & _ & [Hthrown|Hinvalid])].
  - fold ids in Hsame. rewrite Hheader in Hsame.
    injection Hsame as <-. exact Hrun.
  - fold ids in Hthrown. rewrite Hheader in Hthrown. discriminate.
  - destruct Hinvalid as (csvHeader & Hsame & Hstrings & _).
    fold ids in Hsame. rewrite Hheader in Hsame. injection Hsame as <-.
    assert (Hall : forallb isStringValue
                     (map (λ id, VString (expectedHeader
                                            itemMap showTableNames
                                            customLabels id)) ids) = true).
    { apply forallb_forall. intros v Hv.
      by apply in_map_iff in Hv as (id & <- & _). }
    congruence.
Qed.

(** A call with rows throws only when a key of the first row names a
    member of [Object.prototype]. *)
Lemma writeRowsToFile_throws_inherited (now : Moment.t) (row0 : Row)
    (rest : list Row) (onlyRaw : bool) (metricQuery : MetricQuery Rest)
    (itemMap : gmap string Item) (showTableNames : bool)
    (fileName : string) (truncated : bool)
    (customLabels : gmap string string) (columnOrder : list string)
    (w w' : World) (e : string) :
  write now (row0 :: rest) onlyRaw metricQuery itemMap showTableNames
        fileName truncated customLabels columnOrder w
  = (w', Thrown e) →
  Exists (λ id, inherited id = true) (Object_keys row0).
Proof.
  intros Hthrown.
  destruct (decide (Forall (λ id, inherited id = false)
                           (Object_keys row0))) as [Hplain|Hnot].
  - rewrite writeRowsToFile_plain_run in Hthrown
      by (apply sortedFieldIdsOf_plain; exact Hplain).
    discriminate Hthrown.
  - apply not_Forall_Exists in Hnot; [|intros id; apply _].
    eapply Exists_impl; [exact Hnot|]. intros id Hid.
    unfold compose in Hid. by apply not_false_iff_true.
Qed.

(** The columns of a written file. For a row set with a first row whose
    selected keys name no member of [Object.prototype],
    [writeRowsToFile] returns the file id and leaves at
    [/tmp/<file id>] a header and one record per row, over the columns
    [ids]. These are exactly the keys of the first row that are among
    the metrics, the dimensions or the names of the table calculations
    of the query, each as often as the row has it; they are ordered by
    their index in [columnOrder] (an id that [columnOrder] lacks has
    index -1), so two ids of [columnOrder] come in the order
    [columnOrder] gives them, and ids of equal index stay as the row had
    them. The header of such a column is its custom label when a
    non-empty one is set, else the label of its item (with or without
    the table name, as [showTableNames] says), else the id. The
    selection and the order hold for every first row. *)
Lemma writeRowsToFile_columns (now : Moment.t) (row0 : Row)
    (rest : list Row) (onlyRaw : bool) (metricQuery : MetricQuery Rest)
    (itemMap : gmap string Item) (showTableNames : bool)
    (fileName : string) (truncated : bool)
    (customLabels : gmap string string) (columnOrder : list string)
    (w : World) :
  let rows := row0 :: rest in
  let fileId := generateFileId fileName truncated now in
  let ids :=
    sortedFieldIdsOf row0 (selectedFieldIdsOf metricQuery) columnOrder in
  let selected id :=
    id ∈ mq_metrics metricQuery ∨ id ∈ mq_dimensions metricQuery ∨
    ∃ tc, tc ∈ mq_tableCalculations metricQuery ∧ tc_name tc = id in
  (Forall (λ id, inherited id = false) ids →
   write now rows onlyRaw metricQuery itemMap showTableNames fileName
         truncated customLabels columnOrder w
   = ({| files :=
           <["/tmp/" +:+ fileId :=
               map (λ id, VString (expectedHeader itemMap showTableNames
                                                  customLabels id)) ids ::
               map (λ row, convertRowToCsv momentFormat formatItemValue
                                           row itemMap onlyRaw ids) rows]>
             (files w);
         events := events w |},
      Returned fileId))
  ∧ (∀ id, id ∈ ids ↔ id ∈ Object_keys row0 ∧ selected id)
  ∧ ids ≡ₚ List.filter (includes (selectedFieldIdsOf metricQuery))
                       (Object_keys row0)
  ∧ (∀ i j a b, (i < j)%nat → ids !! i = Some a → ids !! j = Some b →
                indexOf columnOrder a <= indexOf columnOrder b)
  ∧ (∀ i j a b, ids !! i = Some a → ids !! j = Some b →
                indexOf columnOrder a < indexOf columnOrder b →
                (i < j)%nat)
  ∧ (∀ k, List.filter (λ id, indexOf columnOrder id =? k) ids
          = List.filter (λ id, indexOf columnOrder id =? k)
              (List.filter (includes (selectedFieldIdsOf metricQuery))
                           (Object_keys row0)))
  ∧ (∀ id,
       expectedHeader itemMap showTableNames customLabels id
       = match customLabels !! id with
         | Some l =>
             if decide (l = EmptyString) then
               match itemMap !! id with
               | Some item => if showTableNames then getItemLabel item
                              else getItemLabelWithoutTableName item
               | None => id
               end
             else l
         | None =>
             match itemMap !! id with
             | Some item => if showTableNames then getItemLabel item
                            else getItemLabelWithoutTableName item
             | None => id
             end
         end).
Proof.
  intros rows fileId ids selected.
  assert (Hperm : ids ≡ₚ List.filter
                    (includes (selectedFieldIdsOf metricQuery))
                    (Object_keys row0)).
  { apply (sortWith_Permutation (indexOf columnOrder)). }
  assert (Hsorted : ∀ i j a b, (i < j)%nat →
            ids !! i = Some a → ids !! j = Some b →
            indexOf columnOrder a <= indexOf columnOrder b).
  { intros i j a b. apply (StronglySorted_lookup_le (indexOf columnOrder)).
    apply sortWith_StronglySorted. }
  split; [|split; [|split; [|split; [|split; [|split]]]]].
  - apply writeRowsToFile_plain_run.
  - intros id. rewrite Hperm, list_elem_of_In, filter_In.
    rewrite <- list_elem_of_In, includes_elem_of.
    unfold selectedFieldIdsOf, selected.
    rewrite !elem_of_app, list_elem_of_fmap.
    split.
    + intros [Hkey [Hm|[Hd|(tc & -> & Htc)]]]; eauto 10.
    + intros [Hkey [Hm|[Hd|(tc & Htc & <-)]]]; eauto 10.
  - exact Hperm.
  - exact Hsorted.
  - intros i j a b Hi Hj Hlt.
    destruct (decide (i < j)%nat) as [|Hge]; [done|].
    destruct (decide (i = j)) as [->|Hne].
    + rewrite Hi in Hj. injection Hj as ->. lia.
    + assert (Hji : (j < i)%nat) by lia.
      specialize (Hsorted j i b a Hji Hj Hi). lia.
  - intros k. apply (sortWith_stable (indexOf columnOrder)).
  - intros id. unfold expectedHeader, expectedHeaderOf.
    destruct (customLabels !! id) as [l|]; [|done].
    destruct (String.eqb_spec l EmptyString) as [->|Hl].
    + by rewrite decide_True.
    + by rewrite decide_False.
Qed.

(** C7. The header does not fall back for every column. For the query
    with a table calculation named [constructor] and no custom label
    set, the column is selected, but the read [customLabels[id]] finds
    the member [constructor] of [Object.prototype], which is truthy and
    is made the header where the item's label was meant;
    [writeRowsToFile] then throws the error of the invalid column and
    leaves the file it created empty, whatever the label functions
    are. *)
Theorem writeRowsToFile_constructor_column (now : Moment.t)
    (showTableNames : bool) (w : World) :
  sortedFieldIdsOf constructorRow (selectedFieldIdsOf constructorQuery) []
  = ["orders_status"; "constructor"]
  ∧ (∅ : gmap string string) !! "constructor" = None
  ∧ header constructorItemMap showTableNames ∅ "constructor"
    = Returned (VInherited "constructor")
  ∧ expectedHeader constructorItemMap showTableNames ∅ "constructor"
    = (if showTableNames
       then getItemLabel (ItemTableCalculation constructorCalculation)
       else getItemLabelWithoutTableName
              (ItemTableCalculation constructorCalculation))
  ∧ @writeRowsToFile momentFormat formatItemValue getItemLabel
      getItemLabelWithoutTableName getItemLabelOfMember
      getItemLabelWithoutTableNameOfMember unit now [constructorRow]
      false constructorQuery constructorItemMap showTableNames "Orders"
      false ∅ [] w
    = ({| files :=
            <["/tmp/" +:+ generateFileId "Orders" false now := []]>
              (files w);
          events := events w |},
       Thrown "Invalid column definition").
Proof.
  split; [reflexivity|]. split; [reflexivity|].
  split; [reflexivity|]. split; [reflexivity|].
  reflexivity.
Qed.

End WriteRowsFacts.

Example sortedFieldIdsOf_example :
  sortedFieldIdsOf
    [("b", VNull); ("a", VNull); ("c", VNull); ("x", VNull)]
    ["a"; "b"; "c"] ["c"; "a"]
  = ["b"; "c"; "a"].
Proof. reflexivity. Qed.

(** ** Inline conversion or worker *)

Section ConvertSqlFacts.

Variable friendlyName : string → string.
Variable isMomentInput : Value → bool.
Variable momentFormat : Value → string → string.
Variable stringify : CsvRecords → Outcome string.

Let convertInline :=
  convertSqlToCsv friendlyName isMomentInput momentFormat stringify.
Let convertRouted :=
  convertSqlQueryResultsToCsv friendlyName isMomentInput momentFormat
                              stringify.

(** C6. A result set of at most 500 rows is converted inline: the
    outcome is that of [convertSqlToCsv] and no worker is started. A
    larger one starts one worker, on the conversion script and with the
    same results and custom labels as its data, and the outcome is what
    [convertSqlToCsv] gives on these. So the conversion is inline if and
    only if there are at most 500 rows. *)
Theorem convertSqlQueryResultsToCsv_routing (results : ApiSqlQueryResults)
    (customLabels : option (gmap string string)) (w : World) :
  let rowCount := Z.of_nat (length (sql_rows results)) in
  let run := convertRouted results customLabels w in
  (rowCount <= 500 →
   run = (w, convertInline results customLabels))
  ∧ (500 < rowCount →
     run = ({| files := files w;
               events :=
                 events w ++
                 [WorkerStarted
                    "./dist/services/CsvService/convertSqlToCsv.js"
                    {| wd_results := results;
                       wd_customLabels := customLabels |}] |},
            convertInline results customLabels))
  ∧ (events (fst run) = events w ↔ rowCount <= 500).
Proof.
  intros rowCount run. subst run.
  unfold convertRouted, convertSqlQueryResultsToCsv. fold rowCount.
  destruct (Z.ltb_spec 500 rowCount) as [Hgt|Hle].
  - split; [lia|]. split; [done|].
    cbn. split; [|lia].
    intros Heq. apply (f_equal length) in Heq.
    rewrite length_app in Heq. cbn in Heq. lia.
  - split; [done|]. split; [lia|]. done.
Qed.

End ConvertSqlFacts.

(** ** A chart without rows *)

Section ChartExportFacts.

Variable momentFormat : Value → string → string.
Variable formatItemValue : option Item → Value → Value.
Variable getItemLabel : Item → string.
Variable getItemLabelWithoutTableName : Item → string.
Variable getItemLabelOfMember : string → Outcome Value.
Variable getItemLabelWithoutTableNameOfMember : string → Outcome Value.
Variables (Explore ChartConfig DashboardFilters MetricQueryRest : Type).
Variable lightdashConfig : LightdashConfig.
Variable savedChartModel_get :
  string → Outcome (SavedChart ChartConfig MetricQueryRest).
Variable projectService_getExplore :
  SessionUser → string → string → Outcome Explore.
Variable projectService_runMetricQuery :
  SessionUser → MetricQuery MetricQueryRest → string → string →
  CsvLimit → Outcome (list Row).
Variable s3Service_isEnabled : bool.
Variable s3Service_uploadCsv : CsvRecords → string → Outcome string.
Variable exploreTableNames : Explore → list string.
Variable getDashboardFiltersForTile :
  string → list string → DashboardFilters → DashboardFilters.
Variable addDashboardFiltersToMetricQuery :
  MetricQuery MetricQueryRest → DashboardFilters →
  MetricQuery MetricQueryRest.
Variable getItemMap :
  Explore → MetricQuery MetricQueryRest → gmap string Item.
Variable parseAnalyticsLimit : option SchedulerLimit → string.
Variable isTableChartConfig : ChartConfig → bool.
Variable config_showTableNames : ChartConfig → option bool.
Variable getCustomLabelsFromTableConfig :
  ChartConfig → gmap string string.

Let getCsv :=
  getCsvForChart momentFormat formatItemValue getItemLabel
    getItemLabelWithoutTableName getItemLabelOfMember
    getItemLabelWithoutTableNameOfMember Explore ChartConfig
    DashboardFilters MetricQueryRest lightdashConfig savedChartModel_get
    projectService_getExplore projectService_runMetricQuery
    s3Service_isEnabled s3Service_uploadCsv exploreTableNames
    getDashboardFiltersForTile addDashboardFiltersToMetricQuery getItemMap
    parseAnalyticsLimit isTableChartConfig config_showTableNames
    getCustomLabelsFromTableConfig.
Let chartRows :=
  chartRowsOf Explore ChartConfig DashboardFilters MetricQueryRest
    savedChartModel_get projectService_getExplore
    projectService_runMetricQuery exploreTableNames
    getDashboardFiltersForTile addDashboardFiltersToMetricQuery.

(** C10. When the chart is found and the metric query of its export
    comes back without rows, [getCsvForChart] returns the attachment
    with path [#no-results], file name [<chart name> (empty)], no local
    path and [truncated] set; no file is written, and nothing is
    uploaded or scheduled: the only thing that may have happened is the
    analytics event of the start. And [couldBeTruncated] is [false] on
    an empty row set. *)
Theorem getCsvForChart_no_results (now : Moment.t) (user : SessionUser)
    (chartUuid : string) (options : option SchedulerCsvOptions)
    (jobId tileUuid : option string)
    (dashboardFilters : option DashboardFilters) (w : World)
    (chart : SavedChart ChartConfig MetricQueryRest) :
  savedChartModel_get chartUuid = Returned chart →
  chartRows user chartUuid options tileUuid dashboardFilters
  = Returned [] →
  let run :=
    getCsv now user chartUuid options jobId tileUuid dashboardFilters w in
  snd run
  = Returned {| att_path := "#no-results";
                att_filename := chart_name chart +:+ " (empty)";
                att_localPath := EmptyString;
                att_truncated := true |}
  ∧ files (fst run) = files w
  ∧ (events (fst run) = events w ∨
     ∃ properties,
       events (fst run)
       = (events w ++ [AnalyticsTrack "download_results.started"
                                      (userUuid user) properties])%list)
  ∧ couldBeTruncated lightdashConfig [] = false.
Proof.
  intros Hchart Hrows run. subst run.
  unfold chartRows, chartRowsOf in Hrows. rewrite Hchart in Hrows.
  cbn in Hrows.
  destruct (projectService_getExplore user (chart_projectUuid chart)
              (chart_tableName chart)) as [explore|e] eqn:Hexplore;
    [|discriminate Hrows].
  cbn in Hrows.
  unfold getCsv, getCsvForChart, mbind, IO_bind, awaitIO.
  rewrite Hchart. cbn zeta.
  destruct (truthy jobId) eqn:Hjob.
  - cbn [emit]. rewrite Hexplore, Hrows. cbn. eauto 10.
  - cbn [mret IO_ret]. rewrite Hexplore, Hrows. cbn. eauto 10.
Qed.

End ChartExportFacts.


Lemma getCsvForChart_no_results_witness :
  snd (getCsvForChart sampleMomentFormat sampleFormatItemValue
         (λ _, "label") (λ _, "label") (λ _, Returned VUndefined)
         (λ _, Returned VUndefined) unit unit unit unit configuredLimit
         (λ _, Returned emptyChart) (λ _ _ _, Returned tt)
         (λ _ _ _ _ _, Returned []) false
         (λ _ _, Returned "https://bucket/file") (λ _, ["orders"])
         (λ _ _ f, f) (λ mq _, mq) (λ _ _, sampleItemMap)
         (λ _, "results") (λ _, true) (λ _, None) (λ _, ∅)
         time_2024_01_02 sampleUser "chart-1" None (Some "job-1") None None
         emptyWorld)
  = Returned {| att_path := "#no-results";
                att_filename := "Orders (empty)";
                att_localPath := EmptyString;
                att_truncated := true |}.
Proof.
  refine (proj1 (getCsvForChart_no_results sampleMomentFormat
                   sampleFormatItemValue (λ _, "label") (λ _, "label")
                   (λ _, Returned VUndefined) (λ _, Returned VUndefined)
                   unit unit unit unit configuredLimit
                   (λ _, Returned emptyChart) (λ _ _ _, Returned tt)
                   (λ _ _ _ _ _, Returned []) false
                   (λ _ _, Returned "https://bucket/file")
                   (λ _, ["orders"]) (λ _ _ f, f) (λ mq _, mq)
                   (λ _ _, sampleItemMap) (λ _, "results") (λ _, true)
                   (λ _, None) (λ _, ∅) time_2024_01_02 sampleUser
                   "chart-1" None (Some "job-1") None None emptyWorld
                   emptyChart _ _));
    reflexivity.
Defined.

(** ** The access filter on values *)

Lemma hasUserAttribute_true (userAttributes : gmap string Value)
    (attributeName value : string) :
  hasUserAttribute userAttributes attributeName value = true
  ↔ userAttributes !! attributeName = Some (VString value).
Proof.
  unfold hasUserAttribute. rewrite bool_decide_eq_true.
  destruct (userAttributes !! attributeName) as [v|]; cbn.
  - split; congruence.
  - split; discriminate.
Qed.

(** Folding insertions over the entries of a map rebuilds the map, entry
    by entry. *)
Lemma foldl_insert_lookup {A B : Type} (f : A → B)
    (l : list (string * A)) (acc : gmap string B) (k : string) :
  NoDup l.*1 →
  foldl (λ at_ entry, let '(name, x) := entry in <[name := f x]> at_) acc l
    !! k
  = match (list_to_map l : gmap string A) !! k with
    | Some x => Some (f x)
    | None => acc !! k
    end.
Proof.
  revert acc. induction l as [|[name x] rest IH]; intros acc Hnodup.
  - done.
  - rewrite fmap_cons in Hnodup. cbn [fst] in Hnodup.
    apply NoDup_cons in Hnodup as [Hfresh Hnodup].
    cbn [foldl]. rewrite IH by done.
    change (list_to_map ((name, x) :: rest) : gmap string A)
      with (<[name := x]> (list_to_map rest : gmap string A)).
    destruct (decide (name = k)) as [->|Hne].
    + rewrite (not_elem_of_list_to_map_1 rest k Hfresh).
      by rewrite !lookup_insert_eq.
    + by rewrite !lookup_insert_ne.
Qed.

Section ExploreFacts.

Context {ExploreRest TableRest MetricT DimensionRest : Type}.

Local Abbreviation Dimension := (CompiledDimension DimensionRest).
Local Abbreviation Dims := (Dimensions DimensionRest).
Local Abbreviation Table := (CompiledTable TableRest MetricT DimensionRest).
Local Abbreviation Expl :=
  (Explore ExploreRest TableRest MetricT DimensionRest).

Implicit Types (userAttributes : gmap string Value) (d : Dimension).

Lemma hasUserAttributes_entitled userAttributes d :
  hasUserAttributes (requiredAttributes d) userAttributes = true
  ↔ entitled userAttributes d.
Proof.
  unfold hasUserAttributes, entitled.
  destruct (requiredAttributes d) as [required|]; [|done].
  rewrite forallb_forall. split.
  - intros Hall attribute expectedValue Hreq.
    apply hasUserAttribute_true.
    apply (Hall (attribute, expectedValue)).
    apply list_elem_of_In. by apply elem_of_map_to_list.
  - intros Hall [attribute expectedValue] Hin.
    apply hasUserAttribute_true, Hall.
    apply list_elem_of_In in Hin. by apply elem_of_map_to_list in Hin.
Qed.


Lemma foldl_keepStep_lookup userAttributes
    (l : list (string * Dimension)) (acc : Dims) (name : string) :
  NoDup l.*1 →
  dimensionEntries (foldl (keepStep userAttributes) acc l) !! name
  = match (list_to_map l : gmap string Dimension) !! name with
    | Some d =>
        if hasUserAttributes (requiredAttributes d) userAttributes
        then Some d else dimensionEntries acc !! name
    | None => dimensionEntries acc !! name
    end.
Proof.
  revert acc. induction l as [|[k d] rest IH]; intros acc Hnodup.
  - done.
  - rewrite fmap_cons in Hnodup. cbn [fst] in Hnodup.
    apply NoDup_cons in Hnodup as [Hfresh Hnodup].
    cbn [foldl]. rewrite IH by done.
    change (list_to_map ((k, d) :: rest) : gmap string Dimension)
      with (<[k := d]> (list_to_map rest : gmap string Dimension)).
    destruct (decide (k = name)) as [->|Hne].
    + rewrite (not_elem_of_list_to_map_1 rest name Hfresh).
      rewrite lookup_insert_eq. unfold keepStep.
      destruct (hasUserAttributes _ _); [|done].
      cbn. by rewrite lookup_insert_eq.
    + rewrite lookup_insert_ne by done.
      assert (Hsame : dimensionEntries
                        (keepStep userAttributes acc (k, d)) !! name
                      = dimensionEntries acc !! name).
      { unfold keepStep. destruct (hasUserAttributes _ _); [|done].
        cbn. by rewrite lookup_insert_ne. }
      by rewrite Hsame.
Qed.

(** The reduction either never leaves its start value, or ends in an
    object. *)
Lemma foldl_keepStep_shape userAttributes
    (l : list (string * Dimension)) (acc : Dims) :
  (foldl (keepStep userAttributes) acc l = acc
   ∧ Forall (λ entry, keptOf userAttributes entry.2 = None) l)
  ∨ (∃ entries,
       foldl (keepStep userAttributes) acc l = DimensionsObject entries
       ∧ Exists (λ entry, keptOf userAttributes entry.2 = Some entry.2) l).
Proof.
  revert acc. induction l as [|[k d] rest IH]; intros acc.
  - left. by split.
  - cbn [foldl]. unfold keptOf.
    destruct (hasUserAttributes (requiredAttributes d) userAttributes)
      eqn:Hkeep.
    + assert (Hstep : keepStep userAttributes acc (k, d)
                      = DimensionsObject
                          (<[k := d]> (dimensionEntries acc))).
      { unfold keepStep. by rewrite Hkeep. }
      rewrite Hstep. right.
      destruct (IH (DimensionsObject
                      (<[k := d]> (dimensionEntries acc))))
        as [[-> _]|(entries & -> & _)].
      * eexists. split; [done|]. left. cbn. by rewrite Hkeep.
      * eexists. split; [done|]. left. cbn. by rewrite Hkeep.
    + assert (Hstep : keepStep userAttributes acc (k, d) = acc).
      { unfold keepStep. by rewrite Hkeep. }
      rewrite Hstep.
      destruct (IH acc) as [[-> Hall]|(entries & -> & Hex)].
      * left. split; [done|]. constructor; [|done]. cbn. by rewrite Hkeep.
      * right. eexists. split; [done|]. by right.
Qed.

Lemma filterDimensions_fold userAttributes (dims : Dims) :
  filterDimensions userAttributes dims
  = foldl (keepStep userAttributes) EmptyArray
          (map_to_list (dimensionEntries dims)).
Proof. done. Qed.

Lemma filterDimensions_lookup userAttributes (dims : Dims) name :
  dimensionEntries (filterDimensions userAttributes dims) !! name
  = dimensionEntries dims !! name ≫= keptOf userAttributes.
Proof.
  rewrite filterDimensions_fold, foldl_keepStep_lookup
    by apply NoDup_fst_map_to_list.
  rewrite list_to_map_to_list. unfold keptOf.
  destruct (dimensionEntries dims !! name) as [d|]; cbn; [|done].
  by destruct (hasUserAttributes _ _).
Qed.

Lemma filterDimensions_idempotent userAttributes (dims : Dims) :
  filterDimensions userAttributes (filterDimensions userAttributes dims)
  = filterDimensions userAttributes dims.
Proof.
  destruct (foldl_keepStep_shape userAttributes
              (map_to_list (dimensionEntries dims)) EmptyArray)
    as [[Hempty _]|(kept & Hkept & Hex)];
    rewrite <- filterDimensions_fold in *.
  - rewrite Hempty. unfold filterDimensions. cbn.
    unfold Object_entries. by rewrite map_to_list_empty.
  - assert (Hlookup : ∀ name,
              kept !! name
              = dimensionEntries dims !! name ≫= keptOf userAttributes).
    { intros name. rewrite <- filterDimensions_lookup. by rewrite Hkept. }
    rewrite Hkept.
    destruct (foldl_keepStep_shape userAttributes
                (map_to_list kept) EmptyArray)
      as [[_ Hnone]|(kept' & Hkept' & _)].
    + exfalso. apply Exists_exists in Hex as ([k d] & Hin & Hd).
      apply elem_of_map_to_list in Hin. cbn in Hd.
      rewrite Forall_forall in Hnone.
      specialize (Hnone (k, d)). cbn in Hnone.
      rewrite Hnone in Hd; [done|].
      apply elem_of_map_to_list. rewrite Hlookup, Hin. cbn. done.
    + change (filterDimensions userAttributes (DimensionsObject kept)
              = DimensionsObject kept') in Hkept'.
      rewrite Hkept'. f_equal. apply map_eq. intros name.
      assert (Hk' : kept' !! name
                    = kept !! name ≫= keptOf userAttributes).
      { rewrite <- (filterDimensions_lookup userAttributes
                      (DimensionsObject kept)). by rewrite Hkept'. }
      rewrite Hk', Hlookup.
      destruct (dimensionEntries dims !! name) as [d|]; cbn; [|done].
      unfold keptOf.
      destruct (hasUserAttributes (requiredAttributes d) userAttributes)
        eqn:Hkeep; cbn; [|done].
      by rewrite Hkeep.
Qed.


Lemma filterDimensionsFromExplore_tables (explore : Expl) userAttributes :
  tables (filterDimensionsFromExplore explore userAttributes)
  = filterTable userAttributes <$> tables explore.
Proof.
  apply map_eq. intros tableName.
  unfold filterDimensionsFromExplore, Object_entries. cbn [tables].
  etrans.
  { exact (foldl_insert_lookup (filterTable userAttributes)
             (map_to_list (tables explore)) ∅ tableName
             (NoDup_fst_map_to_list _)). }
  rewrite list_to_map_to_list, lookup_fmap, lookup_empty.
  by destruct (tables explore !! tableName).
Qed.

(** C4. Filtering an explore that was already filtered for the same
    user attributes gives the same explore again. *)
Theorem filterDimensionsFromExplore_idempotent (explore : Expl)
    (userAttributes : gmap string Value) :
  filterDimensionsFromExplore
    (filterDimensionsFromExplore explore userAttributes) userAttributes
  = filterDimensionsFromExplore explore userAttributes.
Proof.
  assert (Heq : ∀ e1 e2 : Expl,
            explore_rest e1 = explore_rest e2 →
            tables e1 = tables e2 → e1 = e2).
  { intros [r1 t1] [r2 t2]. cbn. by intros -> ->. }
  apply Heq; [done|].
  rewrite !filterDimensionsFromExplore_tables, <- map_fmap_compose.
  apply map_fmap_ext. intros tableName table _.
  unfold compose, filterTable. cbn.
  by rewrite filterDimensions_idempotent.
Qed.

(** C3. A table of the explore is a table of the filtered explore, with
    its metrics (and everything but its dimensions) as they were. A
    dimension is among its dimensions after the filter if and only if it
    was there before and either declares no required attributes or the
    user's map holds, for every required attribute, exactly the expected
    value; in particular a dimension one of whose required attributes the
    user's map lacks is not there. The filter adds no table. *)
Theorem filterDimensionsFromExplore_keeps_entitled (explore : Expl)
    (userAttributes : gmap string Value) (tableName : string)
    (table : Table) :
  tables explore !! tableName = Some table →
  ∃ filtered,
    tables (filterDimensionsFromExplore explore userAttributes)
      !! tableName = Some filtered
    ∧ metrics filtered = metrics table
    ∧ table_rest filtered = table_rest table
    ∧ (∀ name d,
         dimensionEntries (dimensions filtered) !! name = Some d
         ↔ dimensionEntries (dimensions table) !! name = Some d
           ∧ (requiredAttributes d = None
              ∨ ∃ required,
                  requiredAttributes d = Some required
                  ∧ ∀ attribute expectedValue,
                      required !! attribute = Some expectedValue →
                      userAttributes !! attribute
                      = Some (VString expectedValue)))
    ∧ (∀ name d required attribute,
         dimensionEntries (dimensions table) !! name = Some d →
         requiredAttributes d = Some required →
         is_Some (required !! attribute) →
         userAttributes !! attribute = None →
         dimensionEntries (dimensions filtered) !! name = None)
    ∧ dom (tables (filterDimensionsFromExplore explore userAttributes))
      = dom (tables explore).
Proof.
  intros Htable. exists (filterTable userAttributes table).
  rewrite filterDimensionsFromExplore_tables, lookup_fmap, Htable.
  assert (Hiff : ∀ name d,
            dimensionEntries
              (dimensions (filterTable userAttributes table)) !! name
            = Some d
            ↔ dimensionEntries (dimensions table) !! name = Some d
              ∧ entitled userAttributes d).
  { intros name d. cbn [filterTable dimensions].
    rewrite filterDimensions_lookup.
    rewrite <- hasUserAttributes_entitled.
    destruct (dimensionEntries (dimensions table) !! name) as [d'|];
      cbn; [|split; [done | by intros [? _]]].
    unfold keptOf.
    destruct (hasUserAttributes (requiredAttributes d') userAttributes)
      eqn:Hkeep; split.
    - intros [= ->]. done.
    - intros [[= ->] _]. done.
    - done.
    - intros [[= ->] Hd]. congruence. }
  split; [done|]. split; [done|]. split; [done|].
  split; [|split].
  - intros name d. rewrite Hiff. unfold entitled.
    destruct (requiredAttributes d) as [required|].
    + split.
      * intros [Hd Hall]. split; [done|]. right. by exists required.
      * intros [Hd [Hnone|(required' & [= <-] & Hall)]]; [done|].
        by split.
    + split; [|tauto]. intros [Hd _]. split; [done|]. by left.
  - intros name d required attribute Hd Hreq [expected Hattr] Hnone.
    destruct (dimensionEntries
                (dimensions (filterTable userAttributes table)) !! name)
      as [d'|] eqn:Hd'; [|done].
    apply Hiff in Hd' as [Hd'' Hentitled].
    rewrite Hd in Hd''. injection Hd'' as <-.
    unfold entitled in Hentitled. rewrite Hreq in Hentitled.
    specialize (Hentitled attribute expected Hattr). congruence.
  - by rewrite dom_fmap_L.
Qed.

End ExploreFacts.


Example filterDimensionsFromExplore_sample :
  filterDimensionsFromExplore sampleExplore analystAttributes
  = {| explore_rest := "orders";
       tables :=
         {[ "orders" :=
              {| table_rest := "orders";
                 metrics := {[ "count" := "COUNT(*)" ]};
                 dimensions :=
                   DimensionsObject {[ "status" := statusDimension ]} |} ]}
    |}.
Proof. vm_compute. reflexivity. Qed.

Lemma filterDimensionsFromExplore_keeps_entitled_witness :
  ∃ filtered,
    tables (filterDimensionsFromExplore sampleExplore analystAttributes)
      !! "orders" = Some filtered
    ∧ metrics filtered = metrics ordersTable.
Proof.
  destruct (filterDimensionsFromExplore_keeps_entitled sampleExplore
              analystAttributes "orders" ordersTable)
    as (filtered & Hfiltered & Hmetrics & _); [reflexivity|].
  exists filtered. split; assumption.
Defined.

(** ** The access filter on the heap: a fresh copy, the input untouched *)

Module HeapFacts.

(** The first embedding's functions, under names that stay visible next
    to the heap's. *)
Local Abbreviation hasUserAttributeOfValues := hasUserAttribute.
Local Abbreviation hasUserAttributesOfValues := hasUserAttributes.
Local Abbreviation filterExploreValue := filterDimensionsFromExplore.

Import Heap.

Lemma bind_Some {A B : Type} (m : H A) (f : A → H B) h a h1 :
  m h = Some (a, h1) → (m ≫= f) h = f a h1.
Proof. intros Hm. unfold mbind, H_bind. by rewrite Hm. Qed.

Lemma alloc_fresh (o : JsObject) (h : heap) :
  ∃ l, alloc o h = Some (JRef l, <[l := o]> h) ∧ h !! l = None.
Proof.
  exists (fresh (dom h)). split; [done|].
  apply not_elem_of_dom, is_fresh.
Qed.

Lemma getObject_Some (h : heap) (v : JsVal) (o : JsObject) :
  objectOf h v = Some o → getObject v h = Some (o, h).
Proof. intros Hv. unfold getObject. by rewrite Hv. Qed.

Lemma objectOf_mono (h h' : heap) (v : JsVal) (o : JsObject) :
  h ⊆ h' → objectOf h v = Some o → objectOf h' v = Some o.
Proof.
  intros Hsub. destruct v; cbn; try done.
  intros Hl. by eapply lookup_weaken.
Qed.

Lemma isObjectIn_mono (h h' : heap) (v : JsVal) :
  h ⊆ h' → isObjectIn h v → isObjectIn h' v.
Proof. intros Hsub [o Ho]. exists o. by eapply objectOf_mono. Qed.

Lemma madeSince_mono (h0 h h' : heap) (v : JsVal) :
  h ⊆ h' → madeSince h0 h v → madeSince h0 h' v.
Proof.
  intros Hsub (l & o & -> & Hl & Hnew). exists l, o.
  split; [done|]. split; [by eapply lookup_weaken | done].
Qed.

Lemma alloc_madeSince (o : JsObject) (h0 h : heap) :
  h0 ⊆ h →
  ∃ v h', alloc o h = Some (v, h') ∧ h ⊆ h' ∧ madeSince h0 h' v
          ∧ objectOf h' v = Some o.
Proof.
  intros Hsub. destruct (alloc_fresh o h) as (l & Halloc & Hfresh).
  exists (JRef l), (<[l := o]> h). split; [done|].
  split; [by apply insert_subseteq|]. split.
  - exists l, o. split; [done|]. split; [apply lookup_insert_eq|].
    destruct (h0 !! l) as [o0|] eqn:H0; [|done].
    pose proof (lookup_weaken _ _ _ _ H0 Hsub). congruence.
  - apply lookup_insert_eq.
Qed.

(** *** Well-typed values stay what they are when the heap grows *)

Lemma isRequiredIn_mono (h h' : heap) (v : JsVal) :
  h ⊆ h' → isRequiredIn h v →
  isRequiredIn h' v ∧ reifyRequired h' v = reifyRequired h v.
Proof.
  intros Hsub. unfold isRequiredIn, reifyRequired.
  destruct v as [| | | | |l]; try done.
  cbn. destruct (h !! l) as [o|] eqn:Hl; [|done].
  by rewrite (lookup_weaken _ _ _ _ Hl Hsub).
Qed.

Lemma isDimensionIn_mono (h h' : heap) (v : JsVal) :
  h ⊆ h' → isDimensionIn h v →
  isDimensionIn h' v ∧ reifyDimension h' v = reifyDimension h v.
Proof.
  intros Hsub. unfold isDimensionIn, reifyDimension.
  destruct (objectOf h v) as [o|] eqn:Hv; [|done].
  rewrite (objectOf_mono _ _ _ _ Hsub Hv).
  intros [Hreq Heq]%(isRequiredIn_mono _ _ _ Hsub).
  by rewrite Heq.
Qed.

Lemma reifyDimension_fmap_mono (h h' : heap) (pm : gmap string JsVal) :
  h ⊆ h' → map_Forall (λ _ d, isDimensionIn h d) pm →
  map_Forall (λ _ d, isDimensionIn h' d) pm
  ∧ reifyDimension h' <$> pm = reifyDimension h <$> pm.
Proof.
  intros Hsub Hall. split.
  - intros k d Hk. by apply (isDimensionIn_mono h h' d Hsub), (Hall k).
  - apply map_fmap_ext. intros k d Hk.
    by apply (isDimensionIn_mono h h' d Hsub), (Hall k).
Qed.

Lemma isDimensionsIn_mono (h h' : heap) (v : JsVal) :
  h ⊆ h' → isDimensionsIn h v →
  isDimensionsIn h' v ∧ reifyDimensions h' v = reifyDimensions h v.
Proof.
  intros Hsub. unfold isDimensionsIn, reifyDimensions.
  destruct (objectOf h v) as [o|] eqn:Hv; [|done].
  rewrite (objectOf_mono _ _ _ _ Hsub Hv).
  intros [Harray Hall].
  destruct (reifyDimension_fmap_mono h h' (props o) Hsub Hall)
    as [Hall' Heq].
  by rewrite Heq.
Qed.

Lemma isTableIn_mono (h h' : heap) (v : JsVal) :
  h ⊆ h' → isTableIn h v →
  isTableIn h' v ∧ reifyTable h' v = reifyTable h v.
Proof.
  intros Hsub. unfold isTableIn, reifyTable.
  destruct (objectOf h v) as [o|] eqn:Hv; [|done].
  rewrite (objectOf_mono _ _ _ _ Hsub Hv).
  intros [[om Hmetrics] Hdims].
  destruct (isDimensionsIn_mono h h' _ Hsub Hdims) as [Hdims' Heq].
  rewrite Heq, Hmetrics, (objectOf_mono _ _ _ _ Hsub Hmetrics).
  split; [|done]. split; [|done].
  exists om. by eapply objectOf_mono.
Qed.

Lemma reifyTable_fmap_mono (h h' : heap) (pm : gmap string JsVal) :
  h ⊆ h' → map_Forall (λ _ t, isTableIn h t) pm →
  map_Forall (λ _ t, isTableIn h' t) pm
  ∧ reifyTable h' <$> pm = reifyTable h <$> pm.
Proof.
  intros Hsub Hall. split.
  - intros k t Hk. by apply (isTableIn_mono h h' t Hsub), (Hall k).
  - apply map_fmap_ext. intros k t Hk.
    by apply (isTableIn_mono h h' t Hsub), (Hall k).
Qed.

Lemma reifyAttributes_mono (h h' : heap) (v : JsVal) :
  h ⊆ h' → isObjectIn h v → reifyAttributes h' v = reifyAttributes h v.
Proof.
  intros Hsub [o Ho]. unfold reifyAttributes.
  by rewrite Ho, (objectOf_mono _ _ _ _ Hsub Ho).
Qed.

Lemma dimensionEntries_reify (h : heap) (v : JsVal) (o : JsObject) :
  objectOf h v = Some o → (isArray o = true → props o = ∅) →
  dimensionEntries (reifyDimensions h v) = reifyDimension h <$> props o.
Proof.
  intros Hv Harray. unfold reifyDimensions. rewrite Hv.
  destruct (isArray o); [|done].
  rewrite Harray by done. by rewrite fmap_empty.
Qed.

(** *** The attribute check reads the same on both sides *)

Lemma every_forallb {A : Type} (callback : A → H bool) (f : A → bool)
    (l : list A) (h : heap) :
  (∀ x, x ∈ l → callback x h = Some (f x, h)) →
  every callback l h = Some (forallb f l, h).
Proof.
  induction l as [|x rest IH]; intros Hall; cbn [every forallb].
  - done.
  - rewrite (bind_Some _ _ _ _ _ (Hall x (list_elem_of_here _ _))).
    destruct (f x); cbn [andb]; [|done].
    apply IH. intros y Hy. apply Hall. by right.
Qed.

Lemma strings_fmap (pm : gmap string JsVal) :
  map_Forall (λ _ value, isString value) pm →
  pm = JString <$> omap asString pm.
Proof.
  intros Hall. apply map_eq. intros k.
  rewrite lookup_fmap, lookup_omap.
  destruct (pm !! k) as [v|] eqn:Hk; [|done].
  specialize (Hall k v Hk). by destruct v.
Qed.

Lemma get_toValue (o : JsObject) (attributeName value : string) :
  bool_decide (get o attributeName = JString value)
  = hasUserAttributeOfValues (toValue <$> props o) attributeName value.
Proof.
  unfold hasUserAttributeOfValues, get. rewrite lookup_fmap.
  apply bool_decide_ext.
  destruct (props o !! attributeName) as [[| | | | |]|]; cbn;
    split; congruence.
Qed.

Lemma hasUserAttributes_agrees (h : heap)
    (requiredAttributes userAttributes : JsVal) :
  isRequiredIn h requiredAttributes → isObjectIn h userAttributes →
  Heap.hasUserAttributes requiredAttributes userAttributes h
  = Some (hasUserAttributesOfValues
            (reifyRequired h requiredAttributes)
            (reifyAttributes h userAttributes), h).
Proof.
  intros Hreq [ou Hou].
  assert (Hobject : ∀ required,
            objectOf h requiredAttributes = Some required →
            map_Forall (λ _ value, isString value) (props required) →
            (required' ← getObject requiredAttributes ;
             every (λ attribute,
                      let '(attributeName, value) := attribute in
                      Heap.hasUserAttribute userAttributes attributeName
                                            value)
                   (entries required')) h
            = Some (hasUserAttributesOfValues
                      (Some (omap asString (props required)))
                      (reifyAttributes h userAttributes), h)).
  { intros required Hrequired Hstrings.
    rewrite (bind_Some _ _ _ _ _ (getObject_Some _ _ _ Hrequired)).
    unfold hasUserAttributesOfValues, Object_entries, entries,
      reifyAttributes.
    rewrite Hou.
    remember (omap asString (props required)) as m eqn:Hm.
    rewrite (strings_fmap _ Hstrings), <- Hm, map_to_list_fmap.
    rewrite (every_forallb _
               (λ attribute, bool_decide (get ou attribute.1
                                          = attribute.2))).
    - f_equal. f_equal. induction (map_to_list m) as [|[a s] rest IH].
      + done.
      + cbn. by rewrite IH, get_toValue.
    - intros [attributeName value] _. unfold Heap.hasUserAttribute.
      by rewrite (bind_Some _ _ _ _ _ (getObject_Some _ _ _ Hou)). }
  unfold isRequiredIn in Hreq. unfold Heap.hasUserAttributes, reifyRequired.
  destruct requiredAttributes as [| | | | |l]; try done.
  cbn in Hreq |- *. destruct (h !! l) as [required|] eqn:Hl; [|done].
  apply (Hobject required); [exact Hl | exact Hreq].
Qed.

(** *** The reductions, step by step

    Each step of a reduction on the heap only adds objects, hands on a
    reference to an object made since the call started, and that object,
    read as a value, is what the step of the reduction on values gives. *)

Lemma keepDimension_simulates (userAttributes : JsVal) (h0 h : heap)
    (acc : JsVal) (tableDimension : string * JsVal) :
  isObjectIn h0 userAttributes →
  isDimensionIn h0 tableDimension.2 →
  h0 ⊆ h → madeSince h0 h acc → isDimensionsIn h acc →
  ∃ acc' h',
    keepDimension userAttributes acc tableDimension h = Some (acc', h')
    ∧ h ⊆ h' ∧ madeSince h0 h' acc' ∧ isDimensionsIn h' acc'
    ∧ reifyDimensions h' acc'
      = keepStep (reifyAttributes h0 userAttributes)
                 (reifyDimensions h acc)
                 (prod_map id (reifyDimension h0) tableDimension).
Proof.
  destruct tableDimension as [dimensionName dimension]. cbn [snd prod_map].
  intros Hua Hdim Hsub Hacc Hdims.
  destruct (isDimensionIn_mono h0 h dimension Hsub Hdim) as [Hdim' Hsame].
  unfold isDimensionIn in Hdim, Hdim'.
  destruct (objectOf h0 dimension) as [o|] eqn:Ho; [|done].
  rewrite (objectOf_mono _ _ _ _ Hsub Ho) in Hdim'.
  unfold keepDimension, keepStep. cbn [fst snd id].
  rewrite (bind_Some _ _ _ _ _
             (getObject_Some _ _ _ (objectOf_mono _ _ _ _ Hsub Ho))).
  rewrite (bind_Some _ _ _ _ _
             (hasUserAttributes_agrees h _ _ Hdim'
                (isObjectIn_mono _ _ _ Hsub Hua))).
  rewrite (reifyAttributes_mono h0 h _ Hsub Hua).
  destruct (isRequiredIn_mono h0 h _ Hsub Hdim) as [_ ->].
  assert (Hrequired : requiredAttributes (reifyDimension h0 dimension)
                      = reifyRequired h0 (get o "requiredAttributes")).
  { unfold reifyDimension. cbn. by rewrite Ho. }
  rewrite Hrequired.
  destruct (hasUserAttributesOfValues _ _).
  - destruct Hacc as (la & oa & -> & Hla & Hnew).
    rewrite (bind_Some _ _ _ _ _ (getObject_Some _ (JRef la) _ Hla)).
    destruct (alloc_madeSince
                {| isArray := false;
                   props := <[dimensionName := dimension]> (props oa) |}
                h0 h Hsub) as (v & h' & Halloc & Hsub' & Hmade & Hv).
    exists v, h'. split; [done|]. split; [done|]. split; [done|].
    unfold isDimensionsIn in Hdims. cbn in Hdims. rewrite Hla in Hdims.
    destruct Hdims as [Harray Hall].
    destruct (reifyDimension_fmap_mono h h' (props oa) Hsub' Hall)
      as [Hall' Hfmap].
    assert (Hsub0 : h0 ⊆ h') by by etrans.
    destruct (isDimensionIn_mono h0 h' dimension Hsub0) as [Hdim0 Hsame0].
    { unfold isDimensionIn. by rewrite Ho. }
    split.
    + unfold isDimensionsIn. rewrite Hv. cbn. split; [done|].
      by apply map_Forall_insert_2.
    + unfold reifyDimensions at 1. rewrite Hv. cbn [isArray props].
      rewrite fmap_insert, Hsame0, Hfmap.
      by rewrite (dimensionEntries_reify h (JRef la) oa Hla Harray).
  - by exists acc, h.
Qed.

Lemma reduce_keepDimension_simulates (userAttributes : JsVal) (h0 : heap)
    (l : list (string * JsVal)) :
  isObjectIn h0 userAttributes →
  Forall (λ tableDimension, isDimensionIn h0 tableDimension.2) l →
  ∀ acc h,
    h0 ⊆ h → madeSince h0 h acc → isDimensionsIn h acc →
    ∃ acc' h',
      reduce (keepDimension userAttributes) l acc h = Some (acc', h')
      ∧ h ⊆ h' ∧ madeSince h0 h' acc' ∧ isDimensionsIn h' acc'
      ∧ reifyDimensions h' acc'
        = foldl (keepStep (reifyAttributes h0 userAttributes))
                (reifyDimensions h acc)
                (prod_map id (reifyDimension h0) <$> l).
Proof.
  intros Hua. induction 1 as [|x rest Hx Hrest IH];
    intros acc h Hsub Hacc Hdims; cbn [reduce fmap list_fmap foldl].
  - by exists acc, h.
  - destruct (keepDimension_simulates userAttributes h0 h acc x)
      as (acc1 & h1 & Hrun & Hsub1 & Hacc1 & Hdims1 & Hreify1); [done..|].
    rewrite (bind_Some _ _ _ _ _ Hrun).
    destruct (IH acc1 h1) as (acc2 & h2 & Hrun2 & Hsub2 & Hacc2 & Hdims2
                              & Hreify2); [by etrans | done..|].
    exists acc2, h2. split; [done|]. split; [by etrans|].
    split; [done|]. split; [done|]. by rewrite Hreify2, Hreify1.
Qed.

Lemma copyTable_simulates (userAttributes : JsVal) (h0 h : heap)
    (at_ : JsVal) (oa : JsObject) (exploreTable : string * JsVal) :
  isObjectIn h0 userAttributes →
  isTableIn h0 exploreTable.2 →
  h0 ⊆ h → tablesSince h0 h at_ oa →
  ∃ at' oa' h',
    copyTable userAttributes at_ exploreTable h = Some (at', h')
    ∧ h ⊆ h' ∧ tablesSince h0 h' at' oa'
    ∧ reifyTable h' <$> props oa'
      = <[exploreTable.1 :=
            filterTable (reifyAttributes h0 userAttributes)
                        (reifyTable h0 exploreTable.2)]>
          (reifyTable h <$> props oa).
Proof.
  destruct exploreTable as [tableName table]. cbn [fst snd].
  intros Hua Htable Hsub (Hmade & Hat & Htables).
  unfold isTableIn in Htable.
  destruct (objectOf h0 table) as [o|] eqn:Ho; [|done].
  destruct Htable as [[om Hmetrics] Hdims].
  unfold isDimensionsIn in Hdims.
  destruct (objectOf h0 (get o "dimensions")) as [od|] eqn:Hod; [|done].
  destruct Hdims as [Harray Hall].
  unfold copyTable.
  rewrite (bind_Some _ _ _ _ _ (getObject_Some _ _ _ Hat)).
  rewrite (bind_Some _ _ _ _ _
             (getObject_Some _ _ _ (objectOf_mono _ _ _ _ Hsub Ho))).
  rewrite (bind_Some _ _ _ _ _
             (getObject_Some _ _ _ (objectOf_mono _ _ _ _ Hsub Hod))).
  destruct (alloc_madeSince {| isArray := true; props := ∅ |} h0 h Hsub)
    as (emptyArray & h1 & Halloc1 & Hsub1 & Hmade1 & Hempty).
  rewrite (bind_Some _ _ _ _ _ Halloc1).
  assert (Hsub01 : h0 ⊆ h1) by by etrans.
  destruct (reduce_keepDimension_simulates userAttributes h0 (entries od)
              Hua) with (acc := emptyArray) (h := h1)
    as (newDimensions & h2 & Hreduce & Hsub2 & Hmade2 & Hdims2 & Hreify2).
  { apply Forall_forall. intros [k d] Hkd.
    apply elem_of_map_to_list in Hkd. by apply (Hall k d). }
  { done. }
  { done. }
  { unfold isDimensionsIn. rewrite Hempty. cbn. split; [done|].
    apply map_Forall_empty. }
  rewrite (bind_Some _ _ _ _ _ Hreduce).
  assert (Hsub02 : h0 ⊆ h2) by by etrans.
  destruct (alloc_madeSince
              {| isArray := false;
                 props := <["dimensions" := newDimensions]> (props o) |}
              h0 h2 Hsub02)
    as (newTable & h3 & Halloc3 & Hsub3 & Hmade3 & Hnew3).
  rewrite (bind_Some _ _ _ _ _ Halloc3).
  assert (Hsub03 : h0 ⊆ h3) by by etrans.
  destruct (alloc_madeSince
              {| isArray := false;
                 props := <[tableName := newTable]> (props oa) |}
              h0 h3 Hsub03)
    as (at' & h4 & Halloc4 & Hsub4 & Hmade4 & Hnew4).
  assert (Hsub_4 : h ⊆ h4).
  { etrans; [exact Hsub1|]. etrans; [exact Hsub2|]. by etrans. }
  assert (Hsub24 : h2 ⊆ h4) by by etrans.
  assert (Hsub04 : h0 ⊆ h4) by by etrans.
  (* the new table, as the last heap holds it *)
  destruct (isDimensionsIn_mono h2 h4 newDimensions Hsub24 Hdims2)
    as [Hdims4 Hreify4].
  assert (Hmetrics4 : objectOf h4 (get o "metrics") = Some om)
    by by eapply objectOf_mono.
  assert (Hget_metrics :
            get {| isArray := false;
                   props := <["dimensions" := newDimensions]> (props o) |}
                "metrics" = get o "metrics").
  { unfold get. cbn. by rewrite lookup_insert_ne. }
  assert (Hget_dimensions :
            get {| isArray := false;
                   props := <["dimensions" := newDimensions]> (props o) |}
                "dimensions" = newDimensions).
  { unfold get. cbn. by rewrite lookup_insert_eq. }
  assert (HnewTable : isTableIn h4 newTable).
  { unfold isTableIn.
    rewrite (objectOf_mono _ _ _ _ Hsub4 Hnew3), Hget_metrics,
      Hget_dimensions.
    split; [by exists om | done]. }
  assert (Hreify_new :
            reifyTable h4 newTable
            = filterTable (reifyAttributes h0 userAttributes)
                          (reifyTable h0 table)).
  { unfold reifyTable, filterTable.
    rewrite (objectOf_mono _ _ _ _ Hsub4 Hnew3), Ho. cbn [props].
    rewrite Hget_metrics, Hget_dimensions, Hmetrics4, Hmetrics.
    cbn [table_rest metrics dimensions]. f_equal.
    - apply delete_insert_eq.
    - rewrite Hreify4, Hreify2.
      unfold filterDimensions, Object_entries, entries.
      rewrite (dimensionEntries_reify h0 _ od Hod Harray).
      rewrite map_to_list_fmap.
      unfold reifyDimensions at 1. rewrite Hempty. cbn [isArray].
      done. }
  destruct (reifyTable_fmap_mono h h4 (props oa) Hsub_4 Htables)
    as [Htables4 Hfmap].
  eexists at', _, h4. split; [exact Halloc4|]. split; [done|].
  split.
  - split; [done|]. split; [exact Hnew4|]. cbn [props].
    by apply map_Forall_insert_2.
  - cbn [props]. by rewrite fmap_insert, Hreify_new, Hfmap.
Qed.

Lemma reduce_copyTable_simulates (userAttributes : JsVal) (h0 : heap)
    (l : list (string * JsVal)) :
  isObjectIn h0 userAttributes →
  Forall (λ exploreTable, isTableIn h0 exploreTable.2) l →
  ∀ at_ oa h,
    h0 ⊆ h → tablesSince h0 h at_ oa →
    ∃ at' oa' h',
      reduce (copyTable userAttributes) l at_ h = Some (at', h')
      ∧ h ⊆ h' ∧ tablesSince h0 h' at' oa'
      ∧ reifyTable h' <$> props oa'
        = foldl (λ acc exploreTable,
                   let '(tableName, table) := exploreTable in
                   <[tableName :=
                       filterTable (reifyAttributes h0 userAttributes)
                                   table]> acc)
                (reifyTable h <$> props oa)
                (prod_map id (reifyTable h0) <$> l).
Proof.
  intros Hua. induction 1 as [|x rest Hx Hrest IH];
    intros at_ oa h Hsub Hat; cbn [reduce fmap list_fmap foldl].
  - by exists at_, oa, h.
  - destruct (copyTable_simulates userAttributes h0 h at_ oa x)
      as (at1 & oa1 & h1 & Hrun & Hsub1 & Hat1 & Hreify1); [done..|].
    rewrite (bind_Some _ _ _ _ _ Hrun).
    destruct (IH at1 oa1 h1) as (at2 & oa2 & h2 & Hrun2 & Hsub2 & Hat2
                                 & Hreify2); [by etrans | done|].
    exists at2, oa2, h2. split; [done|]. split; [by etrans|].
    split; [done|]. rewrite Hreify2, Hreify1. by destruct x.
Qed.

Lemma isExploreIn_mono (h h' : heap) (v : JsVal) :
  h ⊆ h' → isExploreIn h v →
  isExploreIn h' v ∧ reifyExplore h' v = reifyExplore h v.
Proof.
  intros Hsub. unfold isExploreIn, reifyExplore.
  destruct (objectOf h v) as [o|] eqn:Hv; [|done].
  rewrite (objectOf_mono _ _ _ _ Hsub Hv).
  destruct (objectOf h (get o "tables")) as [ot|] eqn:Hot; [|done].
  rewrite (objectOf_mono _ _ _ _ Hsub Hot).
  intros Hall.
  destruct (reifyTable_fmap_mono h h' (props ot) Hsub Hall) as [Hall' Heq].
  by rewrite Heq.
Qed.

(** The whole call. *)
Lemma filterDimensionsFromExplore_runs (h : heap)
    (explore userAttributes : JsVal) :
  isExploreIn h explore →
  isObjectIn h userAttributes →
  ∃ (result newTables : loc) (exploreObject tablesObject : JsObject)
    (h' : heap),
    Heap.filterDimensionsFromExplore explore userAttributes h
    = Some (JRef result, h')
    ∧ objectOf h explore = Some exploreObject
    ∧ h ⊆ h'
    ∧ h !! result = None
    ∧ h' !! result
      = Some {| isArray := false;
                props := <["tables" := JRef newTables]>
                           (props exploreObject) |}
    ∧ h !! newTables = None
    ∧ h' !! newTables = Some tablesObject
    ∧ map_Forall (λ _ t, isTableIn h' t) (props tablesObject)
    ∧ reifyTable h' <$> props tablesObject
      = tables (filterExploreValue (reifyExplore h explore)
                                   (reifyAttributes h userAttributes)).
Proof.
  intros Hexplore Hua. unfold isExploreIn in Hexplore.
  destruct (objectOf h explore) as [o|] eqn:Ho; [|done].
  destruct (objectOf h (get o "tables")) as [ot|] eqn:Hot; [|done].
  unfold Heap.filterDimensionsFromExplore.
  rewrite (bind_Some _ _ _ _ _ (getObject_Some _ _ _ Ho)).
  rewrite (bind_Some _ _ _ _ _ (getObject_Some _ _ _ Hot)).
  destruct (alloc_madeSince {| isArray := false; props := ∅ |} h h)
    as (emptyTables & h1 & Halloc1 & Hsub1 & Hmade1 & Hempty); [done|].
  rewrite (bind_Some _ _ _ _ _ Halloc1).
  destruct (reduce_copyTable_simulates userAttributes h (entries ot) Hua)
    with (at_ := emptyTables) (oa := {| isArray := false; props := ∅ |})
         (h := h1)
    as (newTables & on & h2 & Hreduce & Hsub2 & (Hmade2 & Hon & Htables2)
        & Hreify2).
  { apply Forall_forall. intros [k t] Hkt.
    apply elem_of_map_to_list in Hkt. by apply (Hexplore k t). }
  { done. }
  { split; [done|]. split; [done|]. apply map_Forall_empty. }
  rewrite (bind_Some _ _ _ _ _ Hreduce).
  destruct Hmade2 as (lnew & onew & -> & Hlnew & Hfresh).
  cbn in Hon. rewrite Hlnew in Hon. injection Hon as ->.
  assert (Hsub02 : h ⊆ h2) by by etrans.
  destruct (alloc_fresh
              {| isArray := false;
                 props := <["tables" := JRef lnew]> (props o) |} h2)
    as (result & Halloc & Hresult).
  assert (Hne : result ≠ lnew) by congruence.
  assert (Hsub23 : h2 ⊆ <[result :=
                            {| isArray := false;
                               props := <["tables" := JRef lnew]>
                                          (props o) |}]> h2)
    by by apply insert_subseteq.
  eexists result, lnew, o, on, _.
  split; [exact Halloc|]. split; [done|]. split; [by etrans|].
  split.
  { destruct (h !! result) as [o0|] eqn:H0; [|done].
    pose proof (lookup_weaken _ _ _ _ H0 Hsub02). congruence. }
  split; [apply lookup_insert_eq|]. split; [done|].
  split; [by rewrite lookup_insert_ne|].
  destruct (reifyTable_fmap_mono _ _ (props on) Hsub23 Htables2)
    as [Htables3 Hfmap].
  split; [done|].
  rewrite Hfmap, Hreify2. cbn [props]. rewrite fmap_empty.
  unfold filterExploreValue, reifyExplore, Object_entries, entries.
  rewrite Ho, Hot. cbn [tables].
  by rewrite map_to_list_fmap.
Qed.

(** C5. Called with an explore and a user-attribute map that the heap
    holds, [filterDimensionsFromExplore] returns; what it returns is an
    explore behind a reference that did not exist before the call, with
    the properties of the input explore except that [tables] refers to an
    object that did not exist before the call either; and every object
    that existed before the call, the input explore, its tables and their
    dimension maps among them, is in the heap afterwards exactly as it
    was, so that the input explore still reads as the same value. *)
Theorem filterDimensionsFromExplore_fresh_copy (h : heap)
    (explore userAttributes : JsVal) :
  isExploreIn h explore →
  isObjectIn h userAttributes →
  ∃ (result newTables : loc) (exploreObject : JsObject) (h' : heap),
    Heap.filterDimensionsFromExplore explore userAttributes h
    = Some (JRef result, h')
    ∧ isExploreIn h' (JRef result)
    ∧ h !! result = None
    ∧ objectOf h explore = Some exploreObject
    ∧ h' !! result
      = Some {| isArray := false;
                props := <["tables" := JRef newTables]>
                           (props exploreObject) |}
    ∧ h !! newTables = None
    ∧ (∀ l o, h !! l = Some o → h' !! l = Some o)
    ∧ reifyExplore h' explore = reifyExplore h explore.
Proof.
  intros Hexplore Hua.
  destruct (filterDimensionsFromExplore_runs h explore userAttributes
              Hexplore Hua)
    as (result & newTables & o & on & h' & Hrun & Ho & Hsub & Hfresh
        & Hresult & Hnew & Hon & Htables & _).
  exists result, newTables, o, h'.
  split; [done|]. split.
  { unfold isExploreIn. cbn. rewrite Hresult. unfold get. cbn.
    rewrite lookup_insert_eq. cbn. by rewrite Hon. }
  split; [done|]. split; [done|]. split; [done|]. split; [done|].
  split.
  - intros l o0 Hl. by eapply lookup_weaken.
  - by apply isExploreIn_mono.
Qed.

(** X1. The two embeddings agree: the explore the call on the heap
    returns,
    read as a value, is the explore that the filter on values makes of
    the input explore and the user's attributes, read as values. *)
Theorem filterDimensionsFromExplore_refines (h : heap)
    (explore userAttributes : JsVal) :
  isExploreIn h explore →
  isObjectIn h userAttributes →
  ∃ (result : JsVal) (h' : heap),
    Heap.filterDimensionsFromExplore explore userAttributes h
    = Some (result, h')
    ∧ reifyExplore h' result
      = filterExploreValue (reifyExplore h explore)
                           (reifyAttributes h userAttributes).
Proof.
  intros Hexplore Hua.
  destruct (filterDimensionsFromExplore_runs h explore userAttributes
              Hexplore Hua)
    as (result & newTables & o & on & h' & Hrun & Ho & Hsub & Hfresh
        & Hresult & Hnew & Hon & Htables & Hreify).
  exists (JRef result), h'. split; [done|].
  unfold reifyExplore at 1. cbn. rewrite Hresult. unfold get. cbn.
  rewrite lookup_insert_eq. cbn. rewrite Hon, Hreify.
  unfold filterExploreValue at 2, reifyExplore. rewrite Ho.
  cbn [explore_rest]. f_equal. apply delete_insert_eq.
Qed.

Lemma filterDimensionsFromExplore_fresh_copy_witness :
  ∃ result h',
    Heap.filterDimensionsFromExplore (JRef 1) (JRef 8) sampleHeap
    = Some (JRef result, h')
    ∧ sampleHeap !! result = None
    ∧ ∀ l o, sampleHeap !! l = Some o → h' !! l = Some o.
Proof.
  destruct (filterDimensionsFromExplore_fresh_copy
              sampleHeap (JRef 1) (JRef 8))
    as (result & newTables & exploreObject & h' & Hrun & _ & Hfresh & _
        & _ & _ & Hsame & _).
  - apply (bool_decide_unpack _). vm_compute. reflexivity.
  - apply (bool_decide_unpack _). vm_compute. reflexivity.
  - exists result, h'. split; [exact Hrun|]. split; assumption.
Defined.

Lemma filterDimensionsFromExplore_refines_witness :
  ∃ result h',
    Heap.filterDimensionsFromExplore (JRef 1) (JRef 8) sampleHeap
    = Some (result, h')
    ∧ reifyExplore h' result
      = filterExploreValue (reifyExplore sampleHeap (JRef 1))
                           (reifyAttributes sampleHeap (JRef 8)).
Proof.
  apply (filterDimensionsFromExplore_refines sampleHeap (JRef 1) (JRef 8)).
  - apply (bool_decide_unpack _). vm_compute. reflexivity.
  - apply (bool_decide_unpack _). vm_compute. reflexivity.
Defined.

End HeapFacts.

(** * Further properties *)

(** ** File names *)

Module FileIdFacts.
Import JsString.

Lemma allChars_app p s1 s2 :
  allChars p (s1 +:+ s2) = allChars p s1 && allChars p s2.
Proof.
  induction s1 as [|c rest IH]; [done|].
  change (String c rest +:+ s2) with (String c (rest +:+ s2)).
  cbn [allChars]. by rewrite IH, andb_assoc.
Qed.

Lemma allChars_impl (p q : ascii → bool) s :
  (∀ c, p c = true → q c = true) →
  allChars p s = true → allChars q s = true.
Proof.
  intros Hpq. induction s as [|c rest IH]; [done|].
  cbn. intros [Hc Hrest]%andb_true_iff.
  by rewrite (Hpq c Hc), IH.
Qed.

(** Lower-casing and replacing, character by character. *)
Lemma sanitized_char c :
  let c' := lowerChar c in
  isSanitizedChar (if nonAlphanumeric c' then underscore else c') = true.
Proof.
  destruct c as [b0 b1 b2 b3 b4 b5 b6 b7].
  destruct b0, b1, b2, b3, b4, b5, b6, b7; vm_compute; reflexivity.
Qed.

Lemma sanitized_char_fixed c :
  isSanitizedChar c = true →
  lowerChar c = c
  ∧ (if nonAlphanumeric c then underscore else c) = c.
Proof.
  destruct c as [b0 b1 b2 b3 b4 b5 b6 b7].
  destruct b0, b1, b2, b3, b4, b5, b6, b7; vm_compute;
    (discriminate || (intros _; split; reflexivity)).
Qed.

Lemma replaceUnderscoreRuns_allChars p s :
  allChars p s = true → allChars p (replaceUnderscoreRuns s) = true.
Proof.
  induction s as [|c rest IH]; [done|].
  cbn. intros [Hc Hrest]%andb_true_iff.
  destruct (Ascii.eqb c underscore && startsWithUnderscore rest).
  - by apply IH.
  - cbn. by rewrite Hc, IH.
Qed.

Lemma startsWithUnderscore_replaceUnderscoreRuns s :
  startsWithUnderscore (replaceUnderscoreRuns s) = startsWithUnderscore s.
Proof.
  induction s as [|c rest IH]; [done|]. cbn.
  destruct (Ascii.eqb c underscore) eqn:Hc; cbn.
  - destruct (startsWithUnderscore rest) eqn:Hrest; cbn.
    + by rewrite IH.
    + done.
  - by rewrite Hc.
Qed.

Lemma replaceUnderscoreRuns_no_run s :
  hasUnderscoreRun (replaceUnderscoreRuns s) = false.
Proof.
  induction s as [|c rest IH]; [done|]. cbn.
  destruct (Ascii.eqb c underscore && startsWithUnderscore rest) eqn:Hrun;
    [done|].
  cbn. rewrite startsWithUnderscore_replaceUnderscoreRuns, Hrun. done.
Qed.

Lemma replaceUnderscoreRuns_fixed s :
  hasUnderscoreRun s = false → replaceUnderscoreRuns s = s.
Proof.
  induction s as [|c rest IH]; [done|]. cbn.
  intros [Hrun Hrest]%orb_false_iff. rewrite Hrun. by rewrite IH.
Qed.

Lemma sanitized_fixed s :
  allChars isSanitizedChar s = true →
  replaceNonAlphanumeric (toLowerCase s) = s.
Proof.
  induction s as [|c rest IH]; [done|].
  cbn. intros [Hc Hrest]%andb_true_iff.
  destruct (sanitized_char_fixed c Hc) as [Hlower Hreplace].
  by rewrite Hlower, Hreplace, IH.
Qed.

Lemma replaced_allChars s :
  allChars isSanitizedChar (replaceNonAlphanumeric (toLowerCase s)) = true.
Proof.
  induction s as [|c rest IH]; [done|].
  cbn. by rewrite (sanitized_char c), IH.
Qed.

Lemma digits_allChars (u : Decimal.uint) :
  allChars isDigit (NilEmpty.string_of_uint u) = true.
Proof. induction u; cbn; try done; by rewrite IHu. Qed.

Lemma zeroFill_allChars n width :
  allChars isDigit (Moment.zeroFill n width) = true.
Proof.
  unfold Moment.zeroFill, Moment.digits. rewrite allChars_app.
  apply andb_true_iff. split.
  - induction (width - _)%nat as [|k IH]; [done|]. cbn. exact IH.
  - unfold NilZero.string_of_uint.
    destruct (N.to_uint n) eqn:Hn; try (rewrite <- Hn; apply digits_allChars).
    done.
Qed.

Lemma append_assoc (s1 s2 s3 : string) :
  (s1 +:+ s2) +:+ s3 = s1 +:+ (s2 +:+ s3).
Proof.
  induction s1 as [|c rest IH]; [done|].
  change (String c rest +:+ s2) with (String c (rest +:+ s2)).
  change (String c (rest +:+ s2) +:+ s3)
    with (String c ((rest +:+ s2) +:+ s3)).
  by rewrite IH.
Qed.

Lemma length_append (s1 s2 : string) :
  String.length (s1 +:+ s2) = (String.length s1 + String.length s2)%nat.
Proof.
  induction s1 as [|c rest IH]; [done|].
  change (String c rest +:+ s2) with (String c (rest +:+ s2)).
  cbn [String.length]. by rewrite IH.
Qed.

Lemma append_inj_suffix (s1 s2 t : string) :
  s1 +:+ t = s2 +:+ t → s1 = s2.
Proof.
  revert s2. induction s1 as [|c rest IH]; intros [|c2 rest2] Heq.
  - done.
  - apply (f_equal String.length) in Heq.
    change (EmptyString +:+ t) with t in Heq.
    rewrite length_append in Heq. cbn in Heq. lia.
  - apply (f_equal String.length) in Heq.
    change (EmptyString +:+ t) with t in Heq.
    rewrite length_append in Heq. cbn in Heq. lia.
  - change (String c rest +:+ t) with (String c (rest +:+ t)) in Heq.
    change (String c2 rest2 +:+ t) with (String c2 (rest2 +:+ t)) in Heq.
    injection Heq as -> Heq. by rewrite (IH rest2 Heq).
Qed.

Lemma sanitizeFileName_allChars fileName :
  allChars isSanitizedChar (sanitizeFileName fileName) = true.
Proof.
  unfold sanitizeFileName.
  apply replaceUnderscoreRuns_allChars, replaced_allChars.
Qed.

End FileIdFacts.

(** X2. A sanitized file name consists of lower-case ASCII letters, digits
    and underscores, whatever the name was, and never has two underscores
    in a row. *)
Theorem sanitizeFileName_shape (fileName : string) :
  allChars isSanitizedChar (sanitizeFileName fileName) = true
  ∧ hasUnderscoreRun (sanitizeFileName fileName) = false.
Proof.
  split.
  - apply FileIdFacts.sanitizeFileName_allChars.
  - apply FileIdFacts.replaceUnderscoreRuns_no_run.
Qed.

(** X3. Sanitizing is idempotent: a sanitized name is left as it is. *)
Theorem sanitizeFileName_idempotent (fileName : string) :
  sanitizeFileName (sanitizeFileName fileName) = sanitizeFileName fileName.
Proof.
  unfold sanitizeFileName at 1.
  rewrite FileIdFacts.sanitized_fixed
    by apply FileIdFacts.sanitizeFileName_allChars.
  apply FileIdFacts.replaceUnderscoreRuns_fixed,
    FileIdFacts.replaceUnderscoreRuns_no_run.
Qed.

(** X4. A file id consists of lower-case ASCII letters, digits,
    underscores, hyphens and dots only; in particular it holds no slash,
    so [/tmp/<file id>] is a file directly under [/tmp] whatever the chart
    or explore is called. *)
Theorem generateFileId_alphabet (fileName : string) (truncated : bool)
    (time : Moment.t) :
  allChars isFileIdChar (generateFileId fileName truncated time) = true
  ∧ allChars (λ c, negb (Ascii.eqb c "/"%char))
             (generateFileId fileName truncated time) = true.
Proof.
  assert (Hid : allChars isFileIdChar
                  (generateFileId fileName truncated time) = true).
  { unfold generateFileId, Moment.format_fileId.
    assert (Hdigits : ∀ n width,
              allChars isFileIdChar (Moment.zeroFill n width) = true).
    { intros n width.
      apply (FileIdFacts.allChars_impl JsString.isDigit);
        [|apply FileIdFacts.zeroFill_allChars].
      intros c Hc. unfold isFileIdChar, isSanitizedChar.
      by rewrite Hc, orb_true_r. }
    assert (Hname : allChars isFileIdChar (sanitizeFileName fileName)
                    = true).
    { apply (FileIdFacts.allChars_impl isSanitizedChar);
        [|apply FileIdFacts.sanitizeFileName_allChars].
      intros c Hc. unfold isFileIdChar. by rewrite Hc. }
    rewrite !FileIdFacts.allChars_app, !Hdigits, Hname.
    by destruct truncated. }
  split; [exact Hid|].
  revert Hid. apply FileIdFacts.allChars_impl.
  intros c Hc. destruct (Ascii.eqb_spec c "/"%char) as [->|]; [|done].
  vm_compute in Hc. discriminate.
Qed.

(** X5. At one instant, two exports get the same file id only if they
    agree on the truncated flag and their names sanitize to the same
    string: the marker of a truncated export cannot be mistaken for the
    start of a name, because a sanitized name holds no hyphen. *)
Theorem generateFileId_injective (fileName1 fileName2 : string)
    (truncated1 truncated2 : bool) (time : Moment.t) :
  generateFileId fileName1 truncated1 time
  = generateFileId fileName2 truncated2 time →
  truncated1 = truncated2
  ∧ sanitizeFileName fileName1 = sanitizeFileName fileName2.
Proof.
  unfold generateFileId.
  set (tail := "-" +:+ Moment.format_fileId time +:+ ".csv").
  set (s1 := sanitizeFileName fileName1).
  set (s2 := sanitizeFileName fileName2).
  assert (Hmarker : ∀ s s',
            allChars isSanitizedChar s' = true →
            "incomplete_results-" +:+ s +:+ tail = s' +:+ tail → False).
  { intros s s' Hs' Heq.
    rewrite <- FileIdFacts.append_assoc in Heq.
    apply FileIdFacts.append_inj_suffix in Heq. subst s'.
    rewrite FileIdFacts.allChars_app in Hs'.
    apply andb_true_iff in Hs' as [Hmarker _].
    vm_compute in Hmarker. discriminate. }
  intros Heq. injection Heq as Heq.
  destruct truncated1, truncated2.
  - split; [done|]. injection Heq as Heq.
    exact (FileIdFacts.append_inj_suffix s1 s2 tail Heq).
  - exfalso. apply (Hmarker s1 s2);
      [apply FileIdFacts.sanitizeFileName_allChars | exact Heq].
  - exfalso. apply (Hmarker s2 s1);
      [apply FileIdFacts.sanitizeFileName_allChars | by symmetry].
  - split; [done|].
    exact (FileIdFacts.append_inj_suffix s1 s2 tail Heq).
Qed.

Lemma generateFileId_injective_witness :
  false = false
  ∧ sanitizeFileName "My Chart" = sanitizeFileName "my chart".
Proof.
  apply (generateFileId_injective "My Chart" "my chart" false false
           time_2024_01_02).
  reflexivity.
Defined.

(** ** The truncation heuristic, once more *)

(** X6. More rows never unmark an export: if a row set is marked
    truncated, so is every row set that starts with it. *)
Theorem couldBeTruncated_monotone (config : LightdashConfig)
    (rows more : list Row) :
  couldBeTruncated config rows = true →
  couldBeTruncated config (rows ++ more) = true.
Proof.
  destruct rows as [|row0 rest]; [done|].
  unfold couldBeTruncated. cbn [app].
  intros Hmarked%Z.geb_le. apply Z.geb_le.
  change (length (row0 :: rest ++ more)) with (S (length (rest ++ more))).
  change (length (row0 :: rest)) with (S (length rest)) in Hmarked.
  rewrite length_app. nia.
Qed.

Lemma couldBeTruncated_monotone_witness :
  couldBeTruncated smallLimit ([tenColumnRow] ++ [tenColumnRow]) = true.
Proof.
  apply (couldBeTruncated_monotone smallLimit [tenColumnRow] [tenColumnRow]).
  reflexivity.
Defined.

(** ** Rows and files, once more *)

Section RowFileFacts.

Variable momentFormat : Value → string → string.
Variable formatItemValue : option Item → Value → Value.
Variable getItemLabel : Item → string.
Variable getItemLabelWithoutTableName : Item → string.
Variable getItemLabelOfMember : string → Outcome Value.
Variable getItemLabelWithoutTableNameOfMember : string → Outcome Value.
Context {Rest : Type}.

Let convertRow := convertRowToCsv momentFormat formatItemValue.
Let writeRows :=
  @writeRowsToFile momentFormat formatItemValue getItemLabel
                   getItemLabelWithoutTableName getItemLabelOfMember
                   getItemLabelWithoutTableNameOfMember Rest.

(** X7. The cells of a row depend on the row only through the values it has
    for the listed ids: two rows that agree on these give the same cells,
    so a property of a row that is no column never reaches the file. *)
Theorem convertRowToCsv_only_listed_ids (row row' : Row)
    (itemMap : gmap string Item) (onlyRaw : bool)
    (sortedFieldIds : list string) :
  (∀ id, id ∈ sortedFieldIds → getProp row id = getProp row' id) →
  convertRow row itemMap onlyRaw sortedFieldIds
  = convertRow row' itemMap onlyRaw sortedFieldIds.
Proof.
  intros Hagree. unfold convertRow, convertRowToCsv.
  apply map_ext_in. intros id Hid%list_elem_of_In.
  cbn zeta. by rewrite (Hagree id Hid).
Qed.


(** X9. [writeRowsToFile] touches one file only: every other path of the
    file system holds what it held, and nothing else happens (no upload,
    no analytics, no worker), with or without rows. *)
Theorem writeRowsToFile_frame (now : Moment.t) (rows : list Row)
    (onlyRaw : bool) (metricQuery : MetricQuery Rest)
    (itemMap : gmap string Item) (showTableNames : bool)
    (fileName : string) (truncated : bool)
    (customLabels : gmap string string) (columnOrder : list string)
    (w : World) :
  let run := writeRows now rows onlyRaw metricQuery itemMap showTableNames
               fileName truncated customLabels columnOrder w in
  events (fst run) = events w
  ∧ ∀ path, path ≠ "/tmp/" +:+ generateFileId fileName truncated now →
            files (fst run) !! path = files w !! path.
Proof.
  intros run. subst run.
  destruct rows as [|row0 rest].
  - unfold writeRows, writeRowsToFile, mbind, IO_bind, writeFile, mret,
      IO_ret, throw. cbn.
    split; [done|]. intros path Hpath. by rewrite lookup_insert_ne.
  - unfold writeRows.
    destruct (writeRowsToFile_rows_run momentFormat formatItemValue
                getItemLabel getItemLabelWithoutTableName
                getItemLabelOfMember getItemLabelWithoutTableNameOfMember
                now row0 rest onlyRaw metricQuery itemMap showTableNames
                fileName truncated customLabels columnOrder w)
      as [(csvHeader & _ & _ & ->)|(e & -> & _)]; cbn.
    + split; [done|]. intros path Hpath. by rewrite lookup_insert_ne.
    + split; [done|]. intros path Hpath. by rewrite lookup_insert_ne.
Qed.

(** X10. When the keys of the first row are distinct, as the keys of an
    object are, no column is written twice. *)
Theorem writeRowsToFile_columns_distinct (row0 : Row)
    (selectedFieldIds columnOrder : list string) :
  NoDup (Object_keys row0) →
  NoDup (sortedFieldIdsOf row0 selectedFieldIds columnOrder).
Proof.
  intros Hkeys. unfold sortedFieldIdsOf.
  rewrite (sortWith_Permutation (indexOf columnOrder)).
  apply NoDup_ListNoDup, List.NoDup_filter, NoDup_ListNoDup, Hkeys.
Qed.

End RowFileFacts.

Lemma convertRowToCsv_only_listed_ids_witness :
  convertRowToCsv sampleMomentFormat sampleFormatItemValue
    ordersRow sampleItemMap true ["orders_status"; "orders_count"]
  = convertRowToCsv sampleMomentFormat sampleFormatItemValue
      [("orders_count", VNumber 3); ("orders_status", VString "complete")]
      sampleItemMap true ["orders_status"; "orders_count"].
Proof.
  apply (convertRowToCsv_only_listed_ids sampleMomentFormat
           sampleFormatItemValue ordersRow
           [("orders_count", VNumber 3); ("orders_status", VString "complete")]
           sampleItemMap true ["orders_status"; "orders_count"]).
  intros id Hid.
  apply list_elem_of_In in Hid.
  destruct Hid as [<-|[<-|[]]]; reflexivity.
Defined.


Lemma writeRowsToFile_columns_distinct_witness :
  NoDup (sortedFieldIdsOf ordersRow (selectedFieldIdsOf ordersQuery)
                          ["orders_count"]).
Proof.
  apply (writeRowsToFile_columns_distinct ordersRow
           (selectedFieldIdsOf ordersQuery) ["orders_count"]).
  apply (bool_decide_unpack _). vm_compute. reflexivity.
Defined.

(** ** SQL results to CSV *)

Section SqlToCsvFacts.

Variable friendlyName : string → string.
Variable isMomentInput : Value → bool.
Variable momentFormat : Value → string → string.

(** X11. For results with a first row, what [convertSqlToCsv] hands to the
    encoder is a header with one cell per key of the first row, and one
    record per row with one cell per entry of [results.fields]: the width
    of the body follows the fields, not the rows. *)
Theorem convertSqlToCsv_shape (row0 : Row) (rest : list Row)
    (fields : list (string * string))
    (customLabels : option (gmap string string)) :
  let results := {| sql_rows := row0 :: rest; sql_fields := fields |} in
  ∃ header body,
    (∀ stringify,
       convertSqlToCsv friendlyName isMomentInput momentFormat stringify
                       results customLabels
       = stringify (header :: body))
    ∧ length header = length (Object_keys row0)
    ∧ length body = S (length rest)
    ∧ Forall (λ record, length record = length fields) body.
Proof.
  intros results. eexists _, _. split; [intros stringify; reflexivity|].
  split; [apply length_map|]. split; [cbn; by rewrite length_map|].
  apply Forall_forall. intros record Hrecord.
  apply list_elem_of_In, in_map_iff in Hrecord as (row & <- & _).
  apply length_imap.
Qed.

(** X12. In the body, the cell of a field is found by position: it is the
    value the row has at the index of the field, [undefined] when the row
    is shorter, and it is handed on as it is unless the field is a
    timestamp or a date. *)
Theorem convertSqlToCsv_cell_by_position (row0 : Row) (rest : list Row)
    (fields : list (string * string))
    (customLabels : option (gmap string string)) :
  let results := {| sql_rows := row0 :: rest; sql_fields := fields |} in
  ∃ header body,
    (∀ stringify,
       convertSqlToCsv friendlyName isMomentInput momentFormat stringify
                       results customLabels
       = stringify (header :: body))
    ∧ ∀ r row i field,
        (row0 :: rest) !! r = Some row →
        fields !! i = Some field →
        field.2 ≠ DimensionType_TIMESTAMP →
        field.2 ≠ DimensionType_DATE →
        body !! r ≫= (.!! i) = Some (nth i (map snd row) VUndefined)
        ∧ ((length row <= i)%nat →
           body !! r ≫= (.!! i) = Some VUndefined).
Proof.
  intros results. eexists _, _. split; [intros stringify; reflexivity|].
  intros r row i [name fieldType] Hrow Hfield Hts Hdate. cbn [snd] in *.
  assert (Hcell :
    map (λ row : Row,
           imap (λ fieldIndex (field : string * string),
                   let rowValue := valueAt row fieldIndex in
                   if isRowValueTimestamp isMomentInput rowValue field.2
                   then VString (momentFormat rowValue "YYYY-MM-DD HH:mm:ss")
                   else if isRowValueDate isMomentInput rowValue field.2
                   then VString (momentFormat rowValue "YYYY-MM-DD")
                   else valueAt row fieldIndex) fields)
        (row0 :: rest) !! r ≫= (.!! i)
    = Some (nth i (map snd row) VUndefined)).
  { unfold Row in *. rewrite list_lookup_fmap, Hrow. cbn [fmap option_fmap option_map mbind
                                         option_bind].
    rewrite list_lookup_imap, Hfield. cbn [fmap option_fmap option_map snd].
    unfold isRowValueTimestamp, isRowValueDate.
    apply String.eqb_neq in Hts, Hdate. rewrite Hts, Hdate.
    by rewrite !andb_false_r. }
  split; [exact Hcell|].
  intros Hshort. etrans; [exact Hcell|]. f_equal.
  apply nth_overflow. by rewrite length_map.
Qed.

End SqlToCsvFacts.

(** ** A chart with rows *)

Section ChartRowsFacts.

Variable momentFormat : Value → string → string.
Variable formatItemValue : option Item → Value → Value.
Variable getItemLabel : Item → string.
Variable getItemLabelWithoutTableName : Item → string.
Variable getItemLabelOfMember : string → Outcome Value.
Variable getItemLabelWithoutTableNameOfMember : string → Outcome Value.
Variables (Explore ChartConfig DashboardFilters MetricQueryRest : Type).
Variable lightdashConfig : LightdashConfig.
Variable savedChartModel_get :
  string → Outcome (SavedChart ChartConfig MetricQueryRest).
Variable projectService_getExplore :
  SessionUser → string → string → Outcome Explore.
Variable projectService_runMetricQuery :
  SessionUser → MetricQuery MetricQueryRest → string → string →
  CsvLimit → Outcome (list Row).
Variable s3Service_isEnabled : bool.
Variable s3Service_uploadCsv : CsvRecords → string → Outcome string.
Variable exploreTableNames : Explore → list string.
Variable getDashboardFiltersForTile :
  string → list string → DashboardFilters → DashboardFilters.
Variable addDashboardFiltersToMetricQuery :
  MetricQuery MetricQueryRest → DashboardFilters →
  MetricQuery MetricQueryRest.
Variable getItemMap :
  Explore → MetricQuery MetricQueryRest → gmap string Item.
Variable parseAnalyticsLimit : option SchedulerLimit → string.
Variable isTableChartConfig : ChartConfig → bool.
Variable config_showTableNames : ChartConfig → option bool.
Variable getCustomLabelsFromTableConfig :
  ChartConfig → gmap string string.

Let getCsv :=
  getCsvForChart momentFormat formatItemValue getItemLabel
    getItemLabelWithoutTableName getItemLabelOfMember
    getItemLabelWithoutTableNameOfMember Explore ChartConfig
    DashboardFilters MetricQueryRest lightdashConfig savedChartModel_get
    projectService_getExplore projectService_runMetricQuery
    s3Service_isEnabled s3Service_uploadCsv exploreTableNames
    getDashboardFiltersForTile addDashboardFiltersToMetricQuery getItemMap
    parseAnalyticsLimit isTableChartConfig config_showTableNames
    getCustomLabelsFromTableConfig.
Let chartRows :=
  chartRowsOf Explore ChartConfig DashboardFilters MetricQueryRest
    savedChartModel_get projectService_getExplore
    projectService_runMetricQuery exploreTableNames
    getDashboardFiltersForTile addDashboardFiltersToMetricQuery.



(** Closing a path of a call: the events it added, none of them an
    analytics event when there is no job, and how it ended. *)
Ltac close_path ending :=
  eexists; split_and!;
  [ cbn [fst snd files events]; rewrite <- ?app_assoc;
    first [reflexivity | symmetry; apply app_nil_r]
  | first [discriminate | intros _; by repeat constructor]
  | cbn [fst snd files events att_localPath]; ending ].

(** Every way a call can go: what it adds to the events, and how it
    ends. *)
Lemma getCsvForChart_paths (now : Moment.t) (user : SessionUser)
    (chartUuid : string) (options : option SchedulerCsvOptions)
    (jobId tileUuid : option string)
    (dashboardFilters : option DashboardFilters) (w : World) :
  let run :=
    getCsv now user chartUuid options jobId tileUuid dashboardFilters w in
  ∃ new,
    events (fst run) = (events w ++ new)%list
    ∧ (truthy jobId = false →
       Forall (λ e, isAnalyticsTrack e = false) new)
    ∧ match snd run with
      | Returned attachment =>
          att_localPath attachment = EmptyString
          ∨ is_Some (files (fst run) !! att_localPath attachment)
      | Thrown e =>
          chartRows user chartUuid options tileUuid dashboardFilters
          = Thrown e
          ∨ ∃ row0 rest,
              chartRows user chartUuid options tileUuid dashboardFilters
              = Returned (row0 :: rest)
              ∧ (Exists (λ id, inherited id = true) (Object_keys row0)
                 ∨ (s3Service_isEnabled = true
                    ∧ ∃ content fileId,
                        s3Service_uploadCsv content fileId = Thrown e))
      end.
Proof.
  intros run. subst run.
  unfold chartRows, chartRowsOf.
  unfold getCsv, getCsvForChart, mbind, IO_bind, Outcome_bind, awaitIO.
  destruct (savedChartModel_get chartUuid) as [chart|e] eqn:Hchart;
    [|close_path ltac:(by left)].
  cbn zeta.
  destruct (truthy jobId) eqn:Hjob; cbn [emit mret IO_ret].
  all: destruct (projectService_getExplore user (chart_projectUuid chart)
                   (chart_tableName chart)) as [explore|e] eqn:Hexplore;
    [|close_path ltac:(by left)].
  all: destruct (projectService_runMetricQuery user _
                   (chart_projectUuid chart) (chart_tableName chart)
                   (getSchedulerCsvLimit options))
    as [[|row0 rest]|e] eqn:Hquery;
    [close_path ltac:(by left)| |close_path ltac:(by left)].
  all: assert (Hz : (Z.of_nat (length (row0 :: rest)) =? 0) = false)
    by (apply Z.eqb_neq; cbn [length]; lia).
  all: rewrite Hz.
  all: match goal with
       | |- context [writeRowsToFile ?mf ?fiv ?gil ?gilw ?gm ?gmw ?n
                                     (?r0 :: ?rs) ?raw ?mq ?im ?stn ?fn
                                     ?tr ?cl ?co ?w0] =>
           destruct (writeRowsToFile_rows_run mf fiv gil gilw gm gmw n
                       r0 rs raw mq im stn fn tr cl co w0)
             as [(csvHeader & _ & _ & Hwrite)|(e & Hwrite & _)];
           [|pose proof (writeRowsToFile_throws_inherited
                           mf fiv gil gilw gm gmw n r0 rs raw mq im stn
                           fn tr cl co w0 _ e Hwrite) as Hinherited];
           rewrite Hwrite
       end.
  2, 4: close_path ltac:(right; exists row0, rest; split; [done|];
                         by left).
  all: unfold readFile, emit, mret, IO_ret; cbn [files events].
  all: destruct s3Service_isEnabled; cbn [files events].
  all: rewrite ?lookup_insert_eq.
  all: try destruct (s3Service_uploadCsv _ _) as [s3Url|e] eqn:Hupload.
  all: try close_path ltac:(right; rewrite lookup_insert_eq; by eexists).
  all: close_path ltac:(right; exists row0, rest; split; [done|]; right;
                        split; [done|]; eauto).
Qed.




(** X16. Analytics are tracked for jobs only: when the job id is absent
    or empty, [getCsvForChart] tracks no event, whether the query has
    rows or not. *)
Theorem getCsvForChart_no_job_no_analytics (now : Moment.t)
    (user : SessionUser) (chartUuid : string)
    (options : option SchedulerCsvOptions)
    (jobId tileUuid : option string)
    (dashboardFilters : option DashboardFilters) (w : World) :
  truthy jobId = false →
  ∃ others,
    events (fst (getCsv now user chartUuid options jobId tileUuid
                        dashboardFilters w))
    = (events w ++ others)%list
    ∧ Forall (λ e, isAnalyticsTrack e = false) others.
Proof.
  intros Hjob.
  destruct (getCsvForChart_paths now user chartUuid options jobId tileUuid
              dashboardFilters w) as (new & Hevents & Hnone & _).
  exists new. split; [exact Hevents|exact (Hnone Hjob)].
Qed.


End ChartRowsFacts.



Lemma getCsvForChart_no_job_no_analytics_witness :
  ∃ others,
    events (fst (ordersChartExport true (Some EmptyString) emptyWorld))
    = ([] ++ others)%list
    ∧ Forall (λ e, isAnalyticsTrack e = false) others.
Proof.
  refine (getCsvForChart_no_job_no_analytics sampleMomentFormat
            sampleFormatItemValue (λ _, "label") (λ _, "label")
            (λ _, Returned VUndefined) (λ _, Returned VUndefined)
            unit unit unit unit configuredLimit
            (λ _, Returned emptyChart) (λ _ _ _, Returned tt)
            (λ _ _ _ _ _, Returned [ordersRow]) true
            (λ _ _, Returned "https://bucket/file")
            (λ _, ["orders"]) (λ _ _ f, f) (λ mq _, mq)
            (λ _ _, sampleItemMap) (λ _, "results") (λ _, true)
            (λ _, None) (λ _, ∅) time_2024_01_02 sampleUser
            "chart-1" None (Some EmptyString) None None emptyWorld _).
  reflexivity.
Defined.


(** ** More on the access filter *)

Section ExploreFurtherFacts.

Context {ExploreRest TableRest MetricT DimensionRest : Type}.

Local Abbreviation Dimension := (CompiledDimension DimensionRest).
Local Abbreviation Dims := (Dimensions DimensionRest).
Local Abbreviation Table := (CompiledTable TableRest MetricT DimensionRest).
Local Abbreviation Expl :=
  (Explore ExploreRest TableRest MetricT DimensionRest).

Implicit Types (userAttributes : gmap string Value) (d : Dimension).

(** The reduction leaves the empty array exactly when it keeps
    nothing. *)
Lemma filterDimensions_EmptyArray userAttributes (dims : Dims) :
  filterDimensions userAttributes dims = EmptyArray
  ↔ dimensionEntries (filterDimensions userAttributes dims) = ∅.
Proof.
  split; [by intros ->|].
  intros Hempty.
  destruct (foldl_keepStep_shape userAttributes
              (map_to_list (dimensionEntries dims)) EmptyArray)
    as [[Hfold _]|(kept & Hkept & Hex)];
    [by rewrite filterDimensions_fold|].
  apply Exists_exists in Hex as ([name d] & Hin & Hkeep).
  apply elem_of_map_to_list in Hin. cbn in Hkeep.
  assert (Hlookup :
            dimensionEntries (filterDimensions userAttributes dims) !! name
            = Some d).
  { by rewrite filterDimensions_lookup, Hin. }
  rewrite Hempty, lookup_empty in Hlookup. discriminate.
Qed.

Lemma filterDimensions_ext userAttributes1 userAttributes2
    (dims1 dims2 : Dims) :
  dimensionEntries (filterDimensions userAttributes1 dims1)
  = dimensionEntries (filterDimensions userAttributes2 dims2) →
  filterDimensions userAttributes1 dims1
  = filterDimensions userAttributes2 dims2.
Proof.
  intros Hentries.
  destruct (filterDimensions userAttributes1 dims1) as [|entries1] eqn:H1,
           (filterDimensions userAttributes2 dims2) as [|entries2] eqn:H2;
    cbn in Hentries.
  - done.
  - exfalso. assert (Hnone : filterDimensions userAttributes2 dims2
                             = EmptyArray).
    { apply filterDimensions_EmptyArray. by rewrite H2. }
    congruence.
  - exfalso. assert (Hnone : filterDimensions userAttributes1 dims1
                             = EmptyArray).
    { apply filterDimensions_EmptyArray. by rewrite H1. }
    congruence.
  - by subst.
Qed.

Lemma explore_ext (e1 e2 : Expl) :
  explore_rest e1 = explore_rest e2 → tables e1 = tables e2 → e1 = e2.
Proof. destruct e1, e2. cbn. by intros -> ->. Qed.

Lemma hasUserAttributes_weaken userAttributes1 userAttributes2 d :
  userAttributes1 ⊆ userAttributes2 →
  hasUserAttributes (requiredAttributes d) userAttributes1 = true →
  hasUserAttributes (requiredAttributes d) userAttributes2 = true.
Proof.
  intros Hsub. rewrite !hasUserAttributes_entitled. unfold entitled.
  destruct (requiredAttributes d) as [required|]; [|done].
  intros Hall attribute expectedValue Hreq.
  eapply lookup_weaken; [|exact Hsub]. by apply Hall.
Qed.

Lemma exploreHasFilteredAttribute_false (explore : Expl)
    (tableName : string) (table : Table) (name : string) d :
  exploreHasFilteredAttribute explore = false →
  tables explore !! tableName = Some table →
  dimensionEntries (dimensions table) !! name = Some d →
  requiredAttributes d = None.
Proof.
  intros Hnone Htable Hd.
  destruct (requiredAttributes d) as [required|] eqn:Hreq; [|done].
  exfalso. apply not_true_iff_false in Hnone. apply Hnone.
  unfold exploreHasFilteredAttribute, Object_entries.
  apply existsb_exists. exists table. split.
  { apply in_map_iff. exists (tableName, table). split; [done|].
    apply list_elem_of_In. by apply elem_of_map_to_list. }
  apply existsb_exists. exists d. split.
  { apply in_map_iff. exists (name, d). split; [done|].
    apply list_elem_of_In. by apply elem_of_map_to_list. }
  apply bool_decide_eq_true. by rewrite Hreq.
Qed.

(** X18. The shortcut is sound: when [exploreHasFilteredAttribute] says
    that no dimension of the explore declares required attributes, the
    filter hides nothing, whoever the user is: every table comes out
    with the same metrics and other properties and with the same
    dimensions under the same names. *)
Theorem exploreHasFilteredAttribute_false_keeps_all (explore : Expl)
    userAttributes (tableName : string) (table : Table) :
  exploreHasFilteredAttribute explore = false →
  tables explore !! tableName = Some table →
  ∃ filtered,
    tables (filterDimensionsFromExplore explore userAttributes)
      !! tableName = Some filtered
    ∧ metrics filtered = metrics table
    ∧ table_rest filtered = table_rest table
    ∧ dimensionEntries (dimensions filtered)
      = dimensionEntries (dimensions table).
Proof.
  intros Hnone Htable. exists (filterTable userAttributes table).
  rewrite filterDimensionsFromExplore_tables, lookup_fmap, Htable.
  split; [done|]. split; [done|]. split; [done|].
  apply map_eq. intros name. cbn [filterTable dimensions].
  rewrite filterDimensions_lookup.
  destruct (dimensionEntries (dimensions table) !! name) as [d|] eqn:Hd;
    cbn; [|done].
  unfold keptOf.
  rewrite (exploreHasFilteredAttribute_false explore tableName table name
             d Hnone Htable Hd).
  done.
Qed.

(** X19. A table that keeps no dimension comes out with the empty array
    for its [dimensions], not with an empty object: the reduction starts
    from [[]] and only makes an object once it keeps a dimension. So the
    [dimensions] of a filtered table are the empty array exactly when the
    user is entitled to none of the table's dimensions (also when the
    table has none), and otherwise an object with at least one entry. *)
Theorem filterDimensionsFromExplore_empty_array (explore : Expl)
    userAttributes (tableName : string) (table : Table) :
  tables explore !! tableName = Some table →
  ∃ filtered,
    tables (filterDimensionsFromExplore explore userAttributes)
      !! tableName = Some filtered
    ∧ (dimensions filtered = EmptyArray
       ↔ ∀ name d,
           dimensionEntries (dimensions table) !! name = Some d →
           hasUserAttributes (requiredAttributes d) userAttributes
           = false)
    ∧ (dimensions filtered = EmptyArray
       ∨ ∃ entries,
           dimensions filtered = DimensionsObject entries
           ∧ entries ≠ ∅).
Proof.
  intros Htable. exists (filterTable userAttributes table).
  rewrite filterDimensionsFromExplore_tables, lookup_fmap, Htable.
  split; [done|]. cbn [filterTable dimensions]. split.
  - rewrite filterDimensions_EmptyArray. split.
    + intros Hempty name d Hd.
      assert (Hlookup :
                dimensionEntries
                  (filterDimensions userAttributes (dimensions table))
                  !! name = None)
        by (by rewrite Hempty, lookup_empty).
      rewrite filterDimensions_lookup, Hd in Hlookup. cbn in Hlookup.
      unfold keptOf in Hlookup.
      by destruct (hasUserAttributes _ _).
    + intros Hall. apply map_eq. intros name.
      rewrite filterDimensions_lookup, lookup_empty.
      destruct (dimensionEntries (dimensions table) !! name) as [d|]
        eqn:Hd; cbn; [|done].
      unfold keptOf. by rewrite (Hall name d Hd).
  - destruct (filterDimensions userAttributes (dimensions table))
      as [|entries] eqn:Hfiltered; [by left|].
    right. exists entries. split; [done|]. intros ->.
    assert (Hnone : filterDimensions userAttributes (dimensions table)
                    = EmptyArray).
    { apply filterDimensions_EmptyArray. by rewrite Hfiltered. }
    congruence.
Qed.

(** X20. Filtering for one user's attributes and then for another's
    gives the same explore as filtering in the other order. *)
Theorem filterDimensionsFromExplore_commutes (explore : Expl)
    (userAttributes1 userAttributes2 : gmap string Value) :
  filterDimensionsFromExplore
    (filterDimensionsFromExplore explore userAttributes1) userAttributes2
  = filterDimensionsFromExplore
      (filterDimensionsFromExplore explore userAttributes2)
      userAttributes1.
Proof.
  apply explore_ext; [done|].
  rewrite !filterDimensionsFromExplore_tables, <- !map_fmap_compose.
  apply map_fmap_ext. intros tableName table _.
  unfold compose, filterTable. cbn. f_equal.
  apply filterDimensions_ext, map_eq. intros name.
  rewrite !filterDimensions_lookup.
  destruct (dimensionEntries (dimensions table) !! name) as [d|];
    cbn; [|done].
  unfold keptOf.
  destruct (hasUserAttributes (requiredAttributes d) userAttributes1)
    eqn:H1,
    (hasUserAttributes (requiredAttributes d) userAttributes2) eqn:H2;
    cbn; rewrite ?H1, ?H2; done.
Qed.

(** X21. More attributes never hide a dimension: if a user's attributes
    are among another user's, every dimension the filter keeps for the
    first it keeps for the second, under the same name. *)
Theorem filterDimensionsFromExplore_monotone (explore : Expl)
    (userAttributes1 userAttributes2 : gmap string Value)
    (tableName : string) (filtered1 : Table) :
  userAttributes1 ⊆ userAttributes2 →
  tables (filterDimensionsFromExplore explore userAttributes1)
    !! tableName = Some filtered1 →
  ∃ filtered2,
    tables (filterDimensionsFromExplore explore userAttributes2)
      !! tableName = Some filtered2
    ∧ dimensionEntries (dimensions filtered1)
      ⊆ dimensionEntries (dimensions filtered2).
Proof.
  intros Hsub.
  rewrite !filterDimensionsFromExplore_tables, !lookup_fmap.
  destruct (tables explore !! tableName) as [table|]; cbn; [|done].
  intros [= <-]. eexists. split; [done|].
  cbn [filterTable dimensions].
  apply map_subseteq_spec. intros name d.
  rewrite !filterDimensions_lookup.
  destruct (dimensionEntries (dimensions table) !! name) as [d'|];
    cbn; [|done].
  unfold keptOf.
  destruct (hasUserAttributes (requiredAttributes d') userAttributes1)
    eqn:H1; [|done].
  by rewrite (hasUserAttributes_weaken _ _ _ Hsub H1).
Qed.

End ExploreFurtherFacts.

(** X22. Two edges of the check of required attributes. A dimension
    whose required attributes are an empty object is open to every user,
    like one that declares none. And a user without attributes passes
    the check for these two kinds of dimension only. *)
Theorem hasUserAttributes_no_attributes
    (required : option (gmap string string))
    (userAttributes : gmap string Value) :
  hasUserAttributes (Some ∅) userAttributes = true
  ∧ (hasUserAttributes required ∅ = true
     ↔ required = None ∨ required = Some ∅).
Proof.
  split.
  - unfold hasUserAttributes, Object_entries.
    by rewrite map_to_list_empty.
  - unfold hasUserAttributes, Object_entries.
    destruct required as [required|].
    2: { split; [by left|done]. }
    split.
    + intros Hall. right. f_equal. apply map_empty. intros name.
      destruct (required !! name) as [value|] eqn:Hname; [|done].
      exfalso.
      rewrite forallb_forall in Hall.
      specialize (Hall (name, value)). cbn in Hall.
      unfold hasUserAttribute in Hall.
      rewrite lookup_empty in Hall. cbn in Hall.
      assert (Hin : In (name, value) (map_to_list required)).
      { apply list_elem_of_In. by apply elem_of_map_to_list. }
      specialize (Hall Hin). by apply bool_decide_eq_true in Hall.
    + intros [Hnone|[= ->]]; [done|]. by rewrite map_to_list_empty.
Qed.

Lemma exploreHasFilteredAttribute_false_keeps_all_witness :
  ∃ filtered,
    tables (filterDimensionsFromExplore openExplore analystAttributes)
      !! "orders" = Some filtered
    ∧ metrics filtered = metrics openTable
    ∧ table_rest filtered = table_rest openTable
    ∧ dimensionEntries (dimensions filtered)
      = dimensionEntries (dimensions openTable).
Proof.
  apply (exploreHasFilteredAttribute_false_keeps_all openExplore
           analystAttributes "orders" openTable).
  - vm_compute. reflexivity.
  - vm_compute. reflexivity.
Defined.

Lemma filterDimensionsFromExplore_empty_array_witness :
  ∃ filtered,
    tables (filterDimensionsFromExplore sampleExplore analystAttributes)
      !! "orders" = Some filtered
    ∧ (dimensions filtered = EmptyArray
       ↔ ∀ name d,
           dimensionEntries (dimensions ordersTable) !! name = Some d →
           hasUserAttributes (requiredAttributes d) analystAttributes
           = false)
    ∧ (dimensions filtered = EmptyArray
       ∨ ∃ entries,
           dimensions filtered = DimensionsObject entries
           ∧ entries ≠ ∅).
Proof.
  apply (filterDimensionsFromExplore_empty_array sampleExplore
           analystAttributes "orders" ordersTable).
  vm_compute. reflexivity.
Defined.

Lemma filterDimensionsFromExplore_monotone_witness :
  ∃ filtered2,
    tables (filterDimensionsFromExplore sampleExplore staffAttributes)
      !! "orders" = Some filtered2
    ∧ dimensionEntries
        (dimensions (filterTable analystAttributes ordersTable))
      ⊆ dimensionEntries (dimensions filtered2).
Proof.
  apply (filterDimensionsFromExplore_monotone sampleExplore
           analystAttributes staffAttributes "orders"
           (filterTable analystAttributes ordersTable)).
  - apply (bool_decide_unpack _). vm_compute. reflexivity.
  - vm_compute. reflexivity.
Defined.

(** ** The download endpoints *)

Section DownloadCsvFacts.

Variable momentFormat : Value → string → string.
Variable formatItemValue : option Item → Value → Value.
Variable getItemLabel : Item → string.
Variable getItemLabelWithoutTableName : Item → string.
Variable getItemLabelOfMember : string → Outcome Value.
Variable getItemLabelWithoutTableNameOfMember : string → Outcome Value.
Variables (ExploreT MetricQueryRest : Type).
Variable lightdashConfig : LightdashConfig.
Variable errorText : string → string.
Variable userModel_findSessionUserByUUID : string → Outcome SessionUser.
Variable ability_cannot :
  SessionUser → string → string → string → string → bool.
Variable projectService_getExplore :
  SessionUser → string → string → Outcome ExploreT.
Variable projectService_runMetricQuery :
  SessionUser → MetricQuery MetricQueryRest → string → string →
  CsvLimit → Outcome (list Row).
Variable s3Service_isEnabled : bool.
Variable getItemMap :
  ExploreT → MetricQuery MetricQueryRest → gmap string Item.
Variable parseAnalyticsLimit : CsvLimit → string.
Variable uploadRecords : CsvRecords → string → Outcome string.

Let download :=
  downloadCsv momentFormat formatItemValue getItemLabel
    getItemLabelWithoutTableName getItemLabelOfMember
    getItemLabelWithoutTableNameOfMember ExploreT MetricQueryRest
    lightdashConfig
    errorText userModel_findSessionUserByUUID ability_cannot
    projectService_getExplore projectService_runMetricQuery
    s3Service_isEnabled getItemMap parseAnalyticsLimit uploadRecords.
Let baseProperties :=
  baseAnalyticsPropertiesOf MetricQueryRest s3Service_isEnabled.
Let properties :=
  analyticsPropertiesOf MetricQueryRest s3Service_isEnabled
                        parseAnalyticsLimit.

(** The user of the payload is known and may export from its project. *)
Let admitted (payload : DownloadMetricCsv MetricQueryRest)
    (user : SessionUser) : Prop :=
  userModel_findSessionUserByUUID (dl_userUuid payload) = Returned user
  ∧ ability_cannot user "manage" "ExportCsv" (organizationUuid user)
                   (dl_projectUuid payload) = false.

(** The query of the payload answers with these rows, and its explore is
    there. *)
Let answers (payload : DownloadMetricCsv MetricQueryRest)
    (user : SessionUser) (rows : list Row) : Prop :=
  projectService_runMetricQuery user (dl_metricQuery payload)
    (dl_projectUuid payload) (dl_exploreId payload) (dl_csvLimit payload)
  = Returned rows
  ∧ ∃ explore,
      projectService_getExplore user (dl_projectUuid payload)
                                (dl_exploreId payload)
      = Returned explore.

Lemma liftIO_writeRowsToFile_no_rows {Rest : Type} (now : Moment.t)
    (onlyRaw : bool) (metricQuery : MetricQuery Rest)
    (itemMap : gmap string Item) (showTableNames : bool)
    (fileName : string) (truncated : bool)
    (customLabels : gmap string string) (columnOrder : list string)
    (sw : ServiceWorld CsvRecords) :
  liftIO (writeRowsToFile momentFormat formatItemValue getItemLabel
            getItemLabelWithoutTableName getItemLabelOfMember
            getItemLabelWithoutTableNameOfMember now [] onlyRaw
            metricQuery itemMap showTableNames fileName truncated
            customLabels columnOrder) sw
  = ({| sw_files :=
          <["/tmp/" +:+ generateFileId fileName truncated now := []]>
            (sw_files sw);
        sw_log := sw_log sw |},
     Thrown "TypeError").
Proof.
  unfold liftIO, writeRowsToFile, writeFile, throw, mbind, IO_bind. cbn.
  by rewrite app_nil_r.
Qed.

(** Writing rows either leaves a header and one record per row and
    returns the file id, or leaves the file empty and throws. *)
Lemma liftIO_writeRowsToFile_rows {Rest : Type} (now : Moment.t)
    (row0 : Row) (rest : list Row)
    (onlyRaw : bool) (metricQuery : MetricQuery Rest)
    (itemMap : gmap string Item) (showTableNames : bool)
    (fileName : string) (truncated : bool)
    (customLabels : gmap string string) (columnOrder : list string)
    (sw : ServiceWorld CsvRecords) :
  let written :=
    liftIO (writeRowsToFile momentFormat formatItemValue getItemLabel
              getItemLabelWithoutTableName getItemLabelOfMember
              getItemLabelWithoutTableNameOfMember now (row0 :: rest)
              onlyRaw metricQuery itemMap showTableNames fileName
              truncated customLabels columnOrder) sw in
  (∃ content,
     length content = S (S (length rest))
     ∧ written
       = ({| sw_files :=
               <["/tmp/" +:+ generateFileId fileName truncated now
                 := content]> (sw_files sw);
             sw_log := sw_log sw |},
          Returned (generateFileId fileName truncated now)))
  ∨ (∃ e,
       Exists (λ id, inherited id = true) (Object_keys row0)
       ∧ written
         = ({| sw_files :=
                 <["/tmp/" +:+ generateFileId fileName truncated now
                   := []]> (sw_files sw);
               sw_log := sw_log sw |},
            Thrown e)).
Proof.
  intros written. subst written. unfold liftIO.
  destruct (writeRowsToFile_rows_run momentFormat formatItemValue
              getItemLabel getItemLabelWithoutTableName
              getItemLabelOfMember getItemLabelWithoutTableNameOfMember
              now row0 rest onlyRaw metricQuery itemMap showTableNames
              fileName truncated customLabels columnOrder
              {| files := sw_files sw; events := [] |})
    as [(csvHeader & _ & _ & Hrun)|(e & Hrun & _)].
  - left. eexists. split; [|rewrite Hrun; cbn; by rewrite app_nil_r].
    cbn. by rewrite length_map.
  - right. exists e. split.
    + exact (writeRowsToFile_throws_inherited _ _ _ _ _ _ _ _ _ _ _ _ _
               _ _ _ _ _ _ _ Hrun).
    + rewrite Hrun. cbn. by rewrite app_nil_r.
Qed.


Lemma downloadCsv_query_fails (now : Moment.t) (jobId : string)
    (payload : DownloadMetricCsv MetricQueryRest) (user : SessionUser)
    (sw : ServiceWorld CsvRecords) (e : string) :
  admitted payload user →
  projectService_runMetricQuery user (dl_metricQuery payload)
    (dl_projectUuid payload) (dl_exploreId payload) (dl_csvLimit payload)
  = Thrown e →
  download now jobId payload sw
  = ({| sw_files := sw_files sw;
        sw_log :=
          sw_log sw ++
          [Track "download_results.started" (userUuid user)
                 (properties jobId payload user);
           Track "download_results.error" (userUuid user)
                 (<["error" := VString (errorText e)]>
                    (baseProperties jobId payload user))] |},
     Thrown e).
Proof.
  intros [Hfind Hallowed] Hrows.
  unfold download, downloadCsv. cbn zeta.
  unfold mbind, Service_bind, await. rewrite Hfind, Hallowed.
  unfold tryCatch, track. cbn. rewrite Hrows. cbn.
  by rewrite <- app_assoc.
Qed.

Lemma downloadCsv_explore_fails (now : Moment.t) (jobId : string)
    (payload : DownloadMetricCsv MetricQueryRest) (user : SessionUser)
    (sw : ServiceWorld CsvRecords) (rows : list Row) (e : string) :
  admitted payload user →
  projectService_runMetricQuery user (dl_metricQuery payload)
    (dl_projectUuid payload) (dl_exploreId payload) (dl_csvLimit payload)
  = Returned rows →
  projectService_getExplore user (dl_projectUuid payload)
                            (dl_exploreId payload)
  = Thrown e →
  download now jobId payload sw
  = ({| sw_files := sw_files sw;
        sw_log :=
          sw_log sw ++
          [Track "download_results.started" (userUuid user)
                 (properties jobId payload user);
           Track "download_results.error" (userUuid user)
                 (<["error" := VString (errorText e)]>
                    (baseProperties jobId payload user))] |},
     Thrown e).
Proof.
  intros [Hfind Hallowed] Hrows Hexplore.
  unfold download, downloadCsv. cbn zeta.
  unfold mbind, Service_bind, await. rewrite Hfind, Hallowed.
  unfold tryCatch, track. cbn. rewrite Hrows, Hexplore. cbn.
  by rewrite <- app_assoc.
Qed.

(** The rows are there, but the header cannot be written. *)
Lemma downloadCsv_header_fails (now : Moment.t) (jobId : string)
    (payload : DownloadMetricCsv MetricQueryRest) (user : SessionUser)
    (sw : ServiceWorld CsvRecords) (rows : list Row)
    (explore : ExploreT) (e : string) :
  admitted payload user →
  projectService_runMetricQuery user (dl_metricQuery payload)
    (dl_projectUuid payload) (dl_exploreId payload) (dl_csvLimit payload)
  = Returned rows →
  projectService_getExplore user (dl_projectUuid payload)
                            (dl_exploreId payload)
  = Returned explore →
  let truncated := couldBeTruncated lightdashConfig rows in
  let fileId := generateFileId (dl_exploreId payload) truncated now in
  let started :=
    Track "download_results.started" (userUuid user)
          (properties jobId payload user) in
  liftIO (writeRowsToFile momentFormat formatItemValue getItemLabel
            getItemLabelWithoutTableName getItemLabelOfMember
            getItemLabelWithoutTableNameOfMember now rows
            (dl_onlyRaw payload) (dl_metricQuery payload)
            (getItemMap explore (dl_metricQuery payload))
            (dl_showTableNames payload) (dl_exploreId payload) truncated
            (default ∅ (dl_customLabels payload))
            (default [] (dl_columnOrder payload)))
         {| sw_files := sw_files sw; sw_log := sw_log sw ++ [started] |}
  = ({| sw_files := <["/tmp/" +:+ fileId := []]> (sw_files sw);
        sw_log := sw_log sw ++ [started] |},
     Thrown e) →
  download now jobId payload sw
  = ({| sw_files := <["/tmp/" +:+ fileId := []]> (sw_files sw);
        sw_log :=
          sw_log sw ++
          [started;
           Track "download_results.error" (userUuid user)
                 (<["error" := VString (errorText e)]>
                    (baseProperties jobId payload user))] |},
     Thrown e).
Proof.
  intros [Hfind Hallowed] Hrows Hexplore truncated fileId started Hwrite.
  unfold properties, baseProperties in *.
  unfold download, downloadCsv. cbn zeta.
  unfold mbind, Service_bind, await. rewrite Hfind, Hallowed.
  unfold tryCatch, track. cbn -[couldBeTruncated generateFileId].
  rewrite Hrows, Hexplore. cbn -[couldBeTruncated generateFileId].
  subst started fileId truncated.
  unfold CsvRecords in *. rewrite Hwrite.
  cbn. by rewrite <- !app_assoc.
Qed.

Lemma downloadCsv_without_rows (now : Moment.t) (jobId : string)
    (payload : DownloadMetricCsv MetricQueryRest) (user : SessionUser)
    (sw : ServiceWorld CsvRecords) :
  admitted payload user →
  answers payload user [] →
  download now jobId payload sw
  = ({| sw_files :=
          <["/tmp/" +:+ generateFileId (dl_exploreId payload) false now
            := []]> (sw_files sw);
        sw_log :=
          sw_log sw ++
          [Track "download_results.started" (userUuid user)
                 (properties jobId payload user);
           Track "download_results.error" (userUuid user)
                 (<["error" := VString (errorText "TypeError")]>
                    (baseProperties jobId payload user))] |},
     Thrown "TypeError").
Proof.
  intros Hadmitted [Hrows [explore Hexplore]].
  apply (downloadCsv_header_fails now jobId payload user sw [] explore
           "TypeError" Hadmitted Hrows Hexplore).
  apply liftIO_writeRowsToFile_no_rows.
Qed.

(** The rows are there and the file is written. *)
Lemma downloadCsv_written (now : Moment.t) (jobId : string)
    (payload : DownloadMetricCsv MetricQueryRest) (user : SessionUser)
    (sw : ServiceWorld CsvRecords) (row0 : Row) (rest : list Row)
    (explore : ExploreT) (content : CsvRecords) :
  admitted payload user →
  projectService_runMetricQuery user (dl_metricQuery payload)
    (dl_projectUuid payload) (dl_exploreId payload) (dl_csvLimit payload)
  = Returned (row0 :: rest) →
  projectService_getExplore user (dl_projectUuid payload)
                            (dl_exploreId payload)
  = Returned explore →
  let truncated := couldBeTruncated lightdashConfig (row0 :: rest) in
  let fileId := generateFileId (dl_exploreId payload) truncated now in
  let path := "/tmp/" +:+ fileId in
  let started :=
    Track "download_results.started" (userUuid user)
          (properties jobId payload user) in
  let completed :=
    Track "download_results.completed" (userUuid user)
          (<["numRows" := VNumber (Z.of_nat (S (length rest)))]>
             (properties jobId payload user)) in
  liftIO (writeRowsToFile momentFormat formatItemValue getItemLabel
            getItemLabelWithoutTableName getItemLabelOfMember
            getItemLabelWithoutTableNameOfMember now (row0 :: rest)
            (dl_onlyRaw payload) (dl_metricQuery payload)
            (getItemMap explore (dl_metricQuery payload))
            (dl_showTableNames payload) (dl_exploreId payload) truncated
            (default ∅ (dl_customLabels payload))
            (default [] (dl_columnOrder payload)))
         {| sw_files := sw_files sw; sw_log := sw_log sw ++ [started] |}
  = ({| sw_files := <[path := content]> (sw_files sw);
        sw_log := sw_log sw ++ [started] |},
     Returned fileId) →
  download now jobId payload sw
  = if s3Service_isEnabled then
      match uploadRecords content fileId with
      | Returned url =>
          ({| sw_files := delete path (sw_files sw);
              sw_log :=
                sw_log sw ++
                [started; Upload content fileId; completed] |},
           Returned {| fileUrl := url; res_truncated := truncated |})
      | Thrown e =>
          ({| sw_files := <[path := content]> (sw_files sw);
              sw_log :=
                sw_log sw ++
                [started; Upload content fileId;
                 Track "download_results.error" (userUuid user)
                       (<["error" := VString (errorText e)]>
                          (baseProperties jobId payload user))] |},
           Thrown e)
      end
    else
      ({| sw_files := <[path := content]> (sw_files sw);
          sw_log := sw_log sw ++ [started; completed] |},
       Returned
         {| fileUrl :=
              siteUrl lightdashConfig +:+ "/api/v1/projects/" +:+
              dl_projectUuid payload +:+ "/csv/" +:+ fileId;
            res_truncated := truncated |}).
Proof.
  intros [Hfind Hallowed] Hrows Hexplore
         truncated fileId path started completed Hwrite.
  unfold properties, baseProperties in *.
  unfold download, downloadCsv. cbn zeta.
  unfold mbind, Service_bind, await. rewrite Hfind, Hallowed.
  unfold tryCatch, track. cbn -[couldBeTruncated generateFileId].
  rewrite Hrows, Hexplore. cbn -[couldBeTruncated generateFileId].
  subst started completed path fileId truncated.
  unfold CsvRecords in *. rewrite Hwrite.
  destruct s3Service_isEnabled.
  - unfold fsReadFile, uploadCsv, fsUnlink. cbn [sw_files sw_log].
    rewrite lookup_insert_eq. cbn [sw_files sw_log].
    destruct (uploadRecords content _) as [url|e].
    + rewrite lookup_insert_eq. cbn. rewrite delete_insert_eq.
      by rewrite <- !app_assoc.
    + cbn. by rewrite <- !app_assoc.
  - cbn. by rewrite <- !app_assoc.
Qed.


(** X23. A refusal of [downloadCsv] leaves no trace: when the user of the
    payload is not found the error of the lookup is thrown, and when the
    user may not manage the export of CSV in the project a
    [ForbiddenError] is thrown; in both cases no file is written and no
    analytics event is tracked, not even the error event, since the check
    comes before the [try]. *)
Theorem downloadCsv_refused (now : Moment.t) (jobId : string)
    (payload : DownloadMetricCsv MetricQueryRest)
    (sw : ServiceWorld CsvRecords) :
  (∀ e,
     userModel_findSessionUserByUUID (dl_userUuid payload) = Thrown e →
     download now jobId payload sw = (sw, Thrown e))
  ∧ (∀ user,
       userModel_findSessionUserByUUID (dl_userUuid payload)
       = Returned user →
       ability_cannot user "manage" "ExportCsv" (organizationUuid user)
                      (dl_projectUuid payload) = true →
       download now jobId payload sw = (sw, Thrown "ForbiddenError")).
Proof.
  split.
  - intros e Hfind. unfold download, downloadCsv. cbn zeta.
    unfold mbind, Service_bind, await. by rewrite Hfind.
  - intros user Hfind Hcannot. unfold download, downloadCsv. cbn zeta.
    unfold mbind, Service_bind, await. by rewrite Hfind, Hcannot.
Qed.

(** X24. Once the user is admitted, [downloadCsv] tracks every outcome:
    the log grows by the started event, at most one upload, and one last
    event, which is the completed event with a number of rows when the
    call returns, and the error event with the text of the thrown error
    when it throws, whatever failed (the query, the explore, the writing
    of the file or the upload). *)
Theorem downloadCsv_tracks_outcome (now : Moment.t) (jobId : string)
    (payload : DownloadMetricCsv MetricQueryRest) (user : SessionUser)
    (sw : ServiceWorld CsvRecords) :
  admitted payload user →
  let run := download now jobId payload sw in
  ∃ uploads last,
    sw_log (fst run)
    = (sw_log sw ++
       [Track "download_results.started" (userUuid user)
              (properties jobId payload user)] ++
       uploads ++ [last])%list
    ∧ Forall (λ e, isTrack e = false) uploads
    ∧ (length uploads <= 1)%nat
    ∧ match snd run with
      | Returned _ =>
          ∃ numRows,
            last = Track "download_results.completed" (userUuid user)
                         (<["numRows" := VNumber numRows]>
                            (properties jobId payload user))
      | Thrown e =>
          last = Track "download_results.error" (userUuid user)
                       (<["error" := VString (errorText e)]>
                          (baseProperties jobId payload user))
      end.
Proof.
  intros Hadmitted run. subst run.
  destruct (projectService_runMetricQuery user (dl_metricQuery payload)
              (dl_projectUuid payload) (dl_exploreId payload)
              (dl_csvLimit payload)) as [rows|e] eqn:Hrows.
  2: { rewrite (downloadCsv_query_fails now jobId payload user sw e
                  Hadmitted Hrows).
       eexists [], _. cbn. split; [reflexivity|].
       split; [constructor|]. split; [lia|reflexivity]. }
  destruct (projectService_getExplore user (dl_projectUuid payload)
              (dl_exploreId payload)) as [explore|e] eqn:Hexplore.
  2: { rewrite (downloadCsv_explore_fails now jobId payload user sw rows e
                  Hadmitted Hrows Hexplore).
       eexists [], _. cbn. split; [reflexivity|].
       split; [constructor|]. split; [lia|reflexivity]. }
  assert (Hanswers : answers payload user rows)
    by (split; [exact Hrows|by exists explore]).
  destruct rows as [|row0 rest].
  { rewrite (downloadCsv_without_rows now jobId payload user sw
               Hadmitted Hanswers).
    eexists [], _. cbn. split; [reflexivity|].
    split; [constructor|]. split; [lia|reflexivity]. }
  destruct (liftIO_writeRowsToFile_rows now row0 rest (dl_onlyRaw payload)
              (dl_metricQuery payload)
              (getItemMap explore (dl_metricQuery payload))
              (dl_showTableNames payload) (dl_exploreId payload)
              (couldBeTruncated lightdashConfig (row0 :: rest))
              (default ∅ (dl_customLabels payload))
              (default [] (dl_columnOrder payload))
              {| sw_files := sw_files sw;
                 sw_log :=
                   sw_log sw ++
                   [Track "download_results.started" (userUuid user)
                          (properties jobId payload user)] |})
    as [(content & _ & Hwrite)|(e & _ & Hwrite)].
  2: { rewrite (downloadCsv_header_fails now jobId payload user sw
                  (row0 :: rest) explore e Hadmitted Hrows Hexplore
                  Hwrite).
       eexists [], _. cbn. split; [reflexivity|].
       split; [constructor|]. split; [lia|reflexivity]. }
  rewrite (downloadCsv_written now jobId payload user sw row0 rest explore
             content Hadmitted Hrows Hexplore Hwrite).
  destruct s3Service_isEnabled.
  - destruct (uploadRecords content _) as [url|e]; cbn.
    + eexists [Upload content _], _. split; [reflexivity|].
      split; [by repeat constructor|]. split; [cbn; lia|]. by eexists.
    + eexists [Upload content _], _. split; [reflexivity|].
      split; [by repeat constructor|]. split; [cbn; lia|]. reflexivity.
  - cbn. eexists [], _. split; [reflexivity|].
    split; [constructor|]. split; [cbn; lia|]. by eexists.
Qed.

(** X25. [downloadCsv] cannot export an empty result: when the query
    answers without rows, writing the file throws a [TypeError], which
    is tracked as the error of the download and thrown on; the file
    [/tmp/csv-...] that was created for the export stays behind, empty,
    and nothing is uploaded. ([getCsvForChart] answers the same case with
    the [#no-results] attachment.) *)
Theorem downloadCsv_no_rows (now : Moment.t) (jobId : string)
    (payload : DownloadMetricCsv MetricQueryRest) (user : SessionUser)
    (sw : ServiceWorld CsvRecords) :
  admitted payload user →
  answers payload user [] →
  let run := download now jobId payload sw in
  snd run = Thrown "TypeError"
  ∧ sw_files (fst run)
    = <["/tmp/" +:+ generateFileId (dl_exploreId payload) false now
        := []]> (sw_files sw)
  ∧ sw_log (fst run)
    = (sw_log sw ++
       [Track "download_results.started" (userUuid user)
              (properties jobId payload user);
        Track "download_results.error" (userUuid user)
              (<["error" := VString (errorText "TypeError")]>
                 (baseProperties jobId payload user))])%list.
Proof.
  intros Hadmitted Hanswers run. subst run.
  by rewrite (downloadCsv_without_rows now jobId payload user sw
                Hadmitted Hanswers).
Qed.



End DownloadCsvFacts.

Section DownloadSqlCsvFacts.

Variable friendlyName : string → string.
Variable isMomentInput : Value → bool.
Variable momentFormat : Value → string → string.
Variable stringify : CsvRecords → Outcome string.
Variable lightdashConfig : LightdashConfig.
Variable errorText : string → string.
Variable ability_cannot :
  SessionUser → string → string → string → string → bool.
Variable projectService_runSqlQuery :
  SessionUser → string → string → Outcome ApiSqlQueryResults.
Variable s3Service_isEnabled : bool.
Variable uploadText : string → string → Outcome string.

Let downloadSql :=
  downloadSqlCsv friendlyName isMomentInput momentFormat stringify
    lightdashConfig errorText ability_cannot projectService_runSqlQuery
    s3Service_isEnabled uploadText.
Let sqlProperties := sqlAnalyticsPropertiesOf s3Service_isEnabled.

(** X28. [downloadSqlCsv] tracks a refusal: the check of the permission
    is inside the [try], so a user who may not manage the export of CSV
    in the project gets the [ForbiddenError], and the log grows by the
    error event alone, with the text of that error; no started event is
    tracked, the query is not run and no file is written. *)
Theorem downloadSqlCsv_refused (jobId : string) (user : SessionUser)
    (projectUuid sql : string)
    (customLabels : option (gmap string string))
    (sw : ServiceWorld string) :
  ability_cannot user "manage" "ExportCsv" (organizationUuid user)
                 projectUuid = true →
  downloadSql jobId user projectUuid sql customLabels sw
  = ({| sw_files := sw_files sw;
        sw_log :=
          sw_log sw ++
          [Track "download_results.error" (userUuid user)
                 (<["error" := VString (errorText "ForbiddenError")]>
                    (sqlProperties jobId user projectUuid))] |},
     Thrown "ForbiddenError").
Proof.
  intros Hcannot. unfold downloadSql, downloadSqlCsv. cbn zeta.
  unfold tryCatch. by rewrite Hcannot.
Qed.

(** X29. [downloadSqlCsv] cannot export an empty result either: when the
    SQL query answers without rows the conversion throws a [TypeError],
    which is tracked after the started event and thrown on; nothing is
    written or uploaded. *)
Theorem downloadSqlCsv_no_rows (jobId : string) (user : SessionUser)
    (projectUuid sql : string)
    (customLabels : option (gmap string string))
    (sw : ServiceWorld string) (results : ApiSqlQueryResults) :
  ability_cannot user "manage" "ExportCsv" (organizationUuid user)
                 projectUuid = false →
  projectService_runSqlQuery user projectUuid sql = Returned results →
  sql_rows results = [] →
  downloadSql jobId user projectUuid sql customLabels sw
  = ({| sw_files := sw_files sw;
        sw_log :=
          sw_log sw ++
          [Track "download_results.started" (userUuid user)
                 (sqlProperties jobId user projectUuid);
           Track "download_results.error" (userUuid user)
                 (<["error" := VString (errorText "TypeError")]>
                    (sqlProperties jobId user projectUuid))] |},
     Thrown "TypeError").
Proof.
  intros Hallowed Hquery Hrows. unfold downloadSql, downloadSqlCsv.
  cbn zeta. unfold tryCatch. rewrite Hallowed.
  unfold mbind, Service_bind, track, await. cbn. rewrite Hquery.
  unfold liftConversion, convertSqlQueryResultsToCsv, convertSqlToCsv.
  rewrite Hrows. cbn.
  change (500 <? Z.of_nat 0) with false. cbn.
  by rewrite app_nil_r, <- app_assoc.
Qed.

(** X30. Where [downloadSqlCsv] puts a converted result: with S3 the text
    is handed to the upload under the key [csv-<job id>.csv] and no local
    file is written; without S3 the text is written to
    [/tmp/csv-<job id>.csv], and the link
    [<site url>/api/v1/projects/<project>/csv/csv-<job id>.csv] is
    returned. *)
Theorem downloadSqlCsv_storage (jobId : string) (user : SessionUser)
    (projectUuid sql : string)
    (customLabels : option (gmap string string))
    (sw : ServiceWorld string) (results : ApiSqlQueryResults)
    (csvContent : string) :
  ability_cannot user "manage" "ExportCsv" (organizationUuid user)
                 projectUuid = false →
  projectService_runSqlQuery user projectUuid sql = Returned results →
  snd (convertSqlQueryResultsToCsv friendlyName isMomentInput momentFormat
         stringify results customLabels {| files := ∅; events := [] |})
  = Returned csvContent →
  let run := downloadSql jobId user projectUuid sql customLabels sw in
  let fileId := "csv-" +:+ jobId +:+ ".csv" in
  if s3Service_isEnabled then
    sw_files (fst run) = sw_files sw
    ∧ In (Upload csvContent fileId) (sw_log (fst run))
    ∧ match uploadText csvContent fileId with
      | Returned url => snd run = Returned url
      | Thrown e => snd run = Thrown e
      end
  else
    sw_files (fst run) = <["/tmp/" +:+ fileId := csvContent]> (sw_files sw)
    ∧ Forall (λ e, isUpload e = false)
             (drop (length (sw_log sw)) (sw_log (fst run)))
    ∧ snd run
      = Returned (siteUrl lightdashConfig +:+ "/api/v1/projects/" +:+
                  projectUuid +:+ "/csv/" +:+ fileId).
Proof.
  intros Hallowed Hquery Hconvert run fileId. subst run.
  unfold downloadSql, downloadSqlCsv. cbn zeta. unfold tryCatch.
  rewrite Hallowed.
  unfold mbind, Service_bind, track, await. cbn. rewrite Hquery.
  unfold liftConversion.
  destruct (convertSqlQueryResultsToCsv friendlyName isMomentInput
              momentFormat stringify results customLabels
              {| files := ∅; events := [] |}) as [w' o] eqn:Hrun.
  cbn in Hconvert. subst o. fold fileId.
  destruct s3Service_isEnabled.
  - unfold uploadCsv. cbn.
    destruct (uploadText csvContent fileId) as [url|e]; cbn.
    + split; [done|]. split; [|done].
      rewrite !in_app_iff. left. right. by left.
    + split; [done|]. split; [|done].
      rewrite !in_app_iff. left. right. by left.
  - unfold fsWriteFile. cbn. split; [done|]. split; [|done].
    rewrite <- !app_assoc, drop_app_length.
    apply Forall_app. split; [by repeat constructor|].
    apply Forall_app. split; [|by repeat constructor].
    apply Forall_fmap, Forall_forall. by intros.
Qed.

End DownloadSqlCsvFacts.

Lemma downloadCsv_tracks_outcome_witness :
  ∃ uploads last,
    sw_log (fst (sampleDownloadCsv true [ordersRow] noFiles))
    = ([] ++
       [Track "download_results.started" "user-1"
              (analyticsPropertiesOf unit true (λ _, "table") "job-1"
                                     samplePayload sampleUser)] ++
       uploads ++ [last])%list
    ∧ (length uploads <= 1)%nat.
Proof.
  destruct (downloadCsv_tracks_outcome sampleMomentFormat
              sampleFormatItemValue (λ _, "label") (λ _, "label")
              (λ _, Returned VUndefined) (λ _, Returned VUndefined)
              unit unit
              configuredLimit (λ e, e) (λ _, Returned sampleUser)
              (λ _ _ _ _ _, false) (λ _ _ _, Returned tt)
              (λ _ _ _ _ _, Returned [ordersRow]) true
              (λ _ _, sampleItemMap) (λ _, "table")
              (λ _ _, Returned "https://bucket/file") time_2024_01_02
              "job-1" samplePayload sampleUser noFiles)
    as (uploads & last & Hlog & _ & Hlength & _).
  - split; reflexivity.
  - exists uploads, last. split; assumption.
Defined.

Lemma downloadCsv_no_rows_witness :
  snd (sampleDownloadCsv false [] noFiles) = Thrown "TypeError".
Proof.
  refine (proj1 (downloadCsv_no_rows sampleMomentFormat
                   sampleFormatItemValue (λ _, "label") (λ _, "label")
                   (λ _, Returned VUndefined) (λ _, Returned VUndefined)
                   unit unit configuredLimit (λ e, e)
                   (λ _, Returned sampleUser) (λ _ _ _ _ _, false)
                   (λ _ _ _, Returned tt) (λ _ _ _ _ _, Returned []) false
                   (λ _ _, sampleItemMap) (λ _, "table")
                   (λ _ _, Returned "https://bucket/file") time_2024_01_02
                   "job-1" samplePayload sampleUser noFiles _ _)).
  - split; reflexivity.
  - split; [reflexivity|]. by exists tt.
Defined.



Lemma downloadSqlCsv_refused_witness :
  sampleDownloadSqlCsv false true ordersSqlResults noFiles
  = ({| sw_files := ∅;
        sw_log :=
          [] ++
          [Track "download_results.error" "user-1"
                 (<["error" := VString "ForbiddenError"]>
                    (sqlAnalyticsPropertiesOf false "job-1" sampleUser
                                              "project-1"))] |},
     Thrown "ForbiddenError").
Proof.
  apply (downloadSqlCsv_refused (λ id, id) (λ _, false) sampleMomentFormat
           (λ _, Returned "status,count") configuredLimit (λ e, e)
           (λ _ _ _ _ _, true) (λ _ _ _, Returned ordersSqlResults) false
           (λ _ _, Returned "https://bucket/file") "job-1" sampleUser
           "project-1" "select 1" None noFiles).
  reflexivity.
Defined.

Lemma downloadSqlCsv_no_rows_witness :
  sampleDownloadSqlCsv false false noSqlResults noFiles
  = ({| sw_files := ∅;
        sw_log :=
          [] ++
          [Track "download_results.started" "user-1"
                 (sqlAnalyticsPropertiesOf false "job-1" sampleUser
                                           "project-1");
           Track "download_results.error" "user-1"
                 (<["error" := VString "TypeError"]>
                    (sqlAnalyticsPropertiesOf false "job-1" sampleUser
                                              "project-1"))] |},
     Thrown "TypeError").
Proof.
  apply (downloadSqlCsv_no_rows (λ id, id) (λ _, false) sampleMomentFormat
           (λ _, Returned "status,count") configuredLimit (λ e, e)
           (λ _ _ _ _ _, false) (λ _ _ _, Returned noSqlResults) false
           (λ _ _, Returned "https://bucket/file") "job-1" sampleUser
           "project-1" "select 1" None noFiles noSqlResults);
    reflexivity.
Defined.

Lemma downloadSqlCsv_storage_witness :
  sw_files (fst (sampleDownloadSqlCsv false false ordersSqlResults noFiles))
  = <["/tmp/" +:+ ("csv-" +:+ "job-1" +:+ ".csv") := "status,count"]> ∅
  ∧ Forall (λ e, isUpload e = false)
           (drop 0 (sw_log (fst (sampleDownloadSqlCsv false false
                                   ordersSqlResults noFiles))))
  ∧ snd (sampleDownloadSqlCsv false false ordersSqlResults noFiles)
    = Returned ("http://localhost:8080" +:+ "/api/v1/projects/" +:+
                "project-1" +:+ "/csv/" +:+
                ("csv-" +:+ "job-1" +:+ ".csv")).
Proof.
  apply (downloadSqlCsv_storage (λ id, id) (λ _, false) sampleMomentFormat
           (λ _, Returned "status,count") configuredLimit (λ e, e)
           (λ _ _ _ _ _, false) (λ _ _ _, Returned ordersSqlResults) false
           (λ _ _, Returned "https://bucket/file") "job-1" sampleUser
           "project-1" "select 1" None noFiles ordersSqlResults
           "status,count");
    reflexivity.
Defined.
